(** * DesignChat: the model dispatcher and its provider registry

    A shallow embedding of [src/config/modelsLoader.ts],
    [src/services/model/modelManager.ts] and
    [src/services/api/modelApiManager.ts], of the storage service the
    dispatcher calls ([storageService.ts]), and of two callers: the chat
    input ([src/hooks/chat/useChatInput.ts]), which drives the streaming
    entry point, and the model store ([src/store/modelStore.ts]), which
    joins the catalog with the configurations of the user.

    Provider groups are the strings they are at run time; the admission
    ledger is a pair of finite maps keyed by group; asynchronous code is a
    state-and-exception monad over a world that holds the ledger, the clock
    and the trace of calls made to the outside (adapters, storage,
    callbacks).  The interleaving of several calls on the event loop is a
    step relation of its own, in [Module EventLoop]. *)

From Stdlib Require Import ZArith List Lia Bool Sorted.
From stdpp Require Import gmap strings list fin_maps.

Open Scope string_scope.
Open Scope list_scope.
Open Scope Z_scope.

(** ** JavaScript values the dispatcher depends on *)

(** A string is truthy unless it is empty; an absent property is falsy. *)
Definition truthy (s : option string) : bool :=
  match s with
  | Some v => negb (String.eqb v "")
  | None => false
  end.

(** [s || ''] *)
Definition orEmpty (s : option string) : string :=
  match s with
  | Some v => v
  | None => ""
  end.

(** [n || d] on numbers: [undefined] and [0] are falsy. *)
Definition orNumber (n : option Z) (d : Z) : Z :=
  match n with
  | Some v => if v =? 0 then d else v
  | None => d
  end.

(** What a [throw] carries: an [Error] with its message, or any other value. *)
Inductive thrown : Type :=
  | ErrorObj (message : string)
  | NonError.

(** [error instanceof Error ? error.message : '未知错误'] *)
Definition errorMessage (e : thrown) : string :=
  match e with
  | ErrorObj m => m
  | NonError => "未知错误"
  end.

Inductive outcome (A : Type) : Type :=
  | Returned (a : A)
  | Thrown (e : thrown).
Arguments Returned {A} a.
Arguments Thrown {A} e.

(** ** Provider registry *)

Module Registry.

(** [models.types.ts]: GroupConfig *)
Record GroupConfig : Type := mkGroupConfig {
  maxConcurrent : Z;
  cooldownMs : Z
}.

(** [models.types.ts]: ImageModel; the fields the dispatcher never reads
    (publishDate, description, demo) are left out. *)
Record ImageModel : Type := mkImageModel {
  id : string;
  name : string;
  category : string;
  group : string
}.

(** [models.json], "configs", in the order of the file. *)
Definition configs : list (string * GroupConfig) :=
  [ ("doubao", mkGroupConfig 2 1000);
    ("openai", mkGroupConfig 2 1000);
    ("cogview", mkGroupConfig 2 1000);
    ("tongyi", mkGroupConfig 2 1000);
    ("jimeng", mkGroupConfig 2 1000) ].

(** [models.json], "models". *)
Definition models : list ImageModel :=
  [ mkImageModel "doubao-seedream-3-0-t2i-250415" "豆包通用3.0" "豆包" "doubao";
    mkImageModel "high_aes_general_v21_L" "豆包通用2.1" "豆包" "doubao";
    mkImageModel "high_aes_general_v20_L" "豆包通用2.0Pro" "豆包" "doubao";
    mkImageModel "high_aes_general_v20" "豆包通用2.0" "豆包" "doubao";
    mkImageModel "high_aes_general_v14" "豆包通用1.4" "豆包" "doubao";
    mkImageModel "t2i_xl_sft" "豆包通用XL Pro" "豆包" "doubao";
    mkImageModel "gpt_4o" "GPT-4o-Image" "OpenAI" "openai";
    mkImageModel "cogView-4-250304" "CogView-4" "智谱" "cogview";
    mkImageModel "wanx2.0-t2i-turbo" "通义万相2.0-文生图-Turbo" "通义万相" "tongyi";
    mkImageModel "wanx2.1-t2i-turbo" "通义万相2.1-文生图-Turbo" "通义万相" "tongyi";
    mkImageModel "wanx2.1-t2i-plus" "通义万相2.1-文生图-Plus" "通义万相" "tongyi";
    mkImageModel "jimeng_high_aes_general_v21_L" "即梦文生图2.1" "即梦" "jimeng" ].

(** The result of the property read [config.configs[group]].  The object
    comes from JSON, so besides its own five keys it answers to the names
    it inherits from [Object.prototype]; every other name reads as
    [undefined]. *)
Inductive configValue : Type :=
  | JUndefined
  | JGroupConfig (c : GroupConfig)
  | JInherited (property : string).

Definition objectPrototypeKeys : list string :=
  [ "constructor"; "hasOwnProperty"; "isPrototypeOf"; "propertyIsEnumerable";
    "toLocaleString"; "toString"; "valueOf"; "__proto__";
    "__defineGetter__"; "__defineSetter__"; "__lookupGetter__"; "__lookupSetter__" ].

Fixpoint ownProperty (key : string) (o : list (string * GroupConfig)) : option GroupConfig :=
  match o with
  | [] => None
  | (k, v) :: rest => if String.eqb k key then Some v else ownProperty key rest
  end.

Definition inheritedProperty (key : string) : bool :=
  existsb (String.eqb key) objectPrototypeKeys.

(** [modelsLoader.ts], lines 32-35: getGroupConfig.  A property read never
    raises. *)
Definition getGroupConfig (group : string) : outcome configValue :=
  Returned
    match ownProperty group configs with
    | Some c => JGroupConfig c
    | None => if inheritedProperty group then JInherited group else JUndefined
    end.

(** [modelsLoader.ts]: getAllGroupConfigs *)
Definition getAllGroupConfigs : list (string * GroupConfig) := configs.

(** [modelManager.ts], lines 62-64: getModelById *)
Definition getModelById (modelId : string) : option ImageModel :=
  List.find (fun m => String.eqb (id m) modelId) models.

(** [modelManager.ts], lines 78-80: getModelConfigByGroup *)
Definition getModelConfigByGroup (group : string) : outcome configValue :=
  getGroupConfig group.

(** [!groupConfig] *)
Definition falsyConfig (v : configValue) : bool :=
  match v with
  | JUndefined => true
  | _ => false
  end.

Record ModelStatus : Type := mkModelStatus {
  available : bool;
  model : option ImageModel;
  groupConfig : option configValue;
  error : option string
}.

(** [modelManager.ts], lines 110-138: getModelStatus *)
Definition getModelStatus (modelId : string) : outcome ModelStatus :=
  match getModelById modelId with
  | None =>
      Returned (mkModelStatus false None None (Some ("模型不存在: " +:+ modelId)))
  | Some m =>
      match getModelConfigByGroup (group m) with
      | Thrown e => Thrown e
      | Returned cfg =>
          if falsyConfig cfg
          then Returned (mkModelStatus false (Some m) None
                           (Some ("模型组配置不存在: " +:+ group m)))
          else Returned (mkModelStatus true (Some m) (Some cfg) None)
      end
  end.

(** *** Catalog queries *)

(** [modelManager.ts], lines 47-49: getAllModels *)
Definition getAllModels : list ImageModel := models.

(** [modelManager.ts], lines 52-54: getModelsByCategory *)
Definition getModelsByCategory (c : string) : list ImageModel :=
  List.filter (fun m => String.eqb (category m) c) models.

(** [Set.prototype.add]: a set lists its members in the order in which
    they were first added. *)
Definition setAdd (s : list string) (x : string) : list string :=
  if existsb (String.eqb x) s then s else s ++ [x].

(** [[...new Set(xs)]] *)
Definition newSet (xs : list string) : list string := fold_left setAdd xs [].

(** [modelManager.ts], lines 57-59: getAllCategories *)
Definition getAllCategories : list string := newSet (List.map category models).

(** [modelManager.ts], lines 73-75: getModelConfig *)
Definition getModelConfig (m : ImageModel) : outcome configValue := getGroupConfig (group m).

(** [modelManager.ts], lines 88-101: isModelAvailable *)
Definition isModelAvailable (modelId : string) : outcome bool :=
  match getModelById modelId with
  | None => Returned false
  | Some m =>
      match getModelConfigByGroup (group m) with
      | Thrown e => Thrown e
      | Returned cfg => if falsyConfig cfg then Returned false else Returned true
      end
  end.

(** [modelManager.ts], lines 104-107: isGroupAvailable *)
Definition isGroupAvailable (group : string) : outcome bool :=
  match getModelConfigByGroup group with
  | Thrown e => Thrown e
  | Returned cfg => Returned (negb (falsyConfig cfg))
  end.

End Registry.

(** ** Storage collaborator *)

Module Storage.

(** [storageService.ts]: UploadResult (metadata is never read here). *)
Record UploadResult : Type := mkUploadResult {
  success : bool;
  url : option string;
  error : option string
}.

(** *** The service behind the answer *)

(** [storageService.ts]: StorageConfig *)
Record StorageConfig : Type := mkStorageConfig {
  bucketName : string;
  allowedMimeTypes : list string;
  maxFileSize : Z
}.

(** [storageService.ts], lines 46-50 *)
Definition DEFAULT_CONFIG : StorageConfig :=
  mkStorageConfig "designchat"
    ["image/jpeg"; "image/png"; "image/webp"; "image/gif"]
    (50 * 1024 * 1024).

(** What the service reads of a [File] or [Blob]. *)
Record Blob : Type := mkBlob {
  type : string;
  size : Z
}.

(** The answer of [corsProxy.fetchImageAsBlob]. *)
Record FetchResult : Type := mkFetchResult {
  fetched : bool;
  blob : option Blob;
  fetchError : option string
}.

(** Calls that leave the service, in the order they are made. *)
Inductive call : Type :=
  | CallFetch (imageUrl : string)
  | CallUpload (bucket fileName : string) (file : Blob)
  | CallPublicUrl (bucket filePath : string).

(** What the outside answers: whether the Supabase client exists, the
    proxy, the [error] field of the answer of an upload, the public
    address of a path, the date and the random part of a generated name,
    and the rendering of a size in megabytes with two decimals. *)
Record Outside : Type := mkOutside {
  supabase : bool;
  fetchImageAsBlob : string -> outcome FetchResult;
  upload : string -> Blob -> outcome (option thrown);
  publicUrl : string -> string;
  today : string;
  random : string;
  megabytes : Z -> string
}.

(** Asynchronous code of the service: an outcome and the calls made. *)
Definition IO (A : Type) : Type := list call -> outcome A * list call.

Definition ret {A} (a : A) : IO A := fun calls => (Returned a, calls).

Definition throw {A} (e : thrown) : IO A := fun calls => (Thrown e, calls).

Definition bind {A B} (m : IO A) (k : A -> IO B) : IO B := fun calls =>
  match m calls with
  | (Returned a, calls') => k a calls'
  | (Thrown e, calls') => (Thrown e, calls')
  end.

Definition tryCatch {A} (m : IO A) (handler : thrown -> IO A) : IO A := fun calls =>
  match m calls with
  | (Returned a, calls') => (Returned a, calls')
  | (Thrown e, calls') => handler e calls'
  end.

Definition perform {A} (c : call) (answer : outcome A) : IO A := fun calls =>
  (answer, calls ++ [c]).

(** [error instanceof Error ? error.message : fallback] *)
Definition messageOr (e : thrown) (fallback : string) : string :=
  match e with
  | ErrorObj m => m
  | NonError => fallback
  end.

(** The character [/]. *)
Definition slash : Ascii.ascii := Ascii.ascii_of_nat 47.

(** The text after the first slash, if there is a slash. *)
Fixpoint afterSlash (s : string) : option string :=
  match s with
  | EmptyString => None
  | String c rest => if Ascii.eqb c slash then Some rest else afterSlash rest
  end.

Fixpoint untilSlash (s : string) : string :=
  match s with
  | EmptyString => EmptyString
  | String c rest => if Ascii.eqb c slash then EmptyString else String c (untilSlash rest)
  end.

(** [mimeType.split('/')[1] || 'jpg'] *)
Definition extension (mimeType : string) : string :=
  match afterSlash mimeType with
  | Some rest => if String.eqb (untilSlash rest) "" then "jpg" else untilSlash rest
  | None => "jpg"
  end.

(** generateFileName (lines 81-86) *)
Definition generateFileName (o : Outside) (originalName mimeType : string) : string :=
  today o +:+ "_" +:+ originalName +:+ "_" +:+ random o +:+ "." +:+ extension mimeType.

(** validateFileType (lines 91-93) *)
Definition validateFileType (config : StorageConfig) (mimeType : string) : bool :=
  existsb (String.eqb mimeType) (allowedMimeTypes config).

(** validateFileSize (lines 98-100) *)
Definition validateFileSize (config : StorageConfig) (size : Z) : bool :=
  size <=? maxFileSize config.

Definition failure (message : string) : UploadResult :=
  mkUploadResult false None (Some message).

(** getPublicUrl (lines 210-217) *)
Definition getPublicUrl (o : Outside) (config : StorageConfig) (filePath : string)
    : IO string :=
  if negb (supabase o) then throw (ErrorObj "Supabase client is not initialized")
  else perform (CallPublicUrl (bucketName config) filePath) (Returned (publicUrl o filePath)).

(** uploadImage (lines 109-167) *)
Definition uploadImage (o : Outside) (config : StorageConfig) (file : Blob)
    (fileName : option string) : IO UploadResult :=
  if negb (supabase o) then ret (failure "Supabase client is not initialized")
  else
    tryCatch
      (if negb (validateFileType config (type file))
       then ret (failure ("不支持的文件类型: " +:+ type file))
       else if negb (validateFileSize config (size file))
       then ret (failure ("文件大小超过限制: " +:+ megabytes o (size file) +:+ "MB"))
       else
         let finalFileName :=
           if truthy fileName then orEmpty fileName
           else generateFileName o "image" (type file) in
         bind (perform (CallUpload (bucketName config) finalFileName file)
                 (upload o finalFileName file))
           (fun error =>
              match error with
              | Some e => throw e
              | None =>
                  bind (getPublicUrl o config finalFileName)
                    (fun publicUrl => ret (mkUploadResult true (Some publicUrl) None))
              end))
      (fun error => ret (failure (messageOr error "上传失败"))).

(** uploadImageFromUrl (lines 172-205) *)
Definition uploadImageFromUrl (o : Outside) (config : StorageConfig) (imageUrl : string)
    (fileName : option string) : IO UploadResult :=
  tryCatch
    (bind (perform (CallFetch imageUrl) (fetchImageAsBlob o imageUrl))
       (fun result =>
          match fetched result, blob result with
          | true, Some b =>
              let file :=
                mkBlob (if String.eqb (type b) "" then "image/jpeg" else type b) (size b) in
              uploadImage o config file fileName
          | _, _ =>
              ret (failure (if truthy (fetchError result) then orEmpty (fetchError result)
                            else "无法获取图片内容"))
          end))
    (fun error => ret (failure (messageOr error "从 URL 上传失败"))).

End Storage.

(** ** The dispatcher, one call at a time *)

Module Dispatcher.

(** [baseService.ts]: StandardResponse.  [createdAt] holds the instant
    that [new Date().toISOString()] renders. *)
Record StandardResponse : Type := mkResponse {
  success : bool;
  message : option string;
  imageUrl : option string;
  error : option string;
  text : option string;
  createdAt : option Z
}.

Record Metadata : Type := mkMetadata {
  totalRequested : Z;
  successful : Z;
  failed : Z
}.

Record GenerationResponse : Type := mkGenerationResponse {
  results : list StandardResponse;
  metadata : option Metadata
}.

(** GPT4oServiceRequest | DoubaoServiceRequest *)
Record ServiceRequest : Type := mkServiceRequest {
  prompt : string;
  model : option string;
  count : option Z
}.

(** StreamGenerationRequest: its own count, and which callbacks the
    caller supplied (a call through [?.] reaches only those). *)
Record StreamGenerationRequest : Type := mkStreamRequest {
  streamCount : option Z;
  onProgress : bool;
  onComplete : bool;
  onError : bool
}.

(** The stored provider configuration handed in by the caller. *)
Record ConfigJson : Type := mkConfigJson {
  api_key : option string;
  api_secret : option string;
  ark_api_key : option string
}.

Record ModelConfig : Type := mkModelConfig {
  config_json : option ConfigJson
}.

(** Calls that leave the dispatcher, in the order they are made. *)
Inductive event : Type :=
  | EvAdapter (group : string) (prompt : string) (model : option string)
  | EvUpload (url : string)
  | EvProgress (result : StandardResponse) (index total : Z)
  | EvComplete (response : GenerationResponse)
  | EvError (e : thrown).

(** The admission ledger of the singleton, the clock and the trace.  Waits
    take a time that is not negative, so the clock never runs backwards. *)
Record World : Type := mkWorld {
  activeRequests : gmap string Z;
  lastRequestTime : gmap string Z;
  now : Z;
  trace : list event
}.

(** What the outside answers while one item is generated, and how long
    each answer takes. *)
Record ItemEnv : Type := mkItemEnv {
  checkAuth : outcome bool;
  authMs : N;
  timerLag : nat -> N;
  adapterResult : outcome StandardResponse;
  adapterMs : N;
  uploadResult : outcome Storage.UploadResult;
  uploadMs : N
}.

Definition POLLING_INTERVAL : Z := 100.
Definition DEFAULT_COUNT : Z := 1.

(** *** Asynchronous code as a monad

    [None] stands for a call that is still polling when the fuel of its
    admission wait is spent. *)
Definition M (A : Type) : Type := World -> option (outcome A * World).

Definition ret {A} (a : A) : M A := fun w => Some (Returned a, w).

Definition throw {A} (e : thrown) : M A := fun w => Some (Thrown e, w).

Definition bind {A B} (m : M A) (k : A -> M B) : M B := fun w =>
  match m w with
  | None => None
  | Some (Returned a, w') => k a w'
  | Some (Thrown e, w') => Some (Thrown e, w')
  end.

Definition tryCatch {A} (m : M A) (handler : thrown -> M A) : M A := fun w =>
  match m w with
  | None => None
  | Some (Returned a, w') => Some (Returned a, w')
  | Some (Thrown e, w') => handler e w'
  end.

Definition tryFinally {A} (m : M A) (cleanup : M unit) : M A := fun w =>
  match m w with
  | None => None
  | Some (r, w') =>
      match cleanup w' with
      | None => None
      | Some (Returned _, w'') => Some (r, w'')
      | Some (Thrown e, w'') => Some (Thrown e, w'')
      end
  end.

Notation "'let*' x ':=' m 'in' k" := (bind m (fun x => k))
  (at level 10, x name, m at level 100, k at level 200).
Notation "'do*' m 'in' k" := (bind m (fun _ => k))
  (at level 10, m at level 100, k at level 200).

(** [await] on a promise settled from outside after [ms] milliseconds. *)
Definition awaitExternal {A} (ms : N) (r : outcome A) : M A := fun w =>
  Some (r, mkWorld (activeRequests w) (lastRequestTime w) (now w + Z.of_N ms) (trace w)).

(** [Date.now()] *)
Definition dateNow : M Z := fun w => Some (Returned (now w), w).

Definition emit (ev : event) : M unit := fun w =>
  Some (Returned tt, mkWorld (activeRequests w) (lastRequestTime w) (now w) (trace w ++ [ev])).

(** [this.activeRequests.get(group) || 0] *)
Definition getActive (group : string) : M Z := fun w =>
  Some (Returned (orNumber (activeRequests w !! group) 0), w).

(** [this.lastRequestTime.get(group) || 0] *)
Definition getLast (group : string) : M Z := fun w =>
  Some (Returned (orNumber (lastRequestTime w !! group) 0), w).

Definition setActive (group : string) (v : Z) : M unit := fun w =>
  Some (Returned tt, mkWorld (<[group := v]> (activeRequests w)) (lastRequestTime w) (now w) (trace w)).

Definition setLast (group : string) (v : Z) : M unit := fun w =>
  Some (Returned tt, mkWorld (activeRequests w) (<[group := v]> (lastRequestTime w)) (now w) (trace w)).

Definition liftOutcome {A} (r : outcome A) : M A := fun w => Some (r, w).

(** initializeCounters (lines 91-96), on an empty ledger *)
Definition initializeCounters : gmap string Z * gmap string Z :=
  fold_left
    (fun maps kv => (<[kv.1 := 0]> maps.1, <[kv.1 := 0]> maps.2))
    Registry.getAllGroupConfigs (∅, ∅).

Definition initialWorld (t : Z) : World :=
  mkWorld initializeCounters.1 initializeCounters.2 t [].

(** waitForServiceAvailability (lines 98-115); [k] counts the polls made so
    far.  A configuration that is [undefined] makes the read of
    [maxConcurrent] throw; an inherited property has no such field, and no
    number is below [undefined]. *)
Fixpoint waitForServiceAvailability (fuel : nat) (lag : nat -> N) (k : nat)
    (group : string) : M unit :=
  match fuel with
  | O => fun _ => None
  | S fuel' =>
      let* activeCount := getActive group in
      let* lastRequest := getLast group in
      let* now := dateNow in
      let timeSinceLastRequest := now - lastRequest in
      let* modelConfig := liftOutcome (Registry.getModelConfigByGroup group) in
      let sleep :=
        do* awaitExternal (Z.to_N POLLING_INTERVAL + lag k) (Returned tt) in
        waitForServiceAvailability fuel' lag (S k) group in
      match modelConfig with
      | Registry.JUndefined =>
          throw (ErrorObj "Cannot read properties of undefined (reading 'maxConcurrent')")
      | Registry.JGroupConfig c =>
          if (activeCount <? Registry.maxConcurrent c)
             && (Registry.cooldownMs c <=? timeSinceLastRequest)
          then ret tt
          else sleep
      | Registry.JInherited _ => sleep
      end
  end.

(** executeRequest (lines 117-140) *)
Definition executeRequest {A} (fuel : nat) (e : ItemEnv) (group : string)
    (requestFn : M A) : M A :=
  let* isAuthenticated := awaitExternal (authMs e) (checkAuth e) in
  if negb isAuthenticated then throw (ErrorObj "AUTH_REQUIRED")
  else
    do* waitForServiceAvailability fuel (timerLag e) 0 group in
    let* active := getActive group in
    do* setActive group (active + 1) in
    let* t := dateNow in
    do* setLast group t in
    tryFinally requestFn
      (let* active' := getActive group in setActive group (active' - 1)).

Definition savedNote : string := "（已保存到存储）".
Definition uploadFailedNote : string := "（存储上传失败，使用原始链接）".
Definition uploadThrewNote : string := "（存储上传异常，使用原始链接）".

Definition withMessage (r : StandardResponse) (m : string) : StandardResponse :=
  mkResponse (success r) (Some m) (imageUrl r) (error r) (text r) (createdAt r).

Definition withImageUrl (r : StandardResponse) (u : string) : StandardResponse :=
  mkResponse (success r) (message r) (Some u) (error r) (text r) (createdAt r).

Definition withCreatedAt (r : StandardResponse) (t : Z) : StandardResponse :=
  mkResponse (success r) (message r) (imageUrl r) (error r) (text r) (Some t).

(** uploadToStorageIfNeeded (lines 143-157) *)
Definition uploadToStorageIfNeeded (e : ItemEnv) (result : StandardResponse)
    : M StandardResponse :=
  if success result && truthy (imageUrl result) then
    tryCatch
      (do* emit (EvUpload (orEmpty (imageUrl result))) in
       let* uploadResult := awaitExternal (uploadMs e) (uploadResult e) in
       if Storage.success uploadResult && truthy (Storage.url uploadResult)
       then ret (withMessage (withImageUrl result (orEmpty (Storage.url uploadResult)))
                   (orEmpty (message result) +:+ savedNote))
       else ret (withMessage result (orEmpty (message result) +:+ uploadFailedNote)))
      (fun _ => ret (withMessage result (orEmpty (message result) +:+ uploadThrewNote)))
  else ret result.

(** The item of the [catch] branch of both batch loops. *)
Definition failedResponse (e : thrown) (t : Z) : StandardResponse :=
  mkResponse false None None (Some (errorMessage e)) None (Some t).

(** [for (let i = 0; i < count; i++)] over an accumulator. *)
Fixpoint forLoop {Acc : Type} (body : nat -> Acc -> M Acc) (iterations : nat) (i : nat)
    (acc : Acc) : M Acc :=
  match iterations with
  | O => ret acc
  | S n => let* acc' := body i acc in forLoop body n (S i) acc'
  end.

Definition summary (count : Z) (errors : list thrown) (results : list StandardResponse)
    : GenerationResponse :=
  mkGenerationResponse results
    (Some (mkMetadata count
             (Z.of_nat (length (List.filter success results)))
             (Z.of_nat (length errors)))).

Section Batch.

Variable fuel : nat.
Variable env : nat -> ItemEnv.
Variable group : string.
Variable request : ServiceRequest.
Variable generateFn : ItemEnv -> ServiceRequest -> M StandardResponse.

(** One turn of the loop of generateMultipleImages; [errors] and
    [results] are the two arrays. *)
Definition aggregateItem (i : nat) (acc : list thrown * list StandardResponse)
    : M (list thrown * list StandardResponse) :=
  tryCatch
    (let* result := executeRequest fuel (env i) group (generateFn (env i) request) in
     let* finalResult := uploadToStorageIfNeeded (env i) result in
     let* t := dateNow in
     ret (acc.1, (acc.2 ++ [withCreatedAt finalResult t])%list))
    (fun error =>
       let* t := dateNow in
       ret ((acc.1 ++ [error])%list, (acc.2 ++ [failedResponse error t])%list)).

(** generateMultipleImages (lines 159-199) *)
Definition generateMultipleImages : M GenerationResponse :=
  let count := orNumber (count request) DEFAULT_COUNT in
  let* acc := forLoop aggregateItem (Z.to_nat count) 0 ([], []) in
  ret (summary count acc.1 acc.2).

Variable streamRequest : StreamGenerationRequest.

(** [streamRequest.onProgress?.(result, i, count)] *)
Definition callOnProgress (r : StandardResponse) (i : nat) (count : Z) : M unit :=
  if onProgress streamRequest then emit (EvProgress r (Z.of_nat i) count) else ret tt.

Definition callOnComplete (response : GenerationResponse) : M unit :=
  if onComplete streamRequest then emit (EvComplete response) else ret tt.

Definition callOnError (e : thrown) : M unit :=
  if onError streamRequest then emit (EvError e) else ret tt.

(** One turn of the loop of generateMultipleImagesStream. *)
Definition streamItem (count : Z) (i : nat) (acc : list thrown * list StandardResponse)
    : M (list thrown * list StandardResponse) :=
  tryCatch
    (let* result := executeRequest fuel (env i) group (generateFn (env i) request) in
     let* finalResult := uploadToStorageIfNeeded (env i) result in
     let* t := dateNow in
     let resultWithTimestamp := withCreatedAt finalResult t in
     do* callOnProgress resultWithTimestamp i count in
     ret (acc.1, (acc.2 ++ [resultWithTimestamp])%list))
    (fun error =>
       let* t := dateNow in
       let errorResult := failedResponse error t in
       do* callOnProgress errorResult i count in
       ret ((acc.1 ++ [error])%list, (acc.2 ++ [errorResult])%list)).

(** generateMultipleImagesStream (lines 202-262).  The callbacks are taken
    to return normally, so the outer [catch] is there and never entered. *)
Definition generateMultipleImagesStream : M unit :=
  let count :=
    orNumber (streamCount streamRequest) (orNumber (count request) DEFAULT_COUNT) in
  tryCatch
    (let* acc := forLoop (streamItem count) (Z.to_nat count) 0 ([], []) in
     callOnComplete (summary count acc.1 acc.2))
    (fun error => callOnError error).

End Batch.

Definition gpt4oCredentialError : string := "GPT4o 服务需要有效的 API 密钥配置".
Definition doubaoCredentialError : string := "Doubao 服务需要有效的 API 密钥和密钥配置".

(** [modelConfig.config_json?.api_key] and its siblings *)
Definition configField (f : ConfigJson -> option string) (modelConfig : option ModelConfig)
    : option string :=
  match modelConfig with
  | Some mc => match config_json mc with Some cj => f cj | None => None end
  | None => None
  end.

(** The request function handed over by generateImageWithGPT4o and
    generateImageWithGPT4oStream (lines 266-275, 301-310). *)
Definition gpt4oRequestFn (modelConfig : option ModelConfig) (e : ItemEnv)
    (req : ServiceRequest) : M StandardResponse :=
  if negb (truthy (configField api_key modelConfig))
  then throw (ErrorObj gpt4oCredentialError)
  else
    do* emit (EvAdapter "openai" (prompt req) None) in
    awaitExternal (adapterMs e) (adapterResult e).

(** The request function handed over by generateImageWithDoubao and
    generateImageWithDoubaoStream (lines 279-293, 319-333). *)
Definition doubaoRequestFn (modelConfig : option ModelConfig) (e : ItemEnv)
    (req : ServiceRequest) : M StandardResponse :=
  if negb (truthy (configField api_key modelConfig))
     || negb (truthy (configField api_secret modelConfig))
  then throw (ErrorObj doubaoCredentialError)
  else
    do* emit (EvAdapter "doubao" (prompt req) (model req)) in
    awaitExternal (adapterMs e) (adapterResult e).

Definition generateImageWithGPT4o fuel env request modelConfig : M GenerationResponse :=
  generateMultipleImages fuel env "openai" request (gpt4oRequestFn modelConfig).

Definition generateImageWithDoubao fuel env request modelConfig : M GenerationResponse :=
  generateMultipleImages fuel env "doubao" request (doubaoRequestFn modelConfig).

Definition generateImageWithGPT4oStream fuel env request streamRequest modelConfig : M unit :=
  generateMultipleImagesStream fuel env "openai" request (gpt4oRequestFn modelConfig)
    streamRequest.

Definition generateImageWithDoubaoStream fuel env request streamRequest modelConfig : M unit :=
  generateMultipleImagesStream fuel env "doubao" request (doubaoRequestFn modelConfig)
    streamRequest.

Definition unsupportedCategory (category : string) : string :=
  "暂不支持 " +:+ category +:+ " 模型组".

Definition unsupportedGroup (group : string) : string :=
  "不支持的模型组: " +:+ group.

(** [modelStatus.error || '模型不可用'] *)
Definition statusError (status : Registry.ModelStatus) : string :=
  if truthy (Registry.error status) then orEmpty (Registry.error status) else "模型不可用".

Definition readGroupOfUndefined : thrown :=
  ErrorObj "Cannot read properties of undefined (reading 'group')".

(** generateImage (lines 404-445): the aggregate entry point *)
Definition generateImage (fuel : nat) (env : nat -> ItemEnv) (modelId : string)
    (prompt : string) (count : option Z) (modelConfig : option ModelConfig)
    : M GenerationResponse :=
  let* modelStatus := liftOutcome (Registry.getModelStatus modelId) in
  if negb (Registry.available modelStatus) then throw (ErrorObj (statusError modelStatus))
  else
    match Registry.model modelStatus with
    | None => throw readGroupOfUndefined
    | Some model =>
        let group := Registry.group model in
        if String.eqb group "openai" then
          generateImageWithGPT4o fuel env (mkServiceRequest prompt None count) modelConfig
        else if String.eqb group "doubao" then
          generateImageWithDoubao fuel env (mkServiceRequest prompt (Some modelId) count)
            modelConfig
        else if String.eqb group "cogview" then
          throw (ErrorObj (unsupportedCategory (Registry.category model)))
        else if String.eqb group "tongyi" then
          throw (ErrorObj (unsupportedCategory (Registry.category model)))
        else if String.eqb group "jimeng" then
          throw (ErrorObj (unsupportedCategory (Registry.category model)))
        else throw (ErrorObj (unsupportedGroup group))
    end.

(** generateImageStream (lines 340-398): the streaming entry point *)
Definition generateImageStream (fuel : nat) (env : nat -> ItemEnv) (modelId : string)
    (prompt : string) (count : option Z) (streamRequest : StreamGenerationRequest)
    (modelConfig : option ModelConfig) : M unit :=
  let* modelStatus := liftOutcome (Registry.getModelStatus modelId) in
  if negb (Registry.available modelStatus)
  then callOnError streamRequest (ErrorObj (statusError modelStatus))
  else
    match Registry.model modelStatus with
    | None => throw readGroupOfUndefined
    | Some model =>
        let group := Registry.group model in
        if String.eqb group "openai" then
          generateImageWithGPT4oStream fuel env (mkServiceRequest prompt None count)
            streamRequest modelConfig
        else if String.eqb group "doubao" then
          generateImageWithDoubaoStream fuel env
            (mkServiceRequest prompt (Some modelId) count) streamRequest modelConfig
        else if String.eqb group "cogview" then
          callOnError streamRequest (ErrorObj (unsupportedCategory (Registry.category model)))
        else if String.eqb group "tongyi" then
          callOnError streamRequest (ErrorObj (unsupportedCategory (Registry.category model)))
        else if String.eqb group "jimeng" then
          callOnError streamRequest (ErrorObj (unsupportedCategory (Registry.category model)))
        else callOnError streamRequest (ErrorObj (unsupportedGroup group))
    end.

(** getActiveRequests and getLastRequestTime (lines 447-453) *)
Definition getActiveRequests (w : World) (group : string) : Z :=
  orNumber (activeRequests w !! group) 0.

Definition getLastRequestTime (w : World) (group : string) : Z :=
  orNumber (lastRequestTime w !! group) 0.

End Dispatcher.

(** ** Several calls on one event loop

    [executeRequest] suspends at each [await]; between two suspensions it
    runs alone.  A task is one invocation of [executeRequest]; the state
    holds the ledger shared by all of them, the clock, and the queue of
    continuations that are ready to resume, served first in, first out. *)

Module EventLoop.

(** Where a suspended invocation resumes. *)
Inductive continuation : Type :=
  | AfterAuth (isAuthenticated : bool)   (* after [await checkAuth()] *)
  | AfterTimer                           (* after [await new Promise(setTimeout)] *)
  | AfterWait                            (* after [await waitForServiceAvailability(group)] *)
  | AfterRequest (ok : bool).            (* after [await requestFn()], into [finally] *)

Inductive status : Type :=
  | AwaitingAuth               (* suspended at [await checkAuth()] *)
  | Ready (k : continuation)   (* a promise has settled: [k] waits in the queue *)
  | Sleeping (since : Z)       (* polling timer set at [since] *)
  | InFlight (startedAt : Z)   (* counters updated, request function pending *)
  | Finished (ok : bool).

(** [credentials]: whether the request function gets past its credential
    test; when it does not, it throws before it suspends. *)
Record task : Type := mkTask {
  group : string;
  credentials : bool;
  state : status
}.

(** [microtasks] names the tasks whose continuation is ready, oldest first. *)
Record State : Type := mkState {
  activeRequests : gmap string Z;
  lastRequestTime : gmap string Z;
  clock : Z;
  tasks : list task;
  microtasks : list nat
}.

(** What happens next: the outside acts, or the head of the queue runs. *)
Inductive label : Type :=
  | Call (group : string) (credentials : bool)
  | AuthSettles (i : nat) (isAuthenticated : bool)
  | TimerFires (i : nat)
  | RequestSettles (i : nat) (ok : bool)
  | Tick (ms : N)
  | RunMicrotask.

Definition POLLING_INTERVAL : Z := 100.

Definition getActive (s : State) (g : string) : Z := orNumber (activeRequests s !! g) 0.
Definition getLast (s : State) (g : string) : Z := orNumber (lastRequestTime s !! g) 0.

Definition setStatus (i : nat) (st : status) (ts : list task) : list task :=
  match ts !! i with
  | Some t => <[i := mkTask (group t) (credentials t) st]> ts
  | None => ts
  end.

Inductive verdict : Type := Proceed | Sleep | Raise.

(** The test in the loop of waitForServiceAvailability (lines 101-110). *)
Definition checkAvailability (s : State) (g : string) : verdict :=
  match Registry.getModelConfigByGroup g with
  | Returned (Registry.JGroupConfig c) =>
      if (getActive s g <? Registry.maxConcurrent c)
         && (Registry.cooldownMs c <=? clock s - getLast s g)
      then Proceed else Sleep
  | Returned (Registry.JInherited _) => Sleep
  | Returned Registry.JUndefined => Raise
  | Thrown _ => Raise
  end.

(** One pass through the loop of waitForServiceAvailability, for task [i]:
    either the function returns, and the continuation of the [await] in
    executeRequest (line 127) joins the queue behind those already there,
    or a timer is set (line 113). *)
Definition pollOnce (i : nat) (g : string) (s : State) (queue : list nat) : State :=
  match checkAvailability s g with
  | Proceed =>
      mkState (activeRequests s) (lastRequestTime s) (clock s)
        (setStatus i (Ready AfterWait) (tasks s)) (queue ++ [i])
  | Sleep =>
      mkState (activeRequests s) (lastRequestTime s) (clock s)
        (setStatus i (Sleeping (clock s)) (tasks s)) queue
  | Raise =>
      mkState (activeRequests s) (lastRequestTime s) (clock s)
        (setStatus i (Finished false) (tasks s)) queue
  end.

(** Resume task [i] at [k] and run it to its next suspension. *)
Definition resume (i : nat) (t : task) (k : continuation) (s : State) (queue : list nat)
    : State :=
  let g := group t in
  match k with
  | AfterAuth false =>
      (* line 124: throw *)
      mkState (activeRequests s) (lastRequestTime s) (clock s)
        (setStatus i (Finished false) (tasks s)) queue
  | AfterAuth true => pollOnce i g s queue
  | AfterTimer => pollOnce i g s queue
  | AfterWait =>
      (* lines 130-131, then the call of requestFn *)
      let active := <[g := getActive s g + 1]> (activeRequests s) in
      let last := <[g := clock s]> (lastRequestTime s) in
      if credentials t then
        mkState active last (clock s) (setStatus i (InFlight (clock s)) (tasks s)) queue
      else
        mkState (<[g := orNumber (active !! g) 0 - 1]> active) last (clock s)
          (setStatus i (Finished false) (tasks s)) queue
  | AfterRequest ok =>
      (* line 138 *)
      mkState (<[g := getActive s g - 1]> (activeRequests s)) (lastRequestTime s) (clock s)
        (setStatus i (Finished ok) (tasks s)) queue
  end.

Definition step (l : label) (s : State) : option State :=
  match l with
  | Call g c =>
      Some (mkState (activeRequests s) (lastRequestTime s) (clock s)
              (tasks s ++ [mkTask g c AwaitingAuth]) (microtasks s))
  | AuthSettles i b =>
      match tasks s !! i with
      | Some (mkTask _ _ AwaitingAuth) =>
          Some (mkState (activeRequests s) (lastRequestTime s) (clock s)
                  (setStatus i (Ready (AfterAuth b)) (tasks s)) (microtasks s ++ [i]))
      | _ => None
      end
  | TimerFires i =>
      (* a timer callback is a task of its own: it starts with an empty queue *)
      match tasks s !! i, microtasks s with
      | Some (mkTask _ _ (Sleeping since)), [] =>
          if since + POLLING_INTERVAL <=? clock s
          then Some (mkState (activeRequests s) (lastRequestTime s) (clock s)
                       (setStatus i (Ready AfterTimer) (tasks s)) [i])
          else None
      | _, _ => None
      end
  | RequestSettles i ok =>
      match tasks s !! i with
      | Some (mkTask _ _ (InFlight _)) =>
          Some (mkState (activeRequests s) (lastRequestTime s) (clock s)
                  (setStatus i (Ready (AfterRequest ok)) (tasks s)) (microtasks s ++ [i]))
      | _ => None
      end
  | Tick ms =>
      Some (mkState (activeRequests s) (lastRequestTime s) (clock s + Z.of_N ms)
              (tasks s) (microtasks s))
  | RunMicrotask =>
      match microtasks s with
      | i :: queue =>
          match tasks s !! i with
          | Some (mkTask g c (Ready k)) => Some (resume i (mkTask g c (Ready k)) k s queue)
          | _ => None
          end
      | [] => None
      end
  end.

Fixpoint run (ls : list label) (s : State) : option State :=
  match ls with
  | [] => Some s
  | l :: rest =>
      match step l s with
      | Some s' => run rest s'
      | None => None
      end
  end.

(** The singleton right after construction, at time [t]. *)
Definition initial (t : Z) : State :=
  mkState Dispatcher.initializeCounters.1 Dispatcher.initializeCounters.2 t [] [].

(** A task holds a slot of its group from the update of the counters
    (line 130) to the [finally] block (line 138). *)
Definition holdsSlot (st : status) : bool :=
  match st with
  | InFlight _ | Ready (AfterRequest _) => true
  | _ => false
  end.

Definition holder (g : string) (t : task) : bool :=
  String.eqb (group t) g && holdsSlot (state t).

(** Items of [g] whose counters are updated and not yet released. *)
Definition inFlight (g : string) (s : State) : list task :=
  List.filter (holder g) (tasks s).

(** A task is on its way through admission from the moment its test is
    due to the update of the counters. *)
Definition inAdmission (st : status) : bool :=
  match st with
  | Ready (AfterAuth _) | Ready AfterTimer | Ready AfterWait => true
  | _ => false
  end.

(** When the promise of checkAuth settles is up to the authentication
    middleware, which the dispatcher only calls.  A schedule is [calm] when
    every such promise settles in a turn of its own, with no continuation
    waiting in the queue. *)
Definition calm (l : label) (s : State) : bool :=
  match l, microtasks s with
  | AuthSettles _ _, _ :: _ => false
  | _, _ => true
  end.

Fixpoint runCalm (ls : list label) (s : State) : option State :=
  match ls with
  | [] => Some s
  | l :: rest =>
      if calm l s then
        match step l s with
        | Some s' => runCalm rest s'
        | None => None
        end
      else None
  end.

(** What a calm schedule maintains: ready tasks are in the queue; at most
    one task is in admission; a task that has passed the test still finds a
    free slot and the cooldown over; no counter exceeds its bound. *)
Definition orderly (s : State) : Prop :=
  (forall i t k, tasks s !! i = Some t -> state t = Ready k -> In i (microtasks s))
  /\ (forall i j ti tj,
        tasks s !! i = Some ti -> tasks s !! j = Some tj ->
        inAdmission (state ti) = true -> inAdmission (state tj) = true -> i = j)
  /\ (forall i t c,
        tasks s !! i = Some t -> state t = Ready AfterWait ->
        Registry.getModelConfigByGroup (group t) = Returned (Registry.JGroupConfig c) ->
        getActive s (group t) < Registry.maxConcurrent c
        /\ Registry.cooldownMs c <= clock s - getLast s (group t))
  /\ (forall g c,
        Registry.getModelConfigByGroup g = Returned (Registry.JGroupConfig c) ->
        getActive s g <= Registry.maxConcurrent c).

End EventLoop.

(** ** What one item contributes, read off the answers of the outside

    These functions describe, without the world, what a request function
    and a whole item settle to; the theorems below prove that the monadic
    code computes exactly this. *)

Module Item.

Import Dispatcher.

(** The error of an item whose caller is not signed in. *)
Definition authRequired : thrown := ErrorObj "AUTH_REQUIRED".

(** What a request function does once it is called: what it settles to,
    how long it takes and which outside calls it makes. *)
Record Behaviour : Type := mkBehaviour {
  settles : ItemEnv -> ServiceRequest -> outcome StandardResponse;
  duration : ItemEnv -> ServiceRequest -> N;
  calls : ItemEnv -> ServiceRequest -> list event
}.

(** Callback invocations among the events of a trace. *)
Definition isCallback (ev : event) : bool :=
  match ev with
  | EvProgress _ _ _ | EvComplete _ | EvError _ => true
  | _ => false
  end.

Definition callbacks (evs : list event) : list event := List.filter isCallback evs.

Definition behaves (generateFn : ItemEnv -> ServiceRequest -> M StandardResponse)
    (b : Behaviour) : Prop :=
  (forall e req w,
      generateFn e req w =
      Some (settles b e req,
            mkWorld (activeRequests w) (lastRequestTime w)
              (now w + Z.of_N (duration b e req)) (trace w ++ calls b e req)))
  /\ (forall e req, callbacks (calls b e req) = []).

Definition gpt4oBehaviour (modelConfig : option ModelConfig) : Behaviour :=
  if negb (truthy (configField api_key modelConfig))
  then mkBehaviour (fun _ _ => Thrown (ErrorObj gpt4oCredentialError))
         (fun _ _ => 0%N) (fun _ _ => [])
  else mkBehaviour (fun e _ => adapterResult e) (fun e _ => adapterMs e)
         (fun _ req => [EvAdapter "openai" (prompt req) None]).

Definition doubaoBehaviour (modelConfig : option ModelConfig) : Behaviour :=
  if negb (truthy (configField api_key modelConfig))
     || negb (truthy (configField api_secret modelConfig))
  then mkBehaviour (fun _ _ => Thrown (ErrorObj doubaoCredentialError))
         (fun _ _ => 0%N) (fun _ _ => [])
  else mkBehaviour (fun e _ => adapterResult e) (fun e _ => adapterMs e)
         (fun _ req => [EvAdapter "doubao" (prompt req) (model req)]).

Section Contribution.

Variable b : Behaviour.

(** What [executeRequest] settles to for one item. *)
Definition dispatchOutcome (e : ItemEnv) (req : ServiceRequest)
    : outcome StandardResponse :=
  match checkAuth e with
  | Returned true => settles b e req
  | Returned false => Thrown (ErrorObj "AUTH_REQUIRED")
  | Thrown x => Thrown x
  end.

Definition needsUpload (r : StandardResponse) : bool :=
  success r && truthy (imageUrl r).

(** What [uploadToStorageIfNeeded] returns. *)
Definition rehosted (e : ItemEnv) (r : StandardResponse) : StandardResponse :=
  if needsUpload r then
    match uploadResult e with
    | Returned u =>
        if Storage.success u && truthy (Storage.url u)
        then withMessage (withImageUrl r (orEmpty (Storage.url u)))
               (orEmpty (message r) +:+ savedNote)
        else withMessage r (orEmpty (message r) +:+ uploadFailedNote)
    | Thrown _ => withMessage r (orEmpty (message r) +:+ uploadThrewNote)
    end
  else r.

(** The slot the item fills, stamped at [t]. *)
Definition itemResult (e : ItemEnv) (req : ServiceRequest) (t : Z) : StandardResponse :=
  match dispatchOutcome e req with
  | Returned r => withCreatedAt (rehosted e r) t
  | Thrown x => failedResponse x t
  end.

Definition itemErrors (e : ItemEnv) (req : ServiceRequest) : list thrown :=
  match dispatchOutcome e req with
  | Returned _ => []
  | Thrown x => [x]
  end.

(** Adapter and storage calls of the item. *)
Definition itemCalls (e : ItemEnv) (req : ServiceRequest) : list event :=
  match checkAuth e with
  | Returned true =>
      (calls b e req ++
       match settles b e req with
       | Returned r => if needsUpload r then [EvUpload (orEmpty (imageUrl r))] else []
       | Thrown _ => []
       end)%list
  | _ => []
  end.

(** All slots and all collected errors of a batch whose items are
    stamped at the instants [ts]. *)
Definition slots (env : nat -> ItemEnv) (req : ServiceRequest) (first : nat) (ts : list Z)
    : list StandardResponse :=
  imap (fun k t => itemResult (env (first + k)%nat) req t) ts.

Definition collected (env : nat -> ItemEnv) (req : ServiceRequest) (first n : nat)
    : list thrown :=
  concat (List.map (fun i => itemErrors (env i) req) (seq first n)).

(** Outside calls of the items [first, first + n) of an aggregate batch. *)
Definition batchCalls (env : nat -> ItemEnv) (req : ServiceRequest) (first n : nat)
    : list event :=
  concat (List.map (fun i => itemCalls (env i) req) (seq first n)).

(** The call of onProgress that closes item [i]. *)
Definition progressCall (sr : StreamGenerationRequest) (count : Z)
    (env : nat -> ItemEnv) (req : ServiceRequest) (i : nat) (t : Z) : list event :=
  if onProgress sr then [EvProgress (itemResult (env i) req t) (Z.of_nat i) count] else [].

(** Outside calls of a streamed batch, item after item. *)
Definition streamCalls (sr : StreamGenerationRequest) (count : Z)
    (env : nat -> ItemEnv) (req : ServiceRequest) (first : nat) (ts : list Z)
    : list event :=
  concat (imap (fun k t => itemCalls (env (first + k)%nat) req
                           ++ progressCall sr count env req (first + k)%nat t) ts).

End Contribution.

(** An item gets through without waiting for another call: the group has a
    free slot, and the fuel outlasts the cooldown still to run. *)
Definition admissible (group : string) (c : Registry.GroupConfig) (bound : Z) (w : World)
    : Prop :=
  getActiveRequests w group < Registry.maxConcurrent c
  /\ getLastRequestTime w group + Registry.cooldownMs c - now w <= bound.

(** [w'] is reached from [w] by whole items: every counter reads as
    before, time has not run backwards, the trace grew by [evs], and the
    next item is admissible again. *)
Definition follows (group : string) (c : Registry.GroupConfig) (bound : Z)
    (w w' : World) (evs : list event) : Prop :=
  (forall g, getActiveRequests w' g = getActiveRequests w g)
  /\ now w <= now w'
  /\ trace w' = (trace w ++ evs)%list
  /\ admissible group c bound w'.

(** *** What a call that has ended has left behind *)

(** What one item leaves behind: the counters read as before, the other
    groups keep their timestamps, and a dispatch, if there was one, started
    once the cooldown of the group had run. *)
Definition settled (group : string) (c : Registry.GroupConfig) (b : Behaviour)
    (e : ItemEnv) (req : ServiceRequest) (w w' : World) : Prop :=
  (forall g, getActiveRequests w' g = getActiveRequests w g)
  /\ (forall g, g <> group -> getLastRequestTime w' g = getLastRequestTime w g)
  /\ now w <= now w'
  /\ trace w' = trace w ++ itemCalls b e req
  /\ match checkAuth e with
     | Returned true =>
         getActiveRequests w group < Registry.maxConcurrent c
         /\ Z.max (now w) (getLastRequestTime w group + Registry.cooldownMs c)
            <= getLastRequestTime w' group
         /\ getLastRequestTime w' group <= now w'
     | _ => getLastRequestTime w' group = getLastRequestTime w group
     end.

(** Two worlds with the same ledger and clock; their traces may differ. *)
Definition sameLedger (w1 w2 : World) : Prop :=
  activeRequests w1 = activeRequests w2
  /\ lastRequestTime w1 = lastRequestTime w2
  /\ now w1 = now w2.

(** Two computations that end alike from worlds with the same ledger and
    clock: both are still polling, or both settle to the same outcome with
    the same ledger and clock. *)
Definition alike {A : Type} (m1 m2 : M A) : Prop :=
  forall w1 w2, sameLedger w1 w2 ->
    match m1 w1, m2 w2 with
    | Some (r1, w1'), Some (r2, w2') => r1 = r2 /\ sameLedger w1' w2'
    | None, None => True
    | _, _ => False
    end.

(** Items of a batch by the way they ended. *)
Definition itemSucceeded (b : Behaviour) (e : ItemEnv) (req : ServiceRequest) : bool :=
  match dispatchOutcome b e req with
  | Returned r => success r
  | Thrown _ => false
  end.

Definition itemThrew (b : Behaviour) (e : ItemEnv) (req : ServiceRequest) : bool :=
  match dispatchOutcome b e req with
  | Returned _ => false
  | Thrown _ => true
  end.

Definition itemReturnedFailure (b : Behaviour) (e : ItemEnv) (req : ServiceRequest) : bool :=
  match dispatchOutcome b e req with
  | Returned r => negb (success r)
  | Thrown _ => false
  end.

(** How many of the items [0, n) satisfy [p]. *)
Definition countItems (p : ItemEnv -> bool) (env : nat -> ItemEnv) (n : nat) : Z :=
  Z.of_nat (length (List.filter (fun i => p (env i)) (seq 0 n))).

Definition isAdapterCall (ev : event) : bool :=
  match ev with
  | EvAdapter _ _ _ => true
  | _ => false
  end.

Definition isUpload (ev : event) : bool :=
  match ev with
  | EvUpload _ => true
  | _ => false
  end.

(** An item whose adapter returned an image address. *)
Definition adapterImage (e : ItemEnv) : bool :=
  match adapterResult e with
  | Returned r => needsUpload r
  | Thrown _ => false
  end.

(** How many of the results have success set. *)
Definition successes (rs : list StandardResponse) : Z :=
  Z.of_nat (length (List.filter success rs)).

End Item.

(** ** The chat input: the caller of the streaming entry point *)

Module ChatInput.

(** [types/chat.ts]: SelectedModel *)
Record SelectedModel : Type := mkSelectedModel {
  modelId : string;
  name : string;
  category : string;
  count : Z
}.

(** [message.results.status] *)
Record Status : Type := mkStatus {
  success : Z;
  failed : Z;
  total : Z;
  generating : Z
}.

(** An entry of [message.results.images[name]]. *)
Record ImageResult : Type := mkImageResult {
  id : string;
  url : option string;
  text : option string;
  error : option string;
  errorMessage : option string;
  isGenerating : bool;
  createdAt : option Z
}.

(** What the callbacks built for one model work on: the array [results]
    of their closure, and the status and the images of the message. *)
Record Shared : Type := mkShared {
  results : list ImageResult;
  status : Status;
  images : gmap string (list ImageResult)
}.

(** [currentModels.reduce((sum, model) => sum + model.count, 0)] (line 203) *)
Definition totalCount (currentModels : list SelectedModel) : Z :=
  fold_left (fun sum model => sum + count model) currentModels 0.

(** The status of initialResults (lines 205-210). *)
Definition initialStatus (currentModels : list SelectedModel) : Status :=
  mkStatus 0 0 (totalCount currentModels) (totalCount currentModels).

(** [Array(count).fill(null).map((_, index) => ...)] (lines 296-304); the
    ids come from the clock and a random number.  A negative length is a
    RangeError. *)
Definition placeholders (newId : nat -> string) (count : Z) : outcome (list ImageResult) :=
  if count <? 0 then Thrown (ErrorObj "Invalid array length")
  else Returned (List.map (fun index => mkImageResult (newId index) None None None None true None)
                   (seq 0 (Z.to_nat count))).

(** [s || null] *)
Definition orNull (s : option string) : option string :=
  if truthy s then s else None.

(** The entry onProgress writes (lines 312-320). *)
Definition settle (old : ImageResult) (result : Dispatcher.StandardResponse) : ImageResult :=
  mkImageResult (id old)
    (orNull (Dispatcher.imageUrl result))
    (orNull (Dispatcher.text result))
    (if Dispatcher.success result then None
     else Some (if truthy (Dispatcher.error result) then orEmpty (Dispatcher.error result)
                else "生成失败"))
    (orNull (Dispatcher.error result))
    false
    (Dispatcher.createdAt result).

(** [results[index]] *)
Definition at_ (results : list ImageResult) (index : Z) : option ImageResult :=
  if index <? 0 then None else results !! Z.to_nat index.

(** onProgress (lines 308-337).  Reading [id] of an entry that is not
    there is a TypeError. *)
Definition onProgress (name : string) (result : Dispatcher.StandardResponse) (index : Z)
    (h : Shared) : outcome Shared :=
  match at_ (results h) index with
  | None => Thrown (ErrorObj "Cannot read properties of undefined (reading 'id')")
  | Some old =>
      let results' := <[Z.to_nat index := settle old result]> (results h) in
      let st := status h in
      let counted :=
        if Dispatcher.success result
        then mkStatus (success st + 1) (failed st) (total st) (generating st)
        else mkStatus (success st) (failed st + 1) (total st) (generating st) in
      Returned
        (mkShared results'
           (mkStatus (success counted) (failed counted) (total counted)
              (generating counted - 1))
           (<[name := results']> (images h)))
  end.

(** [error.message || '未知原因'] *)
Definition reason (e : thrown) : string :=
  match e with
  | ErrorObj m => if String.eqb m "" then "未知原因" else m
  | NonError => "未知原因"
  end.

(** onError (lines 342-366) *)
Definition onError (name : string) (count : Z) (e : thrown) (h : Shared) : Shared :=
  let errorResults :=
    List.map (fun result =>
                mkImageResult (id result) None None (Some "生成失败") (Some (reason e)) false
                  (createdAt result))
      (results h) in
  let st := status h in
  mkShared (results h)
    (mkStatus (success st) (failed st + count) (total st) (generating st - count))
    (<[name := errorResults]> (images h)).

(** The stream request built for a model (lines 306-367). *)
Definition streamRequest (count : Z) : Dispatcher.StreamGenerationRequest :=
  Dispatcher.mkStreamRequest (Some count) true true true.

(** A callback of the dispatcher, run on what the callbacks share;
    onComplete only resolves the promise of the model. *)
Definition deliver (name : string) (count : Z) (ev : Dispatcher.event) (h : Shared)
    : outcome Shared :=
  match ev with
  | Dispatcher.EvProgress result index _ => onProgress name result index h
  | Dispatcher.EvError e => Returned (onError name count e h)
  | _ => Returned h
  end.

(** The callbacks of a call, in the order the dispatcher made them. *)
Fixpoint replay (name : string) (count : Z) (evs : list Dispatcher.event) (h : Shared)
    : outcome Shared :=
  match evs with
  | [] => Returned h
  | ev :: rest =>
      match deliver name count ev h with
      | Returned h' => replay name count rest h'
      | Thrown e => Thrown e
      end
  end.

(** What the callbacks of a message work on, all of them: the status and
    the images of [message.results], and for each selected model, by its
    position in [currentModels], the array [results] of the closure built
    for it (line 296); a model that is not in the catalog gets none. *)
Record Message : Type := mkMessage {
  resultsStatus : Status;
  resultsImages : gmap string (list ImageResult);
  closures : list (option (list ImageResult))
}.

(** What the two branches that give a model up have in common (lines
    275-290 and 383-398): the whole count goes from generating to failed,
    and the model is shown with [count] failed entries under new ids.  The
    counters are changed first; [Array(count)] with a negative count is a
    RangeError that then leaves the images as they were. *)
Definition giveUp (name : string) (count : Z) (errorMessage : string)
    (errorId : nat -> string) (m : Message) : Message :=
  let st := resultsStatus m in
  let st' := mkStatus (success st) (failed st + count) (total st) (generating st - count) in
  if count <? 0 then mkMessage st' (resultsImages m) (closures m)
  else
    let errorResults :=
      List.map (fun index => mkImageResult (errorId index) None None (Some "生成失败")
                               (Some errorMessage) false None)
        (seq 0 (Z.to_nat count)) in
    mkMessage st' (<[name := errorResults]> (resultsImages m)) (closures m).

(** [error instanceof Error ? error.message : '生成失败'] (line 382) *)
Definition caughtMessage (e : thrown) : string :=
  match e with
  | ErrorObj m => m
  | NonError => "生成失败"
  end.

(** What can happen to a message once it has been sent (lines 270-400),
    for the model at position [k] of [currentModels]: the dispatcher calls
    one of the callbacks built for it; the model is not in the catalog
    (lines 273-291); the catch of lines 380-399 runs. *)
Inductive happening : Type :=
  | Callback (k : nat) (ev : Dispatcher.event)
  | NotFound (k : nat) (errorId : nat -> string)
  | Caught (k : nat) (e : thrown) (errorId : nat -> string).

(** One happening.  A callback works on the array of its own closure and
    on the status and the images of the message; an onProgress that throws
    (line 313) has changed nothing. *)
Definition happen (currentModels : list SelectedModel) (hp : happening) (m : Message)
    : Message :=
  match hp with
  | Callback k ev =>
      match currentModels !! k, closures m !! k with
      | Some model, Some (Some closure) =>
          match deliver (name model) (count model) ev
                  (mkShared closure (resultsStatus m) (resultsImages m)) with
          | Returned h => mkMessage (status h) (images h) (<[k := Some (results h)]> (closures m))
          | Thrown _ => m
          end
      | _, _ => m
      end
  | NotFound k errorId =>
      match currentModels !! k with
      | Some model =>
          giveUp (name model) (count model) ("模型未找到: " +:+ name model) errorId m
      | None => m
      end
  | Caught k e errorId =>
      match currentModels !! k with
      | Some model => giveUp (name model) (count model) (caughtMessage e) errorId m
      | None => m
      end
  end.

(** The happenings of a message, in the order in which they occur. *)
Definition happenAll (currentModels : list SelectedModel) (hs : list happening) (m : Message)
    : Message :=
  fold_left (fun m hp => happen currentModels hp m) hs m.

End ChatInput.

(** ** The model store: a caller of the catalog *)

Module ModelStore.

Section Store.

(** The test states of [modelService.ts]; the store needs the member
    NOT_TESTED. *)
Variable TestStatus : Type.
Variable NOT_TESTED : TestStatus.

(** ModelConfig, as far as the store reads it; [test_status] may be null. *)
Record ModelConfig : Type := mkModelConfig {
  model_id : string;
  enabled : bool;
  test_status : option TestStatus
}.

(** AvailableModel (lines 27-30) *)
Record AvailableModel : Type := mkAvailableModel {
  model : Registry.ImageModel;
  isEnabled : bool;
  testStatus : TestStatus
}.

Record State : Type := mkState {
  modelConfigs : list ModelConfig;
  availableModels : list AvailableModel
}.

(** [userConfig?.enabled ?? false] *)
Definition enabledOr (userConfig : option ModelConfig) : bool :=
  match userConfig with
  | Some c => enabled c
  | None => false
  end.

(** [userConfig?.test_status ?? TestStatus.NOT_TESTED] *)
Definition testStatusOr (userConfig : option ModelConfig) : TestStatus :=
  match userConfig with
  | Some c => match test_status c with Some t => t | None => NOT_TESTED end
  | None => NOT_TESTED
  end.

(** [allModels.map(model => { const userConfig = configs.find(c =>
    c.model_id === key(model)); ... })], the join of the catalog with the
    configurations of the user. *)
Definition join (key : Registry.ImageModel -> string) (configs : list ModelConfig)
    : list AvailableModel :=
  List.map
    (fun model =>
       let userConfig := List.find (fun c => String.eqb (model_id c) (key model)) configs in
       mkAvailableModel model (enabledOr userConfig) (testStatusOr userConfig))
    Registry.getAllModels.



(** [configs.findIndex(p)], with [None] for -1 *)
Fixpoint findIndex (p : ModelConfig -> bool) (configs : list ModelConfig) : option nat :=
  match configs with
  | [] => None
  | c :: rest => if p c then Some 0%nat else option_map S (findIndex p rest)
  end.

(** addOrUpdateModelConfig (lines 143-181) *)
Definition addOrUpdateModelConfig (config : ModelConfig) (s : State) : State :=
  let existingIndex :=
    findIndex (fun existing => String.eqb (model_id existing) (model_id config))
      (modelConfigs s) in
  let updatedConfigs :=
    match existingIndex with
    | Some i =>
        imap (fun index existing => if Nat.eqb index i then config else existing)
          (modelConfigs s)
    | None => config :: modelConfigs s
    end in
  mkState updatedConfigs (join Registry.id updatedConfigs).

End Store.

End ModelStore.

Arguments ModelStore.model_id {TestStatus} _.
Arguments ModelStore.enabled {TestStatus} _.
Arguments ModelStore.test_status {TestStatus} _.
Arguments ModelStore.model {TestStatus} _.
Arguments ModelStore.isEnabled {TestStatus} _.
Arguments ModelStore.testStatus {TestStatus} _.
Arguments ModelStore.modelConfigs {TestStatus} _.
Arguments ModelStore.availableModels {TestStatus} _.

(** ** Sample inputs *)

Module Example.

Import Dispatcher.

Definition imageResponse (u : string) : StandardResponse :=
  mkResponse true None (Some u) None None None.

Definition stored (u : string) : Storage.UploadResult :=
  Storage.mkUploadResult true (Some u) None.

Definition storageDown : Storage.UploadResult :=
  Storage.mkUploadResult false None (Some "bucket unavailable").

Definition keys : option ModelConfig :=
  Some (mkModelConfig (Some (mkConfigJson (Some "sk-1") (Some "secret") None))).

Definition noKeys : option ModelConfig := Some (mkModelConfig None).

Definition answering (auth : bool) (adapter : outcome StandardResponse)
    (upload : outcome Storage.UploadResult) : ItemEnv :=
  mkItemEnv (Returned auth) 5 (fun _ => 3%N) adapter 50 upload 20.

Definition provided : StandardResponse := imageResponse "https://provider.example/1.png".

Definition allGood (i : nat) : ItemEnv :=
  answering true (Returned provided) (Returned (stored "https://storage.example/1.png")).

Definition signedOut (i : nat) : ItemEnv :=
  answering false (Returned provided) (Returned (stored "https://storage.example/1.png")).

(** success, failure, success, ... *)
Definition alternating (i : nat) : ItemEnv :=
  if Nat.even i
  then answering true (Returned provided) (Returned storageDown)
  else answering true (Thrown (ErrorObj "provider rejected the prompt")) (Returned storageDown).

Definition listening : StreamGenerationRequest := mkStreamRequest None true true true.

(** The configuration every group has in models.json. *)
Definition twoAtATime : Registry.GroupConfig := Registry.mkGroupConfig 2 1000.

(** A page load at some instant of 2023. *)
Definition pageLoad : Z := 1700000000000.

(** Three calls for the same group issued in one go (say, three models of
    the group selected for one message), each with an authentication check
    that has its answer at hand, so that the continuation of the call is
    queued before the next call is made; then the queue is served in
    order. *)
Definition threeAtOnce : list EventLoop.label :=
  [ EventLoop.Call "openai" true; EventLoop.AuthSettles 0 true;
    EventLoop.Call "openai" true; EventLoop.AuthSettles 1 true;
    EventLoop.Call "openai" true; EventLoop.AuthSettles 2 true;
    EventLoop.RunMicrotask; EventLoop.RunMicrotask; EventLoop.RunMicrotask;
    EventLoop.RunMicrotask; EventLoop.RunMicrotask; EventLoop.RunMicrotask ].

(** Two calls for the same group, the second authenticated after the first
    has started: it finds the cooldown running, sleeps, and starts a second
    later. *)
Definition oneAfterTheOther : list EventLoop.label :=
  [ EventLoop.Call "openai" true; EventLoop.AuthSettles 0 true;
    EventLoop.RunMicrotask; EventLoop.RunMicrotask;
    EventLoop.Call "openai" true; EventLoop.AuthSettles 1 true;
    EventLoop.RunMicrotask; EventLoop.Tick 1000; EventLoop.TimerFires 1;
    EventLoop.RunMicrotask; EventLoop.RunMicrotask ].

(** A ledger in which both slots of openai are taken. *)
Definition saturated : World :=
  mkWorld (<["openai" := 2]> ∅) (<["openai" := Example.pageLoad]> ∅) (Example.pageLoad + 10) [].

(** An adapter that answers, without raising, that it could not produce
    an image. *)
Definition declined : StandardResponse :=
  mkResponse false None None (Some "content policy") None None.

(** success, returned failure, success, ... *)
Definition declining (i : nat) : ItemEnv :=
  if Nat.even i
  then Example.answering true (Returned Example.provided) (Returned Example.storageDown)
  else Example.answering true (Returned declined) (Returned Example.storageDown).

(** Ids of placeholders: img_0, img_1, ... *)
Definition newId (index : nat) : string :=
  "img_" +:+ String (Ascii.ascii_of_nat (48 + index)) "".

Definition threePlaceholders : list ChatInput.ImageResult :=
  List.map (fun index => ChatInput.mkImageResult (newId index) None None None None true None)
    (seq 0 3).

Definition twoPlaceholders : list ChatInput.ImageResult :=
  List.map (fun index => ChatInput.mkImageResult (newId index) None None None None true None)
    (seq 0 2).

(** Three models selected for one message: GPT-4o-Image twice, CogView-4
    once, and a model that is not in the catalog once. *)
Definition threeSelected : list ChatInput.SelectedModel :=
  [ ChatInput.mkSelectedModel "gpt_4o" "GPT-4o-Image" "OpenAI" 2;
    ChatInput.mkSelectedModel "cogView-4-250304" "CogView-4" "智谱" 1;
    ChatInput.mkSelectedModel "dall-e-3" "DALL-E 3" "OpenAI" 1 ].

(** The message of [threeSelected] when it has been sent: nothing shown
    yet, a closure for each of the two models of the catalog. *)
Definition justSent : ChatInput.Message :=
  ChatInput.mkMessage (ChatInput.initialStatus threeSelected) ∅
    [ Some twoPlaceholders;
      Some [ChatInput.mkImageResult "img_0" None None None None true None];
      None ].

(** The third model is given up; CogView-4 is refused by the dispatcher;
    of GPT-4o-Image one image arrives and one fails, a progress for an
    index that has no placeholder throws, and the call completes. *)
Definition eventful : list ChatInput.happening :=
  [ ChatInput.NotFound 2 (fun index => "img_error_" +:+ newId index);
    ChatInput.Callback 1 (EvError (ErrorObj "暂不支持 智谱 模型组"));
    ChatInput.Callback 0 (EvProgress (withCreatedAt provided 7) 0 2);
    ChatInput.Callback 0
      (EvProgress (mkResponse false None None (Some "provider rejected the prompt") None
                     (Some 9)) 1 2);
    ChatInput.Callback 0 (EvProgress (withCreatedAt provided 11) 5 2);
    ChatInput.Callback 0 (EvComplete (mkGenerationResponse [] None)) ].

(** One model of a stub group, selected twice. *)
Definition cogviewTwice : list ChatInput.SelectedModel :=
  [ChatInput.mkSelectedModel "cogView-4-250304" "CogView-4" "智谱" 2].

(** A storage service whose proxy cannot reach the image. *)
Definition unreachable : Storage.Outside :=
  Storage.mkOutside true (fun _ => Thrown (ErrorObj "Failed to fetch"))
    (fun _ _ => Returned None) (fun path => "https://storage.example/" +:+ path)
    "2025-07-18" "k3x9" (fun _ => "0.00").




(** The dispatcher a quarter of a second after an openai item has started
    at instant 1000: the item is still running, and an upload has been
    made; [t] is the instant on the clock. *)
Definition coolingDown (t : Z) : World :=
  mkWorld (<["openai" := 1]> initializeCounters.1) (<["openai" := 1000]> initializeCounters.2)
    t [EvUpload "https://provider.example/1.png"].

(** [Example.oneAfterTheOther] up to the moment at which the second call
    has passed its test and is about to update the counters. *)
Definition secondAboutToStart : list EventLoop.label :=
  [ EventLoop.Call "openai" true; EventLoop.AuthSettles 0 true;
    EventLoop.RunMicrotask; EventLoop.RunMicrotask;
    EventLoop.Call "openai" true; EventLoop.AuthSettles 1 true;
    EventLoop.RunMicrotask; EventLoop.Tick 1000; EventLoop.TimerFires 1;
    EventLoop.RunMicrotask ].

End Example.

(** * Properties *)

Import Dispatcher Item.

(** ** Numbers and ledger reads *)

Lemma orNumber_Some_zero (v : Z) : orNumber (Some v) 0 = v.
Proof. unfold orNumber. destruct (Z.eqb_spec v 0); congruence. Qed.

Lemma orNumber_Some_pos (n d : Z) : 1 <= n -> orNumber (Some n) d = n.
Proof. intros H. unfold orNumber. destruct (Z.eqb_spec n 0); [lia | reflexivity]. Qed.

Lemma orNumber_count_pos (n : Z) : 1 <= n -> orNumber (Some n) DEFAULT_COUNT = n.
Proof. apply orNumber_Some_pos. Qed.

Lemma getActiveRequests_insert (m l : gmap string Z) (t : Z) (tr : list event) (g g' : string) (v : Z) :
  getActiveRequests (mkWorld (<[g := v]> m) l t tr) g' =
  if decide (g = g') then v else orNumber (m !! g') 0.
Proof.
  unfold getActiveRequests; simpl. rewrite lookup_insert.
  destruct (decide (g = g')); [apply orNumber_Some_zero | reflexivity].
Qed.

Lemma getLastRequestTime_insert (m l : gmap string Z) (t : Z) (tr : list event) (g g' : string) (v : Z) :
  getLastRequestTime (mkWorld m (<[g := v]> l) t tr) g' =
  if decide (g = g') then v else orNumber (l !! g') 0.
Proof.
  unfold getLastRequestTime; simpl. rewrite lookup_insert.
  destruct (decide (g = g')); [apply orNumber_Some_zero | reflexivity].
Qed.

(** ** The admission wait of one call *)

Section Admission.

Variable group : string.
Variable c : Registry.GroupConfig.
Hypothesis configured :
  Registry.getModelConfigByGroup group = Returned (Registry.JGroupConfig c).

(** With a free slot the wait returns after enough polls; it changes
    nothing but the clock, and the cooldown has run when it returns. *)
Lemma waitForServiceAvailability_returns (fuel : nat) (lag : nat -> N) (k : nat) (w : World) :
  getActiveRequests w group < Registry.maxConcurrent c ->
  (Z.to_nat (getLastRequestTime w group + Registry.cooldownMs c - now w) < fuel)%nat ->
  exists t,
    now w <= t
    /\ Registry.cooldownMs c <= t - getLastRequestTime w group
    /\ waitForServiceAvailability fuel lag k group w =
       Some (Returned tt, mkWorld (activeRequests w) (lastRequestTime w) t (trace w)).
Proof.
  revert k w. induction fuel as [|fuel IH]; intros k w Hfree Hfuel; [lia|].
  cbn [waitForServiceAvailability].
  unfold bind at 1, getActive at 1. unfold bind at 1, getLast at 1.
  unfold bind at 1, dateNow at 1. unfold bind at 1, liftOutcome at 1.
  rewrite configured.
  fold (getActiveRequests w group) (getLastRequestTime w group).
  apply Z.ltb_lt in Hfree as Hfree'. rewrite Hfree'. cbn [andb].
  destruct (Z.leb_spec (Registry.cooldownMs c) (now w - getLastRequestTime w group)) as [Hcool|Hcool].
  - exists (now w). split; [lia|]. split; [lia|]. destruct w; reflexivity.
  - unfold bind, awaitExternal.
    set (w1 := mkWorld _ _ _ _).
    destruct (IH (S k) w1) as (t & Ht1 & Ht2 & Hrun).
    + exact Hfree.
    + subst w1. unfold getLastRequestTime in *. cbn [lastRequestTime now] in *.
      unfold POLLING_INTERVAL. lia.
    + exists t. subst w1. cbn [now] in Ht1. unfold getLastRequestTime in *.
      cbn [lastRequestTime] in *.
      split; [unfold POLLING_INTERVAL in *; lia|]. split; [exact Ht2|].
      rewrite Hrun. reflexivity.
Qed.

End Admission.

(** ** One item *)

Lemma uploadToStorageIfNeeded_run (e : ItemEnv) (r : StandardResponse) (w : World) :
  uploadToStorageIfNeeded e r w =
  Some (Returned (rehosted e r),
        if needsUpload r
        then mkWorld (activeRequests w) (lastRequestTime w) (now w + Z.of_N (uploadMs e))
               (trace w ++ [EvUpload (orEmpty (imageUrl r))])
        else w).
Proof.
  unfold uploadToStorageIfNeeded, rehosted, needsUpload.
  destruct (success r && truthy (imageUrl r)); [|reflexivity].
  unfold tryCatch, bind, emit, awaitExternal. cbn [activeRequests lastRequestTime now trace].
  destruct (uploadResult e) as [u|x]; [|reflexivity].
  destruct (Storage.success u && truthy (Storage.url u)); reflexivity.
Qed.

Section OneCall.

Variable group : string.
Variable c : Registry.GroupConfig.
Hypothesis configured :
  Registry.getModelConfigByGroup group = Returned (Registry.JGroupConfig c).

Variable generateFn : ItemEnv -> ServiceRequest -> M StandardResponse.
Variable b : Behaviour.
Hypothesis generateFn_behaves : behaves generateFn b.

Variable bound : Z.
Variable fuel : nat.
Hypothesis bound_cooldown : Registry.cooldownMs c <= bound.
Hypothesis fuel_bound : (Z.to_nat bound < fuel)%nat.

(** An authenticated, admissible dispatch: the counters are updated
    around the request function and the count is back where it was. *)
Lemma executeRequest_dispatched (e : ItemEnv) (req : ServiceRequest) (w : World) :
  checkAuth e = Returned true ->
  admissible group c bound w ->
  exists t,
    now w <= t
    /\ executeRequest fuel e group (generateFn e req) w =
       Some (settles b e req,
             mkWorld (<[group := getActiveRequests w group]> (activeRequests w))
               (<[group := t]> (lastRequestTime w))
               (t + Z.of_N (duration b e req))
               (trace w ++ calls b e req)).
Proof.
  intros Hauth [Hfree Hslack].
  unfold executeRequest. unfold bind at 1, awaitExternal at 1. rewrite Hauth. cbn [negb].
  set (w1 := mkWorld _ _ _ _).
  destruct (waitForServiceAvailability_returns group c configured fuel (timerLag e) 0 w1)
    as (t & Ht1 & Ht2 & Hrun).
  { exact Hfree. }
  { subst w1. unfold getLastRequestTime in *. cbn [lastRequestTime now] in *. lia. }
  exists t. split; [subst w1; cbn [now] in Ht1; lia|].
  unfold bind at 1. rewrite Hrun.
  unfold bind at 1, getActive at 1. unfold bind at 1, setActive at 1.
  unfold bind at 1, dateNow at 1. unfold bind at 1, setLast at 1.
  subst w1. cbn [activeRequests lastRequestTime now trace].
  unfold tryFinally. destruct generateFn_behaves as [Hrun' _]. rewrite Hrun'.
  cbn [activeRequests lastRequestTime now trace].
  unfold bind, getActive, setActive. cbn [activeRequests lastRequestTime now trace].
  rewrite lookup_insert_eq, orNumber_Some_zero, insert_insert_eq.
  unfold getActiveRequests.
  replace (orNumber (activeRequests w !! group) 0 + 1 - 1)
    with (orNumber (activeRequests w !! group) 0) by lia.
  reflexivity.
Qed.

Ltac ledger_reads :=
  repeat first
    [ rewrite getActiveRequests_insert
    | rewrite getLastRequestTime_insert
    | progress cbn [activeRequests lastRequestTime now trace] ];
  repeat case_decide; subst;
  unfold getActiveRequests, getLastRequestTime in *;
  cbn [activeRequests lastRequestTime now trace] in *;
  try congruence; try lia.

Lemma follows_after_dispatch (w : World) (t : Z) (d : N) (evs : list event) :
  admissible group c bound w ->
  now w <= t ->
  follows group c bound w
    (mkWorld (<[group := getActiveRequests w group]> (activeRequests w))
       (<[group := t]> (lastRequestTime w)) (t + Z.of_N d) (trace w ++ evs))
    evs.
Proof.
  intros [Hfree Hslack] Ht. unfold follows, admissible.
  split; [intros g; ledger_reads|].
  split; [ledger_reads|]. split; [reflexivity|].
  split; ledger_reads.
Qed.

Lemma follows_after_refusal (w : World) (d : N) :
  admissible group c bound w ->
  follows group c bound w
    (mkWorld (activeRequests w) (lastRequestTime w) (now w + Z.of_N d) (trace w)) [].
Proof.
  intros [Hfree Hslack]. unfold follows, admissible.
  split; [intros g; reflexivity|].
  split; [ledger_reads|]. split; [cbn [trace]; rewrite app_nil_r; reflexivity|].
  split; ledger_reads.
Qed.

Lemma follows_trans (w1 w2 w3 : World) (evs1 evs2 : list event) :
  follows group c bound w1 w2 evs1 ->
  follows group c bound w2 w3 evs2 ->
  follows group c bound w1 w3 (evs1 ++ evs2).
Proof.
  intros (Ha1 & Hn1 & Ht1 & _) (Ha2 & Hn2 & Ht2 & Hadm).
  split; [intros g; rewrite Ha2; apply Ha1|].
  split; [lia|]. split; [rewrite Ht2, Ht1, app_assoc; reflexivity|exact Hadm].
Qed.

Lemma follows_emit (w w' : World) (evs : list event) (ev : event) :
  follows group c bound w w' evs ->
  follows group c bound w
    (mkWorld (activeRequests w') (lastRequestTime w') (now w') (trace w' ++ [ev]))
    (evs ++ [ev]).
Proof.
  intros (Ha & Hn & Ht & Hadm).
  split; [exact Ha|]. split; [exact Hn|].
  split; [cbn [trace]; rewrite Ht, app_assoc; reflexivity|exact Hadm].
Qed.

(** Dispatch followed by re-hosting, the part both loops share. *)
Lemma item_settles (e : ItemEnv) (req : ServiceRequest) (w : World) :
  admissible group c bound w ->
  exists w',
    follows group c bound w w' (itemCalls b e req)
    /\ (let* result := executeRequest fuel e group (generateFn e req) in
        uploadToStorageIfNeeded e result) w =
       Some (match dispatchOutcome b e req with
             | Returned r => Returned (rehosted e r)
             | Thrown x => Thrown x
             end, w').
Proof.
  intros Hadm. unfold itemCalls, dispatchOutcome.
  destruct (checkAuth e) as [[|]|x] eqn:Hauth.
  - destruct (executeRequest_dispatched e req w Hauth Hadm) as (t & Ht & Hrun).
    unfold bind at 1. rewrite Hrun.
    destruct (settles b e req) as [r|x].
    + rewrite uploadToStorageIfNeeded_run.
      destruct (needsUpload r).
      * eexists. split; [|reflexivity].
        cbn [activeRequests lastRequestTime now trace].
        rewrite <- app_assoc.
        replace (t + Z.of_N (duration b e req) + Z.of_N (uploadMs e))
          with (t + Z.of_N (duration b e req + uploadMs e)) by lia.
        apply follows_after_dispatch; assumption.
      * eexists. split; [|reflexivity].
        rewrite app_nil_r. apply follows_after_dispatch; assumption.
    + eexists. split; [|reflexivity].
      rewrite app_nil_r. apply follows_after_dispatch; assumption.
  - unfold executeRequest. unfold bind at 1. unfold bind at 1, awaitExternal at 1.
    rewrite Hauth. cbn [negb]. unfold throw.
    eexists. split; [|reflexivity].
    apply follows_after_refusal; assumption.
  - unfold executeRequest. unfold bind at 1. unfold bind at 1, awaitExternal at 1.
    rewrite Hauth.
    eexists. split; [|reflexivity].
    apply follows_after_refusal; assumption.
Qed.

Lemma bind_assoc_at {A B C : Type} (m : M A) (f : A -> M B) (k : B -> M C) (w : World) :
  (let* x := m in let* y := f x in k y) w = (let* y := (let* x := m in f x) in k y) w.
Proof.
  unfold bind. destruct (m w) as [[[a|x] w1]|]; reflexivity.
Qed.

(** One turn of the aggregate loop. *)
Lemma aggregateItem_run (env : nat -> ItemEnv) (req : ServiceRequest) (i : nat)
    (acc : list thrown * list StandardResponse) (w : World) :
  admissible group c bound w ->
  exists w',
    follows group c bound w w' (itemCalls b (env i) req)
    /\ aggregateItem fuel env group req generateFn i acc w =
       Some (Returned (acc.1 ++ itemErrors b (env i) req,
                       acc.2 ++ [itemResult b (env i) req (now w')]), w').
Proof.
  intros Hadm. destruct (item_settles (env i) req w Hadm) as (w' & Hfol & Hrun).
  exists w'. split; [exact Hfol|].
  unfold aggregateItem, tryCatch. rewrite bind_assoc_at.
  unfold bind at 1. rewrite Hrun. unfold itemErrors, itemResult.
  destruct (dispatchOutcome b (env i) req) as [r|x].
  - unfold bind, dateNow, ret. rewrite app_nil_r. reflexivity.
  - unfold bind, dateNow, ret. reflexivity.
Qed.

(** One turn of the streaming loop: the same slot, and one call of
    onProgress with the index of the turn. *)
Lemma streamItem_run (env : nat -> ItemEnv) (req : ServiceRequest)
    (sr : StreamGenerationRequest) (count : Z) (i : nat)
    (acc : list thrown * list StandardResponse) (w : World) :
  admissible group c bound w ->
  exists t w',
    follows group c bound w w'
      (itemCalls b (env i) req ++
       if onProgress sr
       then [EvProgress (itemResult b (env i) req t) (Z.of_nat i) count] else [])
    /\ streamItem fuel env group req generateFn sr count i acc w =
       Some (Returned (acc.1 ++ itemErrors b (env i) req,
                       acc.2 ++ [itemResult b (env i) req t]), w').
Proof.
  intros Hadm. destruct (item_settles (env i) req w Hadm) as (w' & Hfol & Hrun).
  exists (now w').
  unfold streamItem, tryCatch. rewrite bind_assoc_at.
  unfold bind at 1. rewrite Hrun. unfold itemErrors, itemResult.
  destruct (dispatchOutcome b (env i) req) as [r|x];
    unfold bind, dateNow, ret, callOnProgress, emit;
    destruct (onProgress sr); cbn [fst snd];
    eexists; (split; [|rewrite ?app_nil_r; reflexivity]).
  all: try (rewrite app_nil_r; destruct w'; exact Hfol).
  all: apply follows_emit; exact Hfol.
Qed.

Lemma slots_cons (env : nat -> ItemEnv) (req : ServiceRequest) (first : nat) (t : Z)
    (ts : list Z) :
  slots b env req first (t :: ts) =
  itemResult b (env first) req t :: slots b env req (S first) ts.
Proof.
  unfold slots. rewrite imap_cons, Nat.add_0_r. f_equal.
  apply imap_ext. intros k x _. cbn. rewrite Nat.add_succ_r. reflexivity.
Qed.

Lemma streamCalls_cons (sr : StreamGenerationRequest) (count : Z) (env : nat -> ItemEnv)
    (req : ServiceRequest) (first : nat) (t : Z) (ts : list Z) :
  streamCalls b sr count env req first (t :: ts) =
  (itemCalls b (env first) req ++ progressCall b sr count env req first t)
  ++ streamCalls b sr count env req (S first) ts.
Proof.
  unfold streamCalls. rewrite imap_cons, Nat.add_0_r. cbn [concat]. f_equal. f_equal.
  apply imap_ext. intros k x _. cbn. rewrite Nat.add_succ_r. reflexivity.
Qed.

Lemma follows_refl (w : World) : admissible group c bound w -> follows group c bound w w [].
Proof.
  intros Hadm. split; [reflexivity|]. split; [lia|].
  split; [rewrite app_nil_r; reflexivity|exact Hadm].
Qed.

(** The aggregate loop: as many slots as turns, in the order of the turns. *)
Lemma aggregate_loop (env : nat -> ItemEnv) (req : ServiceRequest) (n first : nat)
    (acc : list thrown * list StandardResponse) (w : World) :
  admissible group c bound w ->
  exists ts w',
    length ts = n
    /\ follows group c bound w w' (batchCalls b env req first n)
    /\ forLoop (aggregateItem fuel env group req generateFn) n first acc w =
       Some (Returned (acc.1 ++ collected b env req first n,
                       acc.2 ++ slots b env req first ts), w').
Proof.
  revert first acc w. induction n as [|n IH]; intros first acc w Hadm.
  - exists [], w. split; [reflexivity|]. split; [apply follows_refl; exact Hadm|].
    cbn. unfold ret. rewrite !app_nil_r. destruct acc; reflexivity.
  - destruct (aggregateItem_run env req first acc w Hadm) as (w1 & Hfol1 & Hrun1).
    destruct (IH (S first)
                (acc.1 ++ itemErrors b (env first) req,
                 acc.2 ++ [itemResult b (env first) req (now w1)]) w1)
      as (ts & w2 & Hlen & Hfol2 & Hrun2).
    { apply Hfol1. }
    exists (now w1 :: ts), w2. split; [cbn; lia|].
    split; [exact (follows_trans _ _ _ _ _ Hfol1 Hfol2)|].
    cbn [forLoop]. unfold bind at 1. rewrite Hrun1, Hrun2. cbn [fst snd].
    rewrite slots_cons. unfold collected. cbn [seq List.map concat].
    rewrite <- !app_assoc. reflexivity.
Qed.

(** The streaming loop. *)
Lemma stream_loop (env : nat -> ItemEnv) (req : ServiceRequest)
    (sr : StreamGenerationRequest) (count : Z) (n first : nat)
    (acc : list thrown * list StandardResponse) (w : World) :
  admissible group c bound w ->
  exists ts w',
    length ts = n
    /\ follows group c bound w w' (streamCalls b sr count env req first ts)
    /\ forLoop (streamItem fuel env group req generateFn sr count) n first acc w =
       Some (Returned (acc.1 ++ collected b env req first n,
                       acc.2 ++ slots b env req first ts), w').
Proof.
  revert first acc w. induction n as [|n IH]; intros first acc w Hadm.
  - exists [], w. split; [reflexivity|]. split; [apply follows_refl; exact Hadm|].
    cbn. unfold ret. rewrite !app_nil_r. destruct acc; reflexivity.
  - destruct (streamItem_run env req sr count first acc w Hadm) as (t & w1 & Hfol1 & Hrun1).
    destruct (IH (S first)
                (acc.1 ++ itemErrors b (env first) req,
                 acc.2 ++ [itemResult b (env first) req t]) w1)
      as (ts & w2 & Hlen & Hfol2 & Hrun2).
    { apply Hfol1. }
    exists (t :: ts), w2. split; [cbn; lia|].
    split; [rewrite streamCalls_cons; exact (follows_trans _ _ _ _ _ Hfol1 Hfol2)|].
    cbn [forLoop]. unfold bind at 1. rewrite Hrun1, Hrun2. cbn [fst snd].
    rewrite slots_cons. unfold collected. cbn [seq List.map concat].
    rewrite <- !app_assoc. reflexivity.
Qed.

(** generateMultipleImages resolves, with the slots of its items in
    request order and the summary computed from them. *)
Lemma generateMultipleImages_run (env : nat -> ItemEnv) (req : ServiceRequest) (w : World) :
  admissible group c bound w ->
  let n := orNumber (count req) DEFAULT_COUNT in
  exists ts w',
    length ts = Z.to_nat n
    /\ follows group c bound w w' (batchCalls b env req 0 (Z.to_nat n))
    /\ generateMultipleImages fuel env group req generateFn w =
       Some (Returned (summary n (collected b env req 0 (Z.to_nat n))
                         (slots b env req 0 ts)), w').
Proof.
  intros Hadm n.
  destruct (aggregate_loop env req (Z.to_nat n) 0 ([], []) w Hadm)
    as (ts & w' & Hlen & Hfol & Hrun).
  exists ts, w'. split; [exact Hlen|]. split; [exact Hfol|].
  unfold generateMultipleImages. fold n. unfold bind. rewrite Hrun. reflexivity.
Qed.

(** generateMultipleImagesStream resolves; onError is never reached. *)
Lemma generateMultipleImagesStream_run (env : nat -> ItemEnv) (req : ServiceRequest)
    (sr : StreamGenerationRequest) (w : World) :
  admissible group c bound w ->
  let n := orNumber (streamCount sr) (orNumber (count req) DEFAULT_COUNT) in
  exists ts w',
    length ts = Z.to_nat n
    /\ follows group c bound w w'
         (streamCalls b sr n env req 0 ts ++
          if onComplete sr
          then [EvComplete (summary n (collected b env req 0 (Z.to_nat n))
                              (slots b env req 0 ts))]
          else [])
    /\ generateMultipleImagesStream fuel env group req generateFn sr w =
       Some (Returned tt, w').
Proof.
  intros Hadm n.
  destruct (stream_loop env req sr n (Z.to_nat n) 0 ([], []) w Hadm)
    as (ts & w' & Hlen & Hfol & Hrun).
  unfold generateMultipleImagesStream. fold n. unfold tryCatch, bind. rewrite Hrun.
  cbn [fst snd app]. unfold callOnComplete, emit, ret.
  destruct (onComplete sr).
  - exists ts. eexists. split; [exact Hlen|]. split; [|reflexivity].
    apply follows_emit. exact Hfol.
  - exists ts, w'. split; [exact Hlen|]. split; [|reflexivity].
    rewrite app_nil_r. exact Hfol.
Qed.

End OneCall.

(** ** Slots and callbacks of a batch *)

Lemma slots_length (b : Behaviour) (env : nat -> ItemEnv) (req : ServiceRequest) (first : nat)
    (ts : list Z) :
  length (slots b env req first ts) = length ts.
Proof. unfold slots. apply length_imap. Qed.

Lemma slots_lookup (b : Behaviour) (env : nat -> ItemEnv) (req : ServiceRequest) (ts : list Z)
    (i : nat) :
  (i < length ts)%nat ->
  exists t, slots b env req 0 ts !! i = Some (itemResult b (env i) req t).
Proof.
  intros Hi. destruct (lookup_lt_is_Some_2 ts i Hi) as [t Ht].
  exists t. unfold slots. rewrite list_lookup_imap, Ht. reflexivity.
Qed.

Lemma callbacks_app (evs1 evs2 : list event) :
  callbacks (evs1 ++ evs2) = callbacks evs1 ++ callbacks evs2.
Proof. unfold callbacks. apply List.filter_app. Qed.

Lemma callbacks_itemCalls (b : Behaviour) (e : ItemEnv) (req : ServiceRequest) :
  (forall e' req', callbacks (calls b e' req') = []) ->
  callbacks (itemCalls b e req) = [].
Proof.
  intros Hcalls. unfold itemCalls. destruct (checkAuth e) as [[|]|]; try reflexivity.
  rewrite callbacks_app, Hcalls.
  destruct (settles b e req) as [r|]; [|reflexivity].
  destruct (needsUpload r); reflexivity.
Qed.

(** The callbacks of a streamed batch are its calls of onProgress, one per
    item, with the indices of the items. *)
Lemma callbacks_streamCalls (b : Behaviour) (sr : StreamGenerationRequest) (count : Z)
    (env : nat -> ItemEnv) (req : ServiceRequest) (first : nat) (ts : list Z) :
  (forall e' req', callbacks (calls b e' req') = []) ->
  callbacks (streamCalls b sr count env req first ts) =
  if onProgress sr
  then imap (fun k t => EvProgress (itemResult b (env (first + k)%nat) req t)
                          (Z.of_nat (first + k)) count) ts
  else [].
Proof.
  intros Hcalls. revert first. induction ts as [|t ts IH]; intros first.
  - destruct (onProgress sr); reflexivity.
  - unfold streamCalls in *. rewrite !imap_cons. cbn [concat].
    rewrite !callbacks_app, callbacks_itemCalls by exact Hcalls.
    rewrite Nat.add_0_r. cbn [app].
    assert (Htail :
      imap ((fun k t => itemCalls b (env (first + k)%nat) req
                        ++ progressCall b sr count env req (first + k)%nat t) ∘ S) ts =
      imap (fun k t => itemCalls b (env (S first + k)%nat) req
                       ++ progressCall b sr count env req (S first + k)%nat t) ts).
    { apply imap_ext. intros k x _. cbn. rewrite Nat.add_succ_r. reflexivity. }
    rewrite Htail, (IH (S first)). unfold progressCall.
    destruct (onProgress sr); [|reflexivity].
    cbn [callbacks List.filter isCallback app]. f_equal.
    apply imap_ext. intros k x _. cbn. rewrite Nat.add_succ_r. reflexivity.
Qed.

(** ** The two request functions *)

Lemma gpt4oRequestFn_behaves (modelConfig : option ModelConfig) :
  behaves (gpt4oRequestFn modelConfig) (gpt4oBehaviour modelConfig).
Proof.
  unfold behaves, gpt4oRequestFn, gpt4oBehaviour.
  destruct (negb (truthy (configField api_key modelConfig))); cbn.
  - split; [|reflexivity]. intros e req w. unfold throw.
    rewrite app_nil_r, Z.add_0_r. destruct w; reflexivity.
  - split; reflexivity.
Qed.

Lemma doubaoRequestFn_behaves (modelConfig : option ModelConfig) :
  behaves (doubaoRequestFn modelConfig) (doubaoBehaviour modelConfig).
Proof.
  unfold behaves, doubaoRequestFn, doubaoBehaviour.
  destruct (negb (truthy (configField api_key modelConfig))
            || negb (truthy (configField api_secret modelConfig))); cbn.
  - split; [|reflexivity]. intros e req w. unfold throw.
    rewrite app_nil_r, Z.add_0_r. destruct w; reflexivity.
  - split; reflexivity.
Qed.

(** ** Whole calls *)

(** The cooldown still to run at [w], or a full cooldown if that is longer:
    after so many polls every item of a call on its own has got through. *)
Lemma admissible_start (group : string) (c : Registry.GroupConfig) (w : World) :
  getActiveRequests w group < Registry.maxConcurrent c ->
  admissible group c
    (Z.max (Registry.cooldownMs c)
       (getLastRequestTime w group + Registry.cooldownMs c - now w)) w.
Proof. intros H. split; [exact H | lia]. Qed.

(** C1. A batch of N >= 1 items resolves with exactly N slots, slot i being
    the result of item i (a failed item fills its own slot); the streaming
    batch calls onProgress exactly N times, with the indices 0 .. N-1 in
    increasing order and the same results, and then onComplete. *)
Theorem batch_has_one_slot_per_item
    (group : string) (c : Registry.GroupConfig)
    (generateFn : ItemEnv -> ServiceRequest -> M StandardResponse) (b : Behaviour)
    (env : nat -> ItemEnv) (req : ServiceRequest) (sr : StreamGenerationRequest)
    (N : Z) (w : World) :
  Registry.getModelConfigByGroup group = Returned (Registry.JGroupConfig c) ->
  behaves generateFn b ->
  1 <= N ->
  count req = Some N ->
  streamCount sr = None \/ streamCount sr = Some N ->
  onProgress sr = true ->
  getActiveRequests w group < Registry.maxConcurrent c ->
  exists fuel0, forall fuel, (fuel0 <= fuel)%nat ->
    (exists response w',
        generateMultipleImages fuel env group req generateFn w = Some (Returned response, w')
        /\ length (results response) = Z.to_nat N
        /\ forall i, (i < Z.to_nat N)%nat ->
             exists t,
               results response !! i = Some (itemResult b (env i) req t)
               /\ forall x, dispatchOutcome b (env i) req = Thrown x ->
                    results response !! i = Some (failedResponse x t))
    /\ (exists ts evs response w',
           generateMultipleImagesStream fuel env group req generateFn sr w
           = Some (Returned tt, w')
           /\ trace w' = trace w ++ evs
           /\ length ts = Z.to_nat N
           /\ callbacks evs
              = imap (fun i t => EvProgress (itemResult b (env i) req t) (Z.of_nat i) N) ts
                ++ if onComplete sr then [EvComplete response] else []).
Proof.
  intros Hcfg Hb HN Hcount Hstream Hprogress Hfree.
  set (bound := Z.max (Registry.cooldownMs c)
                  (getLastRequestTime w group + Registry.cooldownMs c - now w)).
  exists (S (Z.to_nat bound)). intros fuel Hfuel.
  assert (Hbound : Registry.cooldownMs c <= bound) by (subst bound; lia).
  assert (Hfuel' : (Z.to_nat bound < fuel)%nat) by lia.
  pose proof (admissible_start group c w Hfree) as Hadm. fold bound in Hadm.
  split.
  - destruct (generateMultipleImages_run group c Hcfg generateFn b Hb bound fuel Hbound Hfuel'
                env req w Hadm) as (ts & w' & Hlen & _ & Hrun).
    rewrite Hcount, (orNumber_count_pos N HN) in Hlen, Hrun.
    eexists _, w'. split; [exact Hrun|]. cbn [results summary].
    split; [rewrite slots_length; exact Hlen|].
    intros i Hi. destruct (slots_lookup b env req ts i) as [t Ht]; [lia|].
    exists t. split; [exact Ht|]. intros x Hx. rewrite Ht. unfold itemResult.
    rewrite Hx. reflexivity.
  - destruct (generateMultipleImagesStream_run group c Hcfg generateFn b Hb bound fuel Hbound
                Hfuel' env req sr w Hadm) as (ts & w' & Hlen & Hfol & Hrun).
    assert (Hn : orNumber (streamCount sr) (orNumber (count req) DEFAULT_COUNT) = N).
    { rewrite Hcount, (orNumber_count_pos N HN).
      destruct Hstream as [-> | ->]; [reflexivity | apply (orNumber_Some_pos N N HN)]. }
    rewrite Hn in Hlen, Hfol.
    destruct Hfol as (_ & _ & Htrace & _).
    eexists ts, _, _, w'. split; [exact Hrun|]. split; [exact Htrace|]. split; [exact Hlen|].
    rewrite callbacks_app, callbacks_streamCalls by apply Hb.
    rewrite Hprogress. cbn [Nat.add]. f_equal.
    destruct (onComplete sr); reflexivity.
Qed.

Lemma batch_has_one_slot_per_item_witness :
  exists fuel0, forall fuel, (fuel0 <= fuel)%nat ->
    exists response w',
      generateMultipleImages fuel Example.alternating "openai"
        (mkServiceRequest "a cat" None (Some 2)) (gpt4oRequestFn Example.keys)
        (initialWorld 0) = Some (Returned response, w')
      /\ length (results response) = 2%nat.
Proof.
  destruct (batch_has_one_slot_per_item "openai" Example.twoAtATime
              (gpt4oRequestFn Example.keys) (gpt4oBehaviour Example.keys)
              Example.alternating (mkServiceRequest "a cat" None (Some 2))
              Example.listening 2 (initialWorld 0)) as [fuel0 H].
  - reflexivity.
  - apply gpt4oRequestFn_behaves.
  - lia.
  - reflexivity.
  - left. reflexivity.
  - reflexivity.
  - vm_compute. reflexivity.
  - exists fuel0. intros fuel Hfuel.
    destruct (H fuel Hfuel) as [(response & w' & Hrun & Hlen & _) _].
    exists response, w'. split; [exact Hrun | exact Hlen].
Defined.

(** ** A caller that is not authenticated *)

Section Unauthenticated.

Variable fuel : nat.
Variable env : nat -> ItemEnv.
Variable group : string.
Variable req : ServiceRequest.
Variable generateFn : ItemEnv -> ServiceRequest -> M StandardResponse.
Hypothesis refused : forall i, checkAuth (env i) = Returned false.

Lemma executeRequest_refused (i : nat) (w : World) :
  executeRequest fuel (env i) group (generateFn (env i) req) w =
  Some (Thrown authRequired,
        mkWorld (activeRequests w) (lastRequestTime w)
          (now w + Z.of_N (authMs (env i))) (trace w)).
Proof.
  unfold executeRequest, bind, awaitExternal. rewrite refused. reflexivity.
Qed.

Lemma aggregate_loop_refused (n first : nat) (acc : list thrown * list StandardResponse)
    (w : World) :
  exists ts t',
    length ts = n
    /\ forLoop (aggregateItem fuel env group req generateFn) n first acc w =
       Some (Returned (acc.1 ++ repeat authRequired n,
                       acc.2 ++ List.map (failedResponse authRequired) ts),
             mkWorld (activeRequests w) (lastRequestTime w) t' (trace w)).
Proof.
  revert first acc w. induction n as [|n IH]; intros first acc w.
  - exists [], (now w). split; [reflexivity|]. cbn. unfold ret.
    rewrite !app_nil_r. destruct acc, w; reflexivity.
  - cbn [forLoop]. unfold bind at 1, aggregateItem at 1, tryCatch. unfold bind at 1.
    rewrite executeRequest_refused. unfold bind, dateNow, ret.
    cbn [activeRequests lastRequestTime now trace].
    match goal with |- context [forLoop _ n (S first) ?acc' ?w'] =>
      destruct (IH (S first) acc' w') as (ts & t' & Hlen & Hrun) end.
    rewrite Hrun. cbn [fst snd activeRequests lastRequestTime now trace].
    exists (now w + Z.of_N (authMs (env first)) :: ts), t'.
    split; [cbn; lia|]. cbn [repeat List.map]. rewrite <- !app_assoc. reflexivity.
Qed.

Variable sr : StreamGenerationRequest.

Lemma stream_loop_refused (count : Z) (n first : nat)
    (acc : list thrown * list StandardResponse) (w : World) :
  exists ts t',
    length ts = n
    /\ forLoop (streamItem fuel env group req generateFn sr count) n first acc w =
       Some (Returned (acc.1 ++ repeat authRequired n,
                       acc.2 ++ List.map (failedResponse authRequired) ts),
             mkWorld (activeRequests w) (lastRequestTime w) t'
               (trace w ++
                if onProgress sr
                then imap (fun k t => EvProgress (failedResponse authRequired t)
                                        (Z.of_nat (first + k)) count) ts
                else [])).
Proof.
  revert first acc w. induction n as [|n IH]; intros first acc w.
  - exists [], (now w). split; [reflexivity|]. cbn. unfold ret.
    destruct (onProgress sr); rewrite !app_nil_r; destruct acc, w; reflexivity.
  - cbn [forLoop]. unfold bind at 1, streamItem at 1, tryCatch. unfold bind at 1.
    rewrite executeRequest_refused. unfold bind at 1, dateNow at 1.
    cbn [activeRequests lastRequestTime now trace].
    unfold bind at 1, callOnProgress at 1, emit, ret.
    destruct (onProgress sr) eqn:Hprog;
      cbn [activeRequests lastRequestTime now trace];
      match goal with |- context [forLoop _ n (S first) ?acc' ?w'] =>
        destruct (IH (S first) acc' w') as (ts & t' & Hlen & Hrun) end;
      rewrite Hrun; cbn [fst snd activeRequests lastRequestTime now trace];
      exists (now w + Z.of_N (authMs (env first)) :: ts), t';
      (split; [cbn; lia|]); cbn [repeat List.map]; rewrite <- !app_assoc.
    + rewrite imap_cons, Nat.add_0_r. cbn [app].
      do 5 f_equal. apply imap_ext. intros k x _. cbn. rewrite Nat.add_succ_r. reflexivity.
    + reflexivity.
Qed.

End Unauthenticated.

Lemma filter_success_failed (x : thrown) (ts : list Z) :
  List.filter success (List.map (failedResponse x) ts) = [].
Proof. induction ts as [|t ts IH]; [reflexivity | exact IH]. Qed.

(** C3, as the code has it.  When the caller is not signed in, each item is
    refused at its own dispatch and fills its slot with a failed result:
    success is false, the error is the text AUTH_REQUIRED, there is no
    message, image or text, and the slot carries the instant of its
    refusal.  The aggregate call resolves with these slots and the summary
    (N requested, 0 successful, N failed); the streaming call reports each
    of them through onProgress and ends with onComplete.  The ledger is
    untouched, and nothing but these callbacks leaves the dispatcher. *)
Theorem unauthenticated_items_fail_one_by_one
    (fuel : nat) (env : nat -> ItemEnv) (group : string) (req : ServiceRequest)
    (generateFn : ItemEnv -> ServiceRequest -> M StandardResponse)
    (sr : StreamGenerationRequest) (w : World) :
  (forall i, checkAuth (env i) = Returned false) ->
  let n := orNumber (count req) DEFAULT_COUNT in
  let m := orNumber (streamCount sr) n in
  let refused (t : Z) : StandardResponse :=
    mkResponse false None None (Some "AUTH_REQUIRED") None (Some t) in
  (exists ts w',
      length ts = Z.to_nat n
      /\ generateMultipleImages fuel env group req generateFn w =
         Some (Returned
                 (mkGenerationResponse (List.map refused ts)
                    (Some (mkMetadata n 0 (Z.of_nat (length ts))))), w')
      /\ activeRequests w' = activeRequests w
      /\ lastRequestTime w' = lastRequestTime w
      /\ trace w' = trace w)
  /\ (exists ts w',
         length ts = Z.to_nat m
         /\ generateMultipleImagesStream fuel env group req generateFn sr w =
            Some (Returned tt, w')
         /\ activeRequests w' = activeRequests w
         /\ lastRequestTime w' = lastRequestTime w
         /\ trace w' =
            trace w
            ++ (if onProgress sr
                then imap (fun i t => EvProgress (refused t) (Z.of_nat i) m) ts
                else [])
            ++ (if onComplete sr
                then [EvComplete
                        (mkGenerationResponse (List.map refused ts)
                           (Some (mkMetadata m 0 (Z.of_nat (length ts)))))]
                else [])).
Proof.
  intros Hrefused n m refused.
  assert (Hslot : failedResponse authRequired = refused) by reflexivity.
  split.
  - destruct (aggregate_loop_refused fuel env group req generateFn Hrefused
                (Z.to_nat n) 0 ([], []) w) as (ts & t' & Hlen & Hrun).
    exists ts. eexists. split; [exact Hlen|].
    unfold generateMultipleImages. fold n. unfold bind. rewrite Hrun.
    cbn [fst snd app]. unfold ret, summary.
    rewrite filter_success_failed, repeat_length, Hlen. cbn [length].
    rewrite Hslot. repeat split; reflexivity.
  - destruct (stream_loop_refused fuel env group req generateFn Hrefused sr m
                (Z.to_nat m) 0 ([], []) w) as (ts & t' & Hlen & Hrun).
    exists ts.
    unfold generateMultipleImagesStream. fold n. fold m. unfold tryCatch, bind.
    rewrite Hrun. cbn [fst snd app]. unfold callOnComplete, emit, ret, summary.
    rewrite filter_success_failed, repeat_length, Hlen. cbn [length].
    rewrite Hslot.
    destruct (onComplete sr); eexists; (split; [reflexivity|]); (split; [reflexivity|]);
      cbn [activeRequests lastRequestTime now trace Nat.add];
      rewrite ?app_nil_r, <- ?app_assoc, ?Hlen; repeat split; reflexivity.
Qed.

Lemma unauthenticated_items_fail_one_by_one_witness :
  (exists ts w',
      length ts = 2%nat
      /\ generateMultipleImages 0 Example.signedOut "openai"
           (mkServiceRequest "a cat" None (Some 2)) (gpt4oRequestFn Example.keys)
           (initialWorld 0) =
         Some (Returned
                 (mkGenerationResponse
                    (List.map (fun t => mkResponse false None None (Some "AUTH_REQUIRED") None
                                          (Some t)) ts)
                    (Some (mkMetadata 2 0 (Z.of_nat (length ts))))), w')
      /\ activeRequests w' = activeRequests (initialWorld 0)
      /\ lastRequestTime w' = lastRequestTime (initialWorld 0)
      /\ trace w' = trace (initialWorld 0))
  /\ (exists ts w',
         length ts = 2%nat
         /\ generateMultipleImagesStream 0 Example.signedOut "openai"
              (mkServiceRequest "a cat" None (Some 2)) (gpt4oRequestFn Example.keys)
              Example.listening (initialWorld 0) = Some (Returned tt, w')
         /\ activeRequests w' = activeRequests (initialWorld 0)
         /\ lastRequestTime w' = lastRequestTime (initialWorld 0)
         /\ trace w' =
            imap (fun i t => EvProgress
                               (mkResponse false None None (Some "AUTH_REQUIRED") None (Some t))
                               (Z.of_nat i) 2) ts
            ++ [EvComplete
                  (mkGenerationResponse
                     (List.map (fun t => mkResponse false None None (Some "AUTH_REQUIRED") None
                                           (Some t)) ts)
                     (Some (mkMetadata 2 0 (Z.of_nat (length ts)))))]).
Proof.
  apply (unauthenticated_items_fail_one_by_one 0 Example.signedOut "openai"
           (mkServiceRequest "a cat" None (Some 2)) (gpt4oRequestFn Example.keys)
           Example.listening (initialWorld 0)).
  intros i. reflexivity.
Defined.

(** C3, as stated, fails: a call by a signed-out caller for two images is
    not rejected, it resolves with two failed slots; the streaming call
    reports both through onProgress and then calls onComplete, never
    onError. *)
Lemma unauthenticated_call_is_not_rejected :
  (exists response w',
      generateImage 0 Example.signedOut "gpt_4o" "a cat" (Some 2) Example.keys
        (initialWorld 0) = Some (Returned response, w')
      /\ length (results response) = 2%nat)
  /\ (forall e w',
         generateImage 0 Example.signedOut "gpt_4o" "a cat" (Some 2) Example.keys
           (initialWorld 0) <> Some (Thrown e, w'))
  /\ (exists r0 r1 response w',
         generateImageStream 0 Example.signedOut "gpt_4o" "a cat" (Some 2)
           Example.listening Example.keys (initialWorld 0) = Some (Returned tt, w')
         /\ trace w' = [EvProgress r0 0 2; EvProgress r1 1 2; EvComplete response]).
Proof.
  split; [|split].
  - eexists _, _. split; [vm_compute; reflexivity | reflexivity].
  - intros e w'. vm_compute. discriminate.
  - eexists _, _, _, _. split; [vm_compute; reflexivity | reflexivity].
Qed.

(** ** Batches whose items all fail the same way *)

Section UniformFailure.

Variable b : Behaviour.
Variable env : nat -> ItemEnv.
Variable req : ServiceRequest.
Variable x : thrown.
Hypothesis fails : forall i, dispatchOutcome b (env i) req = Thrown x.

Lemma slots_uniform (first : nat) (ts : list Z) :
  slots b env req first ts = List.map (failedResponse x) ts.
Proof.
  revert first. induction ts as [|t ts IH]; intros first; [reflexivity|].
  unfold slots in *. rewrite imap_cons. cbn [List.map]. f_equal.
  - unfold itemResult. rewrite fails. reflexivity.
  - rewrite <- (IH (S first)). apply imap_ext. intros k y _. cbn.
    rewrite Nat.add_succ_r. reflexivity.
Qed.

Lemma collected_uniform (first n : nat) : collected b env req first n = repeat x n.
Proof.
  revert first. induction n as [|n IH]; intros first; [reflexivity|].
  unfold collected in *. cbn [seq List.map concat repeat].
  rewrite (IH (S first)). unfold itemErrors. rewrite fails. reflexivity.
Qed.

Hypothesis silent : forall i, itemCalls b (env i) req = [].

Lemma batchCalls_silent (first n : nat) : batchCalls b env req first n = [].
Proof.
  revert first. induction n as [|n IH]; intros first; [reflexivity|].
  unfold batchCalls in *. cbn [seq List.map concat]. rewrite silent, (IH (S first)).
  reflexivity.
Qed.

Lemma streamCalls_silent (sr : StreamGenerationRequest) (count : Z) (first : nat)
    (ts : list Z) :
  streamCalls b sr count env req first ts =
  if onProgress sr
  then imap (fun k t => EvProgress (failedResponse x t) (Z.of_nat (first + k)) count) ts
  else [].
Proof.
  revert first. induction ts as [|t ts IH]; intros first.
  - destruct (onProgress sr); reflexivity.
  - rewrite streamCalls_cons, (IH (S first)), silent.
    unfold progressCall, itemResult. rewrite fails.
    destruct (onProgress sr); [|reflexivity].
    rewrite imap_cons, Nat.add_0_r. cbn [app]. f_equal.
    apply imap_ext. intros k y _. cbn. rewrite Nat.add_succ_r. reflexivity.
Qed.

Variable group : string.
Variable c : Registry.GroupConfig.
Hypothesis configured :
  Registry.getModelConfigByGroup group = Returned (Registry.JGroupConfig c).
Variable generateFn : ItemEnv -> ServiceRequest -> M StandardResponse.
Hypothesis generateFn_behaves : behaves generateFn b.

(** Every slot is the failed result carrying the message of [x]; both
    modes resolve, and nothing but the callbacks leaves the dispatcher. *)
Lemma uniform_failure (sr : StreamGenerationRequest) (w : World) :
  getActiveRequests w group < Registry.maxConcurrent c ->
  let n := orNumber (count req) DEFAULT_COUNT in
  let m := orNumber (streamCount sr) n in
  exists fuel0, forall fuel, (fuel0 <= fuel)%nat ->
    (exists ts w',
        length ts = Z.to_nat n
        /\ generateMultipleImages fuel env group req generateFn w =
           Some (Returned
                   (mkGenerationResponse (List.map (failedResponse x) ts)
                      (Some (mkMetadata n 0 (Z.of_nat (length ts))))), w')
        /\ (forall g, getActiveRequests w' g = getActiveRequests w g)
        /\ trace w' = trace w)
    /\ (exists ts w',
           length ts = Z.to_nat m
           /\ generateMultipleImagesStream fuel env group req generateFn sr w =
              Some (Returned tt, w')
           /\ (forall g, getActiveRequests w' g = getActiveRequests w g)
           /\ trace w' =
              trace w
              ++ (if onProgress sr
                  then imap (fun i t => EvProgress (failedResponse x t) (Z.of_nat i) m) ts
                  else [])
              ++ (if onComplete sr
                  then [EvComplete
                          (mkGenerationResponse (List.map (failedResponse x) ts)
                             (Some (mkMetadata m 0 (Z.of_nat (length ts)))))]
                  else [])).
Proof.
  intros Hfree n m.
  set (bound := Z.max (Registry.cooldownMs c)
                  (getLastRequestTime w group + Registry.cooldownMs c - now w)).
  exists (S (Z.to_nat bound)). intros fuel Hfuel.
  assert (Hbound : Registry.cooldownMs c <= bound) by (subst bound; lia).
  assert (Hfuel' : (Z.to_nat bound < fuel)%nat) by lia.
  pose proof (admissible_start group c w Hfree) as Hadm. fold bound in Hadm.
  split.
  - destruct (generateMultipleImages_run group c configured generateFn b generateFn_behaves
                bound fuel Hbound Hfuel' env req w Hadm)
      as (ts & w' & Hlen & (Hact & _ & Htrace & _) & Hrun).
    fold n in Hlen, Htrace, Hrun.
    exists ts, w'. split; [exact Hlen|].
    rewrite Hrun, slots_uniform, collected_uniform. unfold summary.
    rewrite filter_success_failed, repeat_length, Hlen. cbn [length].
    split; [reflexivity|]. split; [exact Hact|].
    rewrite Htrace, batchCalls_silent, app_nil_r. reflexivity.
  - destruct (generateMultipleImagesStream_run group c configured generateFn b
                generateFn_behaves bound fuel Hbound Hfuel' env req sr w Hadm)
      as (ts & w' & Hlen & (Hact & _ & Htrace & _) & Hrun).
    fold n in Hlen, Htrace. fold m in Hlen, Htrace.
    exists ts, w'. split; [exact Hlen|]. split; [exact Hrun|]. split; [exact Hact|].
    rewrite Htrace, streamCalls_silent, slots_uniform, collected_uniform. unfold summary.
    rewrite filter_success_failed, repeat_length, Hlen. cbn [length Nat.add].
    reflexivity.
Qed.

End UniformFailure.

Lemma configured_openai :
  Registry.getModelConfigByGroup "openai" = Returned (Registry.JGroupConfig Example.twoAtATime).
Proof. reflexivity. Qed.

Lemma configured_doubao :
  Registry.getModelConfigByGroup "doubao" = Returned (Registry.JGroupConfig Example.twoAtATime).
Proof. reflexivity. Qed.

(** C4. With the caller signed in and the credentials of the provider
    missing or incomplete, every item of a batch raises the credential
    error of its provider and fills its slot with a failed result: success
    is false and the error is the message of the provider, written out
    below as the source has it.  The call is not aborted: it resolves with
    one slot per requested item (and, streaming, one onProgress per item
    followed by onComplete), without any adapter or storage call. *)
Theorem missing_credentials_fail_each_item
    (env : nat -> ItemEnv) (req : ServiceRequest) (modelConfig : option ModelConfig)
    (sr : StreamGenerationRequest) (w : World) :
  (forall i, checkAuth (env i) = Returned true) ->
  let n := orNumber (count req) DEFAULT_COUNT in
  let m := orNumber (streamCount sr) n in
  let outcomeOf (text : string) (aggregate : nat -> M GenerationResponse)
        (stream : nat -> M unit) : Prop :=
    let failed (t : Z) : StandardResponse :=
      mkResponse false None None (Some text) None (Some t) in
    exists fuel0, forall fuel, (fuel0 <= fuel)%nat ->
      (exists ts w',
          length ts = Z.to_nat n
          /\ aggregate fuel w =
             Some (Returned
                     (mkGenerationResponse (List.map failed ts)
                        (Some (mkMetadata n 0 (Z.of_nat (length ts))))), w')
          /\ (forall g, getActiveRequests w' g = getActiveRequests w g)
          /\ trace w' = trace w)
      /\ (exists ts w',
             length ts = Z.to_nat m
             /\ stream fuel w = Some (Returned tt, w')
             /\ (forall g, getActiveRequests w' g = getActiveRequests w g)
             /\ trace w' =
                trace w
                ++ (if onProgress sr
                    then imap (fun i t => EvProgress (failed t) (Z.of_nat i) m) ts
                    else [])
                ++ (if onComplete sr
                    then [EvComplete
                            (mkGenerationResponse (List.map failed ts)
                               (Some (mkMetadata m 0 (Z.of_nat (length ts)))))]
                    else [])) in
  (truthy (configField api_key modelConfig) = false ->
   getActiveRequests w "openai" < 2 ->
   outcomeOf "GPT4o 服务需要有效的 API 密钥配置"
     (fun fuel => generateImageWithGPT4o fuel env req modelConfig)
     (fun fuel => generateImageWithGPT4oStream fuel env req sr modelConfig))
  /\ (truthy (configField api_key modelConfig) = false
      \/ truthy (configField api_secret modelConfig) = false ->
      getActiveRequests w "doubao" < 2 ->
      outcomeOf "Doubao 服务需要有效的 API 密钥和密钥配置"
        (fun fuel => generateImageWithDoubao fuel env req modelConfig)
        (fun fuel => generateImageWithDoubaoStream fuel env req sr modelConfig)).
Proof.
  intros Hauth n m outcomeOf.
  assert (Hopenai : failedResponse (ErrorObj gpt4oCredentialError)
                    = fun t => mkResponse false None None
                                 (Some "GPT4o 服务需要有效的 API 密钥配置") None (Some t))
    by reflexivity.
  assert (Hdoubao : failedResponse (ErrorObj doubaoCredentialError)
                    = fun t => mkResponse false None None
                                 (Some "Doubao 服务需要有效的 API 密钥和密钥配置") None (Some t))
    by reflexivity.
  split.
  - intros Hkey Hfree.
    assert (Hb : gpt4oBehaviour modelConfig =
                 mkBehaviour (fun _ _ => Thrown (ErrorObj gpt4oCredentialError))
                   (fun _ _ => 0%N) (fun _ _ => [])).
    { unfold gpt4oBehaviour. rewrite Hkey. reflexivity. }
    unfold outcomeOf. cbv zeta. rewrite <- Hopenai.
    apply (uniform_failure (gpt4oBehaviour modelConfig) env req
             (ErrorObj gpt4oCredentialError)) with (c := Example.twoAtATime).
    + intros i. unfold dispatchOutcome. rewrite Hauth, Hb. reflexivity.
    + intros i. unfold itemCalls. rewrite Hauth, Hb. reflexivity.
    + exact configured_openai.
    + apply gpt4oRequestFn_behaves.
    + exact Hfree.
  - intros Hkey Hfree.
    assert (Hb : doubaoBehaviour modelConfig =
                 mkBehaviour (fun _ _ => Thrown (ErrorObj doubaoCredentialError))
                   (fun _ _ => 0%N) (fun _ _ => [])).
    { unfold doubaoBehaviour.
      destruct Hkey as [-> | ->]; [reflexivity | rewrite orb_true_r; reflexivity]. }
    unfold outcomeOf. cbv zeta. rewrite <- Hdoubao.
    apply (uniform_failure (doubaoBehaviour modelConfig) env req
             (ErrorObj doubaoCredentialError)) with (c := Example.twoAtATime).
    + intros i. unfold dispatchOutcome. rewrite Hauth, Hb. reflexivity.
    + intros i. unfold itemCalls. rewrite Hauth, Hb. reflexivity.
    + exact configured_doubao.
    + apply doubaoRequestFn_behaves.
    + exact Hfree.
Qed.

Lemma missing_credentials_fail_each_item_witness :
  exists fuel0, forall fuel, (fuel0 <= fuel)%nat ->
    (exists ts w',
        length ts = 2%nat
        /\ generateImageWithGPT4o fuel Example.allGood
             (mkServiceRequest "a cat" None (Some 2)) Example.noKeys (initialWorld 0) =
           Some (Returned
                   (mkGenerationResponse
                      (List.map (fun t => mkResponse false None None
                                            (Some "GPT4o 服务需要有效的 API 密钥配置") None
                                            (Some t)) ts)
                      (Some (mkMetadata 2 0 (Z.of_nat (length ts))))), w')
        /\ trace w' = [])
    /\ (exists ts w',
           length ts = 2%nat
           /\ generateImageWithGPT4oStream fuel Example.allGood
                (mkServiceRequest "a cat" None (Some 2)) Example.listening Example.noKeys
                (initialWorld 0) = Some (Returned tt, w')
           /\ trace w' =
              imap (fun i t => EvProgress
                                 (mkResponse false None None
                                    (Some "GPT4o 服务需要有效的 API 密钥配置") None (Some t))
                                 (Z.of_nat i) 2) ts
              ++ [EvComplete
                    (mkGenerationResponse
                       (List.map (fun t => mkResponse false None None
                                             (Some "GPT4o 服务需要有效的 API 密钥配置") None
                                             (Some t)) ts)
                       (Some (mkMetadata 2 0 (Z.of_nat (length ts)))))]).
Proof.
  destruct (proj1 (missing_credentials_fail_each_item Example.allGood
                     (mkServiceRequest "a cat" None (Some 2)) Example.noKeys
                     Example.listening (initialWorld 0) (fun _ => eq_refl)))
    as [fuel0 H].
  - reflexivity.
  - vm_compute. reflexivity.
  - exists fuel0. intros fuel Hfuel.
    destruct (H fuel Hfuel) as [(ts & w' & Hlen & Hrun & _ & Htrace)
                                  (ts' & w'' & Hlen' & Hrun' & _ & Htrace')].
    split.
    + exists ts, w'. split; [exact Hlen|]. split; [exact Hrun | exact Htrace].
    + exists ts', w''. split; [exact Hlen'|]. split; [exact Hrun' | exact Htrace'].
Defined.

(** ** The counter under interleaving *)

Lemma holders_setStatus (g : string) (ts : list EventLoop.task) (i : nat)
    (t : EventLoop.task) (st : EventLoop.status) :
  ts !! i = Some t ->
  (length (List.filter (EventLoop.holder g) (EventLoop.setStatus i st ts))
   + (if EventLoop.holder g t then 1 else 0)
   = length (List.filter (EventLoop.holder g) ts)
     + (if EventLoop.holder g
             (EventLoop.mkTask (EventLoop.group t) (EventLoop.credentials t) st)
        then 1 else 0))%nat.
Proof.
  intros Hi. unfold EventLoop.setStatus. rewrite Hi.
  rewrite insert_take_drop by (eapply lookup_lt_Some; exact Hi).
  rewrite <- (take_drop_middle ts i t Hi) at 3.
  rewrite !List.filter_app, !length_app. cbn [List.filter].
  destruct (EventLoop.holder g t), (EventLoop.holder g _); cbn [length]; lia.
Qed.

Lemma eventLoop_getActive_insert (m l : gmap string Z) (t : Z) (ts : list EventLoop.task)
    (q : list nat) (g g' : string) (v : Z) :
  EventLoop.getActive (EventLoop.mkState (<[g := v]> m) l t ts q) g' =
  if decide (g = g') then v else orNumber (m !! g') 0.
Proof.
  unfold EventLoop.getActive; simpl. rewrite lookup_insert.
  destruct (decide (g = g')); [apply orNumber_Some_zero | reflexivity].
Qed.

Lemma holder_group (g g0 : string) (c0 : bool) (st : EventLoop.status) :
  EventLoop.holder g (EventLoop.mkTask g0 c0 st) =
  if decide (g0 = g) then EventLoop.holdsSlot st else false.
Proof.
  unfold EventLoop.holder. cbn. destruct (String.eqb_spec g0 g); case_decide;
    try contradiction; reflexivity.
Qed.

Lemma pollOnce_keeps_count (g : string) (i : nat) (g0 : string) (c0 : bool)
    (st0 : EventLoop.status) (s : EventLoop.State) (queue : list nat) :
  EventLoop.tasks s !! i = Some (EventLoop.mkTask g0 c0 st0) ->
  EventLoop.holdsSlot st0 = false ->
  EventLoop.getActive s g = Z.of_nat (length (EventLoop.inFlight g s)) ->
  EventLoop.getActive (EventLoop.pollOnce i g0 s queue) g =
  Z.of_nat (length (EventLoop.inFlight g (EventLoop.pollOnce i g0 s queue))).
Proof.
  intros Hi Hfree Hinv. unfold EventLoop.pollOnce, EventLoop.inFlight in *.
  destruct (EventLoop.checkAvailability s g0); cbn [EventLoop.tasks];
    match goal with |- context [EventLoop.setStatus i ?st _] =>
      pose proof (holders_setStatus g _ i _ st Hi) as Hn end;
    rewrite !holder_group, Hfree in Hn; cbn in Hn; unfold EventLoop.getActive in *;
    cbn [EventLoop.activeRequests]; destruct (decide (g0 = g)); lia.
Qed.

(** Every step keeps the counter of each group equal to the number of
    tasks of the group that hold a slot. *)
Lemma step_keeps_count (l : EventLoop.label) (s s' : EventLoop.State) :
  (forall g, EventLoop.getActive s g = Z.of_nat (length (EventLoop.inFlight g s))) ->
  EventLoop.step l s = Some s' ->
  forall g, EventLoop.getActive s' g = Z.of_nat (length (EventLoop.inFlight g s')).
Proof.
  intros Hinv Hstep g. specialize (Hinv g).
  unfold EventLoop.inFlight in *.
  destruct l as [g0 c0 | i b | i | i ok | ms |]; cbn [EventLoop.step] in Hstep.
  - injection Hstep as <-. cbn [EventLoop.tasks].
    rewrite List.filter_app, length_app. cbn [List.filter].
    rewrite holder_group. cbn [EventLoop.holdsSlot].
    unfold EventLoop.getActive in *. cbn [EventLoop.activeRequests].
    destruct (decide (g0 = g)); cbn [length]; lia.
  - destruct (EventLoop.tasks s !! i) as [[g0 c0 []]|] eqn:Hi; try discriminate.
    injection Hstep as <-. cbn [EventLoop.tasks].
    pose proof (holders_setStatus g _ i _ (EventLoop.Ready (EventLoop.AfterAuth b)) Hi) as Hn.
    rewrite !holder_group in Hn. cbn in Hn. unfold EventLoop.getActive in *.
    cbn [EventLoop.activeRequests]. destruct (decide (g0 = g)); lia.
  - destruct (EventLoop.tasks s !! i) as [[g0 c0 []]|] eqn:Hi; try discriminate.
    destruct (EventLoop.microtasks s); try discriminate.
    destruct (_ <=? _); try discriminate.
    injection Hstep as <-. cbn [EventLoop.tasks].
    pose proof (holders_setStatus g _ i _ (EventLoop.Ready EventLoop.AfterTimer) Hi) as Hn.
    rewrite !holder_group in Hn. cbn in Hn. unfold EventLoop.getActive in *.
    cbn [EventLoop.activeRequests]. destruct (decide (g0 = g)); lia.
  - destruct (EventLoop.tasks s !! i) as [[g0 c0 []]|] eqn:Hi; try discriminate.
    injection Hstep as <-. cbn [EventLoop.tasks].
    pose proof (holders_setStatus g _ i _ (EventLoop.Ready (EventLoop.AfterRequest ok)) Hi)
      as Hn.
    rewrite !holder_group in Hn. cbn in Hn. unfold EventLoop.getActive in *.
    cbn [EventLoop.activeRequests]. destruct (decide (g0 = g)); lia.
  - injection Hstep as <-. exact Hinv.
  - destruct (EventLoop.microtasks s) as [|i queue]; try discriminate.
    destruct (EventLoop.tasks s !! i) as [[g0 c0 [|k| | |]]|] eqn:Hi; try discriminate.
    injection Hstep as <-.
    destruct k as [[|]| | |ok]; cbn [EventLoop.resume EventLoop.group EventLoop.credentials].
    + apply (pollOnce_keeps_count g i g0 c0 _ s queue Hi); [reflexivity | exact Hinv].
    + pose proof (holders_setStatus g _ i _ (EventLoop.Finished false) Hi) as Hn.
      rewrite !holder_group in Hn. cbn in Hn. cbn [EventLoop.tasks].
      unfold EventLoop.getActive in *. cbn [EventLoop.activeRequests].
      destruct (decide (g0 = g)); lia.
    + apply (pollOnce_keeps_count g i g0 c0 _ s queue Hi); [reflexivity | exact Hinv].
    + destruct c0; cbn [EventLoop.tasks].
      * pose proof (holders_setStatus g _ i _ (EventLoop.InFlight (EventLoop.clock s)) Hi)
          as Hn.
        rewrite !holder_group in Hn. cbn in Hn.
        rewrite eventLoop_getActive_insert. unfold EventLoop.getActive in *.
        destruct (decide (g0 = g)); [subst g0|]; lia.
      * pose proof (holders_setStatus g _ i _ (EventLoop.Finished false) Hi) as Hn.
        rewrite !holder_group in Hn. cbn in Hn.
        rewrite eventLoop_getActive_insert, lookup_insert_eq, orNumber_Some_zero.
        rewrite lookup_insert. unfold EventLoop.getActive in *.
        destruct (decide (g0 = g)); [subst g0|]; cbn; rewrite ?orNumber_Some_zero; lia.
    + pose proof (holders_setStatus g _ i _ (EventLoop.Finished ok) Hi) as Hn.
      rewrite !holder_group in Hn. cbn in Hn. cbn [EventLoop.tasks].
      rewrite eventLoop_getActive_insert. unfold EventLoop.getActive in *.
      destruct (decide (g0 = g)); [subst g0|]; lia.
Qed.

(** From the freshly built singleton on, whatever the interleaving, the
    counter of a group is the number of its items between the update of
    the counters and the [finally] block: each dispatch adds one, once, and
    takes it off, once. *)
Lemma counter_counts_items_in_flight (t : Z) (ls : list EventLoop.label)
    (s : EventLoop.State) (g : string) :
  EventLoop.run ls (EventLoop.initial t) = Some s ->
  EventLoop.getActive s g = Z.of_nat (length (EventLoop.inFlight g s)).
Proof.
  assert (Hgen : forall ls s0 s1,
             (forall g, EventLoop.getActive s0 g
                        = Z.of_nat (length (EventLoop.inFlight g s0))) ->
             EventLoop.run ls s0 = Some s1 ->
             forall g, EventLoop.getActive s1 g
                       = Z.of_nat (length (EventLoop.inFlight g s1))).
  { clear. induction ls as [|l ls IH]; intros s0 s1 Hinv Hrun.
    - injection Hrun as <-. exact Hinv.
    - cbn in Hrun. destruct (EventLoop.step l s0) as [s0'|] eqn:Hstep; [|discriminate].
      exact (IH s0' s1 (step_keeps_count l s0 s0' Hinv Hstep) Hrun). }
  intros Hrun. apply (Hgen ls (EventLoop.initial t) s); [|exact Hrun].
  intros g'. unfold EventLoop.getActive, EventLoop.initial, EventLoop.inFlight.
  cbn [EventLoop.activeRequests EventLoop.tasks List.filter length Z.of_nat].
  unfold Dispatcher.initializeCounters, Registry.getAllGroupConfigs, Registry.configs.
  cbn [fold_left fst snd].
  repeat (rewrite lookup_insert; case_decide; [reflexivity|]).
  rewrite lookup_empty. reflexivity.
Qed.

(** ** The counter around one dispatch *)

(** Whatever the request function does and however it ends, it runs with
    the counter of its group one higher than before the dispatch, and the
    [finally] block takes exactly one off what it left. *)
Lemma executeRequest_brackets {A : Type} (group : string) (c : Registry.GroupConfig)
    (fuel : nat) (e : ItemEnv) (requestFn : M A) (w : World) :
  Registry.getModelConfigByGroup group = Returned (Registry.JGroupConfig c) ->
  checkAuth e = Returned true ->
  getActiveRequests w group < Registry.maxConcurrent c ->
  (Z.to_nat (getLastRequestTime w group + Registry.cooldownMs c - now w) < fuel)%nat ->
  exists t,
    let started :=
      mkWorld (<[group := getActiveRequests w group + 1]> (activeRequests w))
        (<[group := t]> (lastRequestTime w)) t (trace w) in
    now w <= t
    /\ getActiveRequests started group = getActiveRequests w group + 1
    /\ forall out w2,
         requestFn started = Some (out, w2) ->
         executeRequest fuel e group requestFn w =
         Some (out,
               mkWorld (<[group := getActiveRequests w2 group - 1]> (activeRequests w2))
                 (lastRequestTime w2) (now w2) (trace w2)).
Proof.
  intros Hcfg Hauth Hfree Hfuel.
  unfold executeRequest. unfold bind at 1, awaitExternal at 1. rewrite Hauth. cbn [negb].
  set (w1 := mkWorld _ _ _ _).
  destruct (waitForServiceAvailability_returns group c Hcfg fuel (timerLag e) 0 w1)
    as (t & Ht1 & Ht2 & Hrun).
  { exact Hfree. }
  { subst w1. unfold getLastRequestTime in *. cbn [lastRequestTime now] in *. lia. }
  exists t. cbn zeta. split; [subst w1; cbn [now] in Ht1; lia|].
  split; [rewrite getActiveRequests_insert; case_decide; congruence|].
  intros out w2 Hrequest.
  unfold bind at 1. rewrite Hrun.
  unfold bind at 1, getActive at 1. unfold bind at 1, setActive at 1.
  unfold bind at 1, dateNow at 1. unfold bind at 1, setLast at 1.
  subst w1. cbn [activeRequests lastRequestTime now trace].
  unfold tryFinally. unfold getActiveRequests in Hrequest. rewrite Hrequest.
  unfold bind, getActive, setActive. destruct out; reflexivity.
Qed.

(** C5. A dispatch that is let through raises the counter of its group by one before
    the request function runs and lowers it by one when that function has
    returned or thrown; an aggregate or streaming call that has completed
    leaves every counter as it found it.  With any number of calls
    interleaved on the event loop, the counter of a group is at every
    moment the number of its dispatches that have started and not
    completed. *)
Theorem counters_are_restored
    (group : string) (c : Registry.GroupConfig)
    (generateFn : ItemEnv -> ServiceRequest -> M StandardResponse) (b : Behaviour)
    (env : nat -> ItemEnv) (req : ServiceRequest) (sr : StreamGenerationRequest)
    (w : World) :
  Registry.getModelConfigByGroup group = Returned (Registry.JGroupConfig c) ->
  behaves generateFn b ->
  getActiveRequests w group < Registry.maxConcurrent c ->
  exists fuel0, forall fuel, (fuel0 <= fuel)%nat ->
    (forall (A : Type) (requestFn : M A) (e : ItemEnv),
        checkAuth e = Returned true ->
        exists started,
          getActiveRequests started group = getActiveRequests w group + 1
          /\ forall out w2,
               requestFn started = Some (out, w2) ->
               exists w3,
                 executeRequest fuel e group requestFn w = Some (out, w3)
                 /\ getActiveRequests w3 group = getActiveRequests w2 group - 1
                 /\ forall g, g <> group -> getActiveRequests w3 g = getActiveRequests w2 g)
    /\ (exists response w',
           generateMultipleImages fuel env group req generateFn w
           = Some (Returned response, w')
           /\ forall g, getActiveRequests w' g = getActiveRequests w g)
    /\ (exists w',
           generateMultipleImagesStream fuel env group req generateFn sr w
           = Some (Returned tt, w')
           /\ forall g, getActiveRequests w' g = getActiveRequests w g)
    /\ (forall t schedule s g,
           EventLoop.run schedule (EventLoop.initial t) = Some s ->
           EventLoop.getActive s g = Z.of_nat (length (EventLoop.inFlight g s))).
Proof.
  intros Hcfg Hb Hfree.
  set (bound := Z.max (Registry.cooldownMs c)
                  (getLastRequestTime w group + Registry.cooldownMs c - now w)).
  exists (S (Z.to_nat bound)). intros fuel Hfuel.
  assert (Hbound : Registry.cooldownMs c <= bound) by (subst bound; lia).
  assert (Hfuel' : (Z.to_nat bound < fuel)%nat) by lia.
  pose proof (admissible_start group c w Hfree) as Hadm. fold bound in Hadm.
  split; [|split; [|split]].
  4: { intros t schedule s g. apply counter_counts_items_in_flight. }
  - intros A requestFn e Hauth.
    destruct (executeRequest_brackets group c fuel e requestFn w Hcfg Hauth Hfree)
      as (t & _ & Hup & Hdown); [subst bound; lia|].
    eexists. split; [exact Hup|].
    intros out w2 Hrequest. eexists. split; [exact (Hdown out w2 Hrequest)|].
    split; [|intros g Hg]; rewrite getActiveRequests_insert; case_decide;
      first [reflexivity | congruence].
  - destruct (generateMultipleImages_run group c Hcfg generateFn b Hb bound fuel Hbound Hfuel'
                env req w Hadm) as (ts & w' & _ & (Hact & _) & Hrun).
    eexists _, w'. split; [exact Hrun | exact Hact].
  - destruct (generateMultipleImagesStream_run group c Hcfg generateFn b Hb bound fuel Hbound
                Hfuel' env req sr w Hadm) as (ts & w' & _ & (Hact & _) & Hrun).
    exists w'. split; [exact Hrun | exact Hact].
Qed.

Lemma counters_are_restored_witness :
  exists fuel0, forall fuel, (fuel0 <= fuel)%nat ->
    exists response w',
      generateMultipleImages fuel Example.alternating "doubao"
        (mkServiceRequest "a cat" (Some "high_aes_general_v21_L") (Some 3))
        (doubaoRequestFn Example.keys) (initialWorld 0) = Some (Returned response, w')
      /\ forall g, getActiveRequests w' g = getActiveRequests (initialWorld 0) g.
Proof.
  destruct (counters_are_restored "doubao" Example.twoAtATime
              (doubaoRequestFn Example.keys) (doubaoBehaviour Example.keys)
              Example.alternating
              (mkServiceRequest "a cat" (Some "high_aes_general_v21_L") (Some 3))
              Example.listening (initialWorld 0)) as [fuel0 H].
  - reflexivity.
  - apply doubaoRequestFn_behaves.
  - vm_compute. reflexivity.
  - exists fuel0. intros fuel Hfuel.
    destruct (H fuel Hfuel) as (_ & Haggregate & _). exact Haggregate.
Defined.

(** ** Re-hosting *)

Lemma truthy_Some (s : string) : s <> "" -> truthy (Some s) = true.
Proof.
  intros H. unfold truthy. destruct (String.eqb_spec s ""); [contradiction | reflexivity].
Qed.

Lemma rehosted_success (e : ItemEnv) (r : StandardResponse) :
  success (rehosted e r) = success r.
Proof.
  unfold rehosted. destruct (needsUpload r); [|reflexivity].
  destruct (uploadResult e) as [u|]; [|reflexivity].
  destruct (Storage.success u && truthy (Storage.url u)); reflexivity.
Qed.

Lemma length_app_note (s note : string) :
  String.length (s +:+ note) = (String.length s + String.length note)%nat.
Proof. induction s as [|c s IH]; [reflexivity | cbn; rewrite <- IH; reflexivity]. Qed.

(** C6. A successful adapter result with image URL X goes through storage.
    When the upload throws, reports failure or returns no URL, the result
    that is stamped and emitted still has success = true and imageUrl = X,
    and its message is the message of the adapter (or the empty text)
    followed by a note saying so, written out below as the source has it:
    one note for an upload that threw, another for an upload that failed;
    in both cases the message is longer than the one of the adapter.  When
    the upload succeeds with URL U, the emitted imageUrl is U and the note
    says that the image was saved. *)
Theorem rehosting_degrades_gracefully
    (e : ItemEnv) (r : StandardResponse) (X : string) (w : World) (t : Z) :
  success r = true ->
  imageUrl r = Some X ->
  X <> "" ->
  exists final w',
    uploadToStorageIfNeeded e r w = Some (Returned final, w')
    /\ let emitted := withCreatedAt final t in
       success emitted = true
       /\ (forall x, uploadResult e = Thrown x ->
             imageUrl emitted = Some X
             /\ message emitted
                = Some (orEmpty (message r) +:+ "（存储上传异常，使用原始链接）")
             /\ (String.length (orEmpty (message r))
                 < String.length (orEmpty (message emitted)))%nat)
       /\ (forall u, uploadResult e = Returned u ->
             Storage.success u = false \/ truthy (Storage.url u) = false ->
             imageUrl emitted = Some X
             /\ message emitted
                = Some (orEmpty (message r) +:+ "（存储上传失败，使用原始链接）")
             /\ (String.length (orEmpty (message r))
                 < String.length (orEmpty (message emitted)))%nat)
       /\ (forall u U, uploadResult e = Returned u ->
             Storage.success u = true -> Storage.url u = Some U -> U <> "" ->
             imageUrl emitted = Some U
             /\ message emitted = Some (orEmpty (message r) +:+ "（已保存到存储）")).
Proof.
  intros Hsuccess Hurl HX.
  rewrite uploadToStorageIfNeeded_run. eexists _, _. split; [reflexivity|].
  cbn zeta. unfold rehosted, needsUpload.
  rewrite Hsuccess, Hurl, (truthy_Some X HX). cbn [andb].
  split; [|split; [|split]].
  - destruct (uploadResult e) as [u|]; [|exact Hsuccess].
    destruct (Storage.success u && truthy (Storage.url u)); exact Hsuccess.
  - intros x ->. cbn [withCreatedAt withMessage imageUrl message]. rewrite Hurl.
    split; [reflexivity|]. split; [reflexivity|].
    cbn [orEmpty]. rewrite length_app_note. cbn. lia.
  - intros u -> Hfail.
    assert (Hno : Storage.success u && truthy (Storage.url u) = false).
    { destruct Hfail as [-> | ->]; [reflexivity | apply andb_false_r]. }
    rewrite Hno. cbn [withCreatedAt withMessage imageUrl message]. rewrite Hurl.
    split; [reflexivity|]. split; [reflexivity|].
    cbn [orEmpty]. rewrite length_app_note. cbn. lia.
  - intros u U -> Hok HU HUne.
    rewrite Hok, HU, (truthy_Some U HUne). cbn. split; reflexivity.
Qed.

Lemma rehosting_degrades_gracefully_witness :
  exists final w',
    uploadToStorageIfNeeded (Example.alternating 0) Example.provided (initialWorld 0)
    = Some (Returned final, w')
    /\ success (withCreatedAt final 7) = true
    /\ imageUrl (withCreatedAt final 7) = Some "https://provider.example/1.png"
    /\ message (withCreatedAt final 7) = Some "（存储上传失败，使用原始链接）"
    /\ (0 < String.length (orEmpty (message (withCreatedAt final 7))))%nat.
Proof.
  destruct (rehosting_degrades_gracefully (Example.alternating 0) Example.provided
              "https://provider.example/1.png" (initialWorld 0) 7)
    as (final & w' & Hrun & Hsuccess & _ & Hfailed & _);
    [reflexivity | reflexivity | discriminate |].
  exists final, w'. split; [exact Hrun|]. split; [exact Hsuccess|].
  exact (Hfailed Example.storageDown eq_refl (or_introl eq_refl)).
Defined.

(** ** Routing *)

(** C7. For a model of the groups cogview, tongyi and jimeng the aggregate
    call is rejected with the error naming the category of the model, and
    the world is the one it started from: no counter, no timestamp and no
    outside call.  The streaming call hands the same error to onError and
    does nothing else. *)
Theorem stub_groups_are_rejected
    (fuel : nat) (env : nat -> ItemEnv) (modelId : string) (m : Registry.ImageModel)
    (prompt : string) (count : option Z) (modelConfig : option ModelConfig)
    (sr : StreamGenerationRequest) (w : World) :
  Registry.getModelById modelId = Some m ->
  Registry.group m = "cogview" \/ Registry.group m = "tongyi" \/ Registry.group m = "jimeng" ->
  generateImage fuel env modelId prompt count modelConfig w =
    Some (Thrown (ErrorObj (unsupportedCategory (Registry.category m))), w)
  /\ exists w',
       generateImageStream fuel env modelId prompt count sr modelConfig w =
         Some (Returned tt, w')
       /\ activeRequests w' = activeRequests w
       /\ lastRequestTime w' = lastRequestTime w
       /\ now w' = now w
       /\ trace w' =
          trace w ++
          if onError sr
          then [EvError (ErrorObj (unsupportedCategory (Registry.category m)))] else [].
Proof.
  intros Hm Hgroup.
  unfold generateImage, generateImageStream, bind, liftOutcome, Registry.getModelStatus.
  rewrite Hm. unfold callOnError, emit, ret, throw.
  destruct Hgroup as [Hg | [Hg | Hg]]; rewrite Hg; cbn; rewrite ?Hg; cbn;
    (split; [reflexivity|]);
    destruct (onError sr); eexists; (split; [reflexivity|]);
    cbn [activeRequests lastRequestTime now trace]; rewrite ?app_nil_r; auto.
Qed.

Lemma stub_groups_are_rejected_witness :
  generateImage 0 Example.allGood "cogView-4-250304" "a cat" (Some 3) Example.keys
    (initialWorld 0) =
  Some (Thrown (ErrorObj "暂不支持 智谱 模型组"), initialWorld 0).
Proof.
  apply (stub_groups_are_rejected 0 Example.allGood "cogView-4-250304"
           (Registry.mkImageModel "cogView-4-250304" "CogView-4" "智谱" "cogview")
           "a cat" (Some 3) Example.keys Example.listening (initialWorld 0)).
  - reflexivity.
  - left. reflexivity.
Defined.

(** ** Registry lookups *)

Lemma ownProperty_None (key : string) (o : list (string * Registry.GroupConfig)) :
  ~ In key (List.map fst o) -> Registry.ownProperty key o = None.
Proof.
  induction o as [|[k v] o IH]; intros Hnot; [reflexivity|].
  cbn in *. destruct (String.eqb_spec k key) as [->|Hne].
  - exfalso. apply Hnot. left. reflexivity.
  - apply IH. intros Hin. apply Hnot. right. exact Hin.
Qed.

Lemma inheritedProperty_false (key : string) :
  ~ In key Registry.objectPrototypeKeys -> Registry.inheritedProperty key = false.
Proof.
  intros Hnot. unfold Registry.inheritedProperty.
  destruct (existsb (String.eqb key) Registry.objectPrototypeKeys) eqn:Hex; [|reflexivity].
  apply existsb_exists in Hex as (k & Hin & Heq).
  apply String.eqb_eq in Heq. subst k. contradiction.
Qed.

(** C9, as stated, fails: for a group that is not configured the lookup
    returns undefined and raises nothing. *)
Lemma getGroupConfig_unknown_group_is_not_an_error :
  Registry.getGroupConfig "midjourney" = Returned Registry.JUndefined
  /\ Registry.getModelConfigByGroup "midjourney" = Returned Registry.JUndefined
  /\ forall e, Registry.getGroupConfig "midjourney" <> Thrown e.
Proof. split; [reflexivity|]. split; [reflexivity|]. intros e. discriminate. Qed.

(** C9, as the code has it.  The lookup of an admission configuration never
    raises; for a group that is neither configured nor a name every object
    inherits it returns undefined, through getModelConfigByGroup as well. *)
Theorem getGroupConfig_unknown_group_is_undefined (group : string) :
  (forall e, Registry.getGroupConfig group <> Thrown e)
  /\ (~ In group (List.map fst Registry.configs) ->
      ~ In group Registry.objectPrototypeKeys ->
      Registry.getGroupConfig group = Returned Registry.JUndefined
      /\ Registry.getModelConfigByGroup group = Returned Registry.JUndefined).
Proof.
  split; [intros e; discriminate|].
  intros Hown Hinherited.
  unfold Registry.getModelConfigByGroup, Registry.getGroupConfig.
  rewrite (ownProperty_None group _ Hown), (inheritedProperty_false group Hinherited).
  split; reflexivity.
Qed.

Lemma getGroupConfig_unknown_group_is_undefined_witness :
  Registry.getGroupConfig "midjourney" = Returned Registry.JUndefined
  /\ Registry.getModelConfigByGroup "midjourney" = Returned Registry.JUndefined.
Proof.
  apply (getGroupConfig_unknown_group_is_undefined "midjourney").
  - cbn. intros H. repeat destruct H as [H|H]; try discriminate H; exact H.
  - cbn. intros H. repeat destruct H as [H|H]; try discriminate H; exact H.
Defined.

(** ** A streamed batch of three *)

(** C8. Streaming three items whose request function returns a successful
    result, throws, and returns a successful result: onProgress is called
    with index 0 and a successful result, index 1 and a failed one, index 2
    and a successful one; then onComplete is called once, with these three
    results and the summary (3 requested, 2 successful, 1 failed); these
    are all the callbacks. *)
Theorem stream_success_failure_success
    (group : string) (c : Registry.GroupConfig)
    (generateFn : ItemEnv -> ServiceRequest -> M StandardResponse) (b : Behaviour)
    (env : nat -> ItemEnv) (req : ServiceRequest) (sr : StreamGenerationRequest)
    (r0 r2 : StandardResponse) (x : thrown) (w : World) :
  Registry.getModelConfigByGroup group = Returned (Registry.JGroupConfig c) ->
  behaves generateFn b ->
  count req = Some 3 ->
  streamCount sr = None \/ streamCount sr = Some 3 ->
  onProgress sr = true ->
  onComplete sr = true ->
  (forall i, checkAuth (env i) = Returned true) ->
  settles b (env 0%nat) req = Returned r0 -> success r0 = true ->
  settles b (env 1%nat) req = Thrown x ->
  settles b (env 2%nat) req = Returned r2 -> success r2 = true ->
  getActiveRequests w group < Registry.maxConcurrent c ->
  exists fuel0, forall fuel, (fuel0 <= fuel)%nat ->
    exists p0 p1 p2 evs w',
      generateMultipleImagesStream fuel env group req generateFn sr w = Some (Returned tt, w')
      /\ trace w' = trace w ++ evs
      /\ callbacks evs =
         [ EvProgress p0 0 3; EvProgress p1 1 3; EvProgress p2 2 3;
           EvComplete (mkGenerationResponse [p0; p1; p2] (Some (mkMetadata 3 2 1))) ]
      /\ success p0 = true /\ success p1 = false /\ success p2 = true.
Proof.
  intros Hcfg Hb Hcount Hstream Hprogress Hcomplete Hauth H0 Hs0 H1 H2 Hs2 Hfree.
  set (bound := Z.max (Registry.cooldownMs c)
                  (getLastRequestTime w group + Registry.cooldownMs c - now w)).
  exists (S (Z.to_nat bound)). intros fuel Hfuel.
  assert (Hbound : Registry.cooldownMs c <= bound) by (subst bound; lia).
  assert (Hfuel' : (Z.to_nat bound < fuel)%nat) by lia.
  pose proof (admissible_start group c w Hfree) as Hadm. fold bound in Hadm.
  destruct (generateMultipleImagesStream_run group c Hcfg generateFn b Hb bound fuel Hbound
              Hfuel' env req sr w Hadm) as (ts & w' & Hlen & (_ & _ & Htrace & _) & Hrun).
  assert (Hn : orNumber (streamCount sr) (orNumber (count req) DEFAULT_COUNT) = 3).
  { rewrite Hcount. destruct Hstream as [-> | ->]; reflexivity. }
  rewrite Hn in Hlen, Htrace.
  destruct ts as [|t0 [|t1 [|t2 [|]]]]; try discriminate Hlen.
  assert (Hd0 : dispatchOutcome b (env 0%nat) req = Returned r0)
    by (unfold dispatchOutcome; rewrite Hauth; exact H0).
  assert (Hd1 : dispatchOutcome b (env 1%nat) req = Thrown x)
    by (unfold dispatchOutcome; rewrite Hauth; exact H1).
  assert (Hd2 : dispatchOutcome b (env 2%nat) req = Returned r2)
    by (unfold dispatchOutcome; rewrite Hauth; exact H2).
  exists (withCreatedAt (rehosted (env 0%nat) r0) t0), (failedResponse x t1),
    (withCreatedAt (rehosted (env 2%nat) r2) t2).
  eexists _, w'. split; [exact Hrun|]. split; [exact Htrace|].
  split; [|cbn [success withCreatedAt failedResponse]; rewrite !rehosted_success; auto].
  rewrite callbacks_app, callbacks_streamCalls by apply Hb.
  rewrite Hprogress, Hcomplete.
  unfold slots, collected, itemErrors, itemResult, summary.
  change (Z.to_nat 3) with 3%nat.
  cbn [imap seq List.map concat app Nat.add]. unfold compose. cbn beta.
  rewrite Hd0, Hd1, Hd2.
  cbn [imap app List.filter success withCreatedAt failedResponse callbacks isCallback length
         concat List.map Nat.add Z.of_nat Pos.of_succ_nat Pos.succ].
  rewrite !rehosted_success, Hs0, Hs2.
  reflexivity.
Qed.

Lemma stream_success_failure_success_witness :
  exists fuel0, forall fuel, (fuel0 <= fuel)%nat ->
    exists p0 p1 p2 evs w',
      generateMultipleImagesStream fuel Example.alternating "openai"
        (mkServiceRequest "a cat" None (Some 3)) (gpt4oRequestFn Example.keys)
        Example.listening (initialWorld 0) = Some (Returned tt, w')
      /\ trace w' = trace (initialWorld 0) ++ evs
      /\ callbacks evs =
         [ EvProgress p0 0 3; EvProgress p1 1 3; EvProgress p2 2 3;
           EvComplete (mkGenerationResponse [p0; p1; p2] (Some (mkMetadata 3 2 1))) ]
      /\ success p0 = true /\ success p1 = false /\ success p2 = true.
Proof.
  apply (stream_success_failure_success "openai" Example.twoAtATime
           (gpt4oRequestFn Example.keys) (gpt4oBehaviour Example.keys)
           Example.alternating (mkServiceRequest "a cat" None (Some 3))
           Example.listening Example.provided Example.provided
           (ErrorObj "provider rejected the prompt") (initialWorld 0)).
  - reflexivity.
  - apply gpt4oRequestFn_behaves.
  - reflexivity.
  - left. reflexivity.
  - reflexivity.
  - reflexivity.
  - intros i. unfold Example.alternating. destruct (Nat.even i); reflexivity.
  - reflexivity.
  - reflexivity.
  - reflexivity.
  - reflexivity.
  - reflexivity.
  - vm_compute. reflexivity.
Defined.

(** ** A requested count of zero *)



(** ** Several calls at once *)

(** The test of the admission wait is the one the ledger is meant to
    enforce: it lets a call through only with a free slot and the cooldown
    over, both read at the instant of the test. *)
Lemma checkAvailability_proceeds (s : EventLoop.State) (g : string) :
  EventLoop.checkAvailability s g = EventLoop.Proceed ->
  exists c,
    Registry.getModelConfigByGroup g = Returned (Registry.JGroupConfig c)
    /\ EventLoop.getActive s g < Registry.maxConcurrent c
    /\ Registry.cooldownMs c <= EventLoop.clock s - EventLoop.getLast s g.
Proof.
  unfold EventLoop.checkAvailability.
  destruct (Registry.getModelConfigByGroup g) as [[|c|]|]; try discriminate.
  destruct (Z.ltb_spec (EventLoop.getActive s g) (Registry.maxConcurrent c));
    destruct (Z.leb_spec (Registry.cooldownMs c)
                (EventLoop.clock s - EventLoop.getLast s g));
    try discriminate.
  intros _. exists c. auto.
Qed.

Lemma lookup_setStatus (ts : list EventLoop.task) (i j : nat) (t : EventLoop.task)
    (st : EventLoop.status) :
  ts !! i = Some t ->
  EventLoop.setStatus i st ts !! j =
  if decide (i = j)
  then Some (EventLoop.mkTask (EventLoop.group t) (EventLoop.credentials t) st)
  else ts !! j.
Proof.
  intros Hi. unfold EventLoop.setStatus. rewrite Hi.
  destruct (decide (i = j)) as [<-|Hne].
  - apply list_lookup_insert_eq. eapply lookup_lt_Some. exact Hi.
  - apply list_lookup_insert_ne. exact Hne.
Qed.

(** A change of status of one task keeps the state orderly when the new
    queue, the new status and the new ledger agree with it. *)
Lemma orderly_update (s : EventLoop.State) (i : nat) (t0 : EventLoop.task)
    (st' : EventLoop.status) (act' last' : gmap string Z) (clock' : Z) (queue' : list nat) :
  let s' := EventLoop.mkState act' last' clock'
              (EventLoop.setStatus i st' (EventLoop.tasks s)) queue' in
  EventLoop.orderly s ->
  EventLoop.tasks s !! i = Some t0 ->
  (forall j, j <> i -> In j (EventLoop.microtasks s) -> In j queue') ->
  (forall k, st' = EventLoop.Ready k -> In i queue') ->
  (EventLoop.inAdmission st' = true ->
   EventLoop.inAdmission (EventLoop.state t0) = true
   \/ forall j tj, EventLoop.tasks s !! j = Some tj ->
                   EventLoop.inAdmission (EventLoop.state tj) = false) ->
  (forall j tj c,
      j <> i -> EventLoop.tasks s !! j = Some tj ->
      EventLoop.state tj = EventLoop.Ready EventLoop.AfterWait ->
      Registry.getModelConfigByGroup (EventLoop.group tj)
      = Returned (Registry.JGroupConfig c) ->
      EventLoop.getActive s' (EventLoop.group tj) < Registry.maxConcurrent c
      /\ Registry.cooldownMs c <= clock' - EventLoop.getLast s' (EventLoop.group tj)) ->
  (st' = EventLoop.Ready EventLoop.AfterWait ->
   forall c,
     Registry.getModelConfigByGroup (EventLoop.group t0)
     = Returned (Registry.JGroupConfig c) ->
     EventLoop.getActive s' (EventLoop.group t0) < Registry.maxConcurrent c
     /\ Registry.cooldownMs c <= clock' - EventLoop.getLast s' (EventLoop.group t0)) ->
  (forall g c,
      Registry.getModelConfigByGroup g = Returned (Registry.JGroupConfig c) ->
      EventLoop.getActive s' g <= Registry.maxConcurrent c) ->
  EventLoop.orderly s'.
Proof.
  intros s' (K1 & K2 & K3 & K4) Hi Hqueue Hready Hadm Hothers Hself Hbound.
  unfold EventLoop.orderly. subst s'.
  cbn [EventLoop.tasks EventLoop.microtasks EventLoop.clock] in *.
  split; [|split; [|split]].
  - intros j t k Hj Hk. rewrite (lookup_setStatus _ i j t0 st' Hi) in Hj.
    case_decide as Hij.
    + subst j. injection Hj as <-. cbn in Hk. eapply Hready. exact Hk.
    + apply Hqueue; [congruence|]. eapply K1; eassumption.
  - intros j1 j2 t1 t2 H1 H2 Ha1 Ha2.
    rewrite (lookup_setStatus _ i j1 t0 st' Hi) in H1.
    rewrite (lookup_setStatus _ i j2 t0 st' Hi) in H2.
    destruct (decide (i = j1)) as [<-|N1], (decide (i = j2)) as [<-|N2].
    + reflexivity.
    + injection H1 as <-. cbn in Ha1.
      destruct (Hadm Ha1) as [H0 | Hnone].
      * eapply K2; eassumption.
      * rewrite (Hnone _ _ H2) in Ha2. discriminate.
    + injection H2 as <-. cbn in Ha2.
      destruct (Hadm Ha2) as [H0 | Hnone].
      * eapply K2; eassumption.
      * rewrite (Hnone _ _ H1) in Ha1. discriminate.
    + eapply K2; eassumption.
  - intros j t c Hj Hst Hcfg. rewrite (lookup_setStatus _ i j t0 st' Hi) in Hj.
    case_decide as Hij.
    + subst j. injection Hj as <-. cbn in Hst, Hcfg |- *. apply Hself; assumption.
    + apply (Hothers j t c); try assumption. congruence.
  - exact Hbound.
Qed.

Lemma orderly_ready_queued (s : EventLoop.State) (i : nat) (t : EventLoop.task) :
  EventLoop.orderly s -> EventLoop.microtasks s = [] ->
  EventLoop.tasks s !! i = Some t -> EventLoop.inAdmission (EventLoop.state t) = false.
Proof.
  intros (K1 & _) Hq Hi. destruct (EventLoop.state t) as [|k| | |] eqn:Hst; try reflexivity.
  exfalso. pose proof (K1 i t k Hi Hst) as Hin. rewrite Hq in Hin. exact Hin.
Qed.

(** Every step of a calm schedule keeps the state orderly. *)
Lemma step_orderly (l : EventLoop.label) (s s' : EventLoop.State) :
  EventLoop.orderly s ->
  EventLoop.calm l s = true ->
  EventLoop.step l s = Some s' ->
  EventLoop.orderly s'.
Proof.
  intros Hord Hcalm Hstep. pose proof Hord as (K1 & K2 & K3 & K4).
  destruct l as [g0 c0 | i b | i | i ok | ms |]; cbn [EventLoop.step] in Hstep.
  - injection Hstep as <-. unfold EventLoop.orderly.
    cbn [EventLoop.tasks EventLoop.microtasks EventLoop.clock].
    split; [|split; [|split]].
    + intros j t k Hj Hk. apply lookup_snoc_Some in Hj as [[_ Hj] | [_ <-]];
        [eapply K1; eassumption | discriminate].
    + intros j1 j2 t1 t2 H1 H2 Ha1 Ha2.
      apply lookup_snoc_Some in H1 as [[_ H1] | [_ <-]]; [|discriminate].
      apply lookup_snoc_Some in H2 as [[_ H2] | [_ <-]]; [|discriminate].
      eapply K2; eassumption.
    + intros j t c Hj Hst Hcfg.
      apply lookup_snoc_Some in Hj as [[_ Hj] | [_ <-]]; [|discriminate].
      exact (K3 j t c Hj Hst Hcfg).
    + exact K4.
  - destruct (EventLoop.tasks s !! i) as [[g0 c0 []]|] eqn:Hi; try discriminate.
    injection Hstep as <-.
    unfold EventLoop.calm in Hcalm. destruct (EventLoop.microtasks s) eqn:Hq; [|discriminate].
    apply (orderly_update s i _ _ _ _ _ _ Hord Hi).
    + intros j _ Hin. rewrite Hq in Hin. destruct Hin.
    + intros _ _. left. reflexivity.
    + intros _. right. intros j tj Hj. exact (orderly_ready_queued s j tj Hord Hq Hj).
    + intros j tj c _ Hj Hst Hcfg. exact (K3 j tj c Hj Hst Hcfg).
    + discriminate.
    + exact K4.
  - destruct (EventLoop.tasks s !! i) as [[g0 c0 []]|] eqn:Hi; try discriminate.
    destruct (EventLoop.microtasks s) eqn:Hq; try discriminate.
    destruct (_ <=? _); try discriminate.
    injection Hstep as <-.
    apply (orderly_update s i _ _ _ _ _ _ Hord Hi).
    + intros j _ Hin. rewrite Hq in Hin. destruct Hin.
    + intros _ _. left. reflexivity.
    + intros _. right. intros j tj Hj. exact (orderly_ready_queued s j tj Hord Hq Hj).
    + intros j tj c _ Hj Hst Hcfg. exact (K3 j tj c Hj Hst Hcfg).
    + discriminate.
    + exact K4.
  - destruct (EventLoop.tasks s !! i) as [[g0 c0 []]|] eqn:Hi; try discriminate.
    injection Hstep as <-.
    apply (orderly_update s i _ _ _ _ _ _ Hord Hi).
    + intros j _ Hin. apply in_or_app. left. exact Hin.
    + intros _ _. apply in_or_app. right. left. reflexivity.
    + discriminate.
    + intros j tj c _ Hj Hst Hcfg. exact (K3 j tj c Hj Hst Hcfg).
    + discriminate.
    + exact K4.
  - injection Hstep as <-. unfold EventLoop.orderly.
    cbn [EventLoop.tasks EventLoop.microtasks EventLoop.clock].
    split; [exact K1|]. split; [exact K2|]. split; [|exact K4].
    intros j t c Hj Hst Hcfg. destruct (K3 j t c Hj Hst Hcfg) as [Hfree Hcool].
    split; [exact Hfree|]. unfold EventLoop.getLast in *. cbn [EventLoop.lastRequestTime]. lia.
  - destruct (EventLoop.microtasks s) as [|i queue] eqn:Hq; try discriminate.
    destruct (EventLoop.tasks s !! i) as [[g0 c0 [|k| | |]]|] eqn:Hi; try discriminate.
    injection Hstep as <-.
    assert (Hrest : forall j, j <> i -> In j (EventLoop.microtasks s) -> In j queue).
    { intros j Hne Hin. rewrite Hq in Hin. destruct Hin as [Heq | Hin];
        [congruence | exact Hin]. }
    assert (Hpoll : EventLoop.inAdmission (EventLoop.Ready k) = true ->
                    EventLoop.orderly (EventLoop.pollOnce i g0 s queue)).
    { intros Hk. unfold EventLoop.pollOnce.
      destruct (EventLoop.checkAvailability s g0) eqn:Hcheck;
        apply (orderly_update s i _ _ _ _ _ _ Hord Hi).
      - intros j Hne Hin. apply in_or_app. left. apply Hrest; assumption.
      - intros _ _. apply in_or_app. right. left. reflexivity.
      - intros _. left. exact Hk.
      - intros j tj c Hne Hj Hst Hcfg. exact (K3 j tj c Hj Hst Hcfg).
      - intros _ c Hcfg. cbn [EventLoop.group] in *.
        destruct (checkAvailability_proceeds s g0 Hcheck) as (c' & Hcfg' & Hfree & Hcool).
        rewrite Hcfg in Hcfg'. injection Hcfg' as <-. split; assumption.
      - exact K4.
      - exact Hrest.
      - discriminate.
      - discriminate.
      - intros j tj c Hne Hj Hst Hcfg. exact (K3 j tj c Hj Hst Hcfg).
      - discriminate.
      - exact K4.
      - exact Hrest.
      - discriminate.
      - discriminate.
      - intros j tj c Hne Hj Hst Hcfg. exact (K3 j tj c Hj Hst Hcfg).
      - discriminate.
      - exact K4. }
    assert (Halone : forall j tj, j <> i -> EventLoop.tasks s !! j = Some tj ->
                       EventLoop.state tj = EventLoop.Ready EventLoop.AfterWait ->
                       k = EventLoop.AfterWait -> False).
    { intros j tj Hne Hj Hst ->. apply Hne.
      apply (K2 j i tj _ Hj Hi); [rewrite Hst|]; reflexivity. }
    assert (Hfree0 : k = EventLoop.AfterWait -> forall c,
                       Registry.getModelConfigByGroup g0
                       = Returned (Registry.JGroupConfig c) ->
                       EventLoop.getActive s g0 < Registry.maxConcurrent c).
    { intros -> c Hcfg. exact (proj1 (K3 i _ c Hi eq_refl Hcfg)). }
    destruct k as [[|]| | |ok]; cbn [EventLoop.resume EventLoop.group EventLoop.credentials].
    + apply Hpoll. reflexivity.
    + apply (orderly_update s i _ _ _ _ _ _ Hord Hi).
      * exact Hrest.
      * discriminate.
      * discriminate.
      * intros j tj c Hne Hj Hst Hcfg. exact (K3 j tj c Hj Hst Hcfg).
      * discriminate.
      * exact K4.
    + apply Hpoll. reflexivity.
    + destruct c0; apply (orderly_update s i _ _ _ _ _ _ Hord Hi);
        try exact Hrest; try discriminate;
        try (intros j tj c Hne Hj Hst Hcfg; exfalso; exact (Halone j tj Hne Hj Hst eq_refl)).
      * intros g c Hcfg. rewrite eventLoop_getActive_insert. case_decide as Hg.
        -- subst g. pose proof (Hfree0 eq_refl c Hcfg). lia.
        -- exact (K4 g c Hcfg).
      * intros g c Hcfg. rewrite eventLoop_getActive_insert. case_decide as Hg.
        -- subst g. rewrite lookup_insert_eq, orNumber_Some_zero.
           pose proof (Hfree0 eq_refl c Hcfg). lia.
        -- rewrite lookup_insert_ne by assumption. exact (K4 g c Hcfg).
    + apply (orderly_update s i _ _ _ _ _ _ Hord Hi);
        try exact Hrest; try discriminate.
      * intros j tj c Hne Hj Hst Hcfg. destruct (K3 j tj c Hj Hst Hcfg) as [Hfree Hcool].
        rewrite eventLoop_getActive_insert. split; [|exact Hcool].
        case_decide as Hg; [rewrite Hg in *|exact Hfree].
        unfold EventLoop.getActive in *. lia.
      * intros g c Hcfg. rewrite eventLoop_getActive_insert. case_decide as Hg.
        -- subst g. pose proof (K4 g0 c Hcfg). unfold EventLoop.getActive in *. lia.
        -- exact (K4 g c Hcfg).
Qed.

Lemma configured_values (g : string) (c : Registry.GroupConfig) :
  Registry.getModelConfigByGroup g = Returned (Registry.JGroupConfig c) ->
  c = Registry.mkGroupConfig 2 1000.
Proof.
  unfold Registry.getModelConfigByGroup, Registry.getGroupConfig, Registry.configs.
  cbn [Registry.ownProperty].
  repeat (destruct (String.eqb _ g); [intros [= <-]; reflexivity|]).
  destruct (Registry.inheritedProperty g); discriminate.
Qed.

Lemma initial_getActive (t : Z) (g : string) : EventLoop.getActive (EventLoop.initial t) g = 0.
Proof.
  unfold EventLoop.getActive, EventLoop.initial.
  cbn [EventLoop.activeRequests].
  unfold Dispatcher.initializeCounters, Registry.getAllGroupConfigs, Registry.configs.
  cbn [fold_left fst snd].
  repeat (rewrite lookup_insert; case_decide; [reflexivity|]).
  rewrite lookup_empty. reflexivity.
Qed.

Lemma initial_orderly (t : Z) : EventLoop.orderly (EventLoop.initial t).
Proof.
  unfold EventLoop.orderly. cbn [EventLoop.initial EventLoop.tasks EventLoop.microtasks].
  split; [intros i x k H; discriminate H|].
  split; [intros i j ti tj H; discriminate H|].
  split; [intros i x c H; discriminate H|].
  intros g c Hcfg. rewrite (configured_values g c Hcfg).
  change (EventLoop.getActive (EventLoop.initial t) g <= 2).
  rewrite initial_getActive. lia.
Qed.

Lemma runCalm_run (ls : list EventLoop.label) (s s' : EventLoop.State) :
  EventLoop.runCalm ls s = Some s' -> EventLoop.run ls s = Some s'.
Proof.
  revert s. induction ls as [|l ls IH]; intros s Hrun; [exact Hrun|].
  cbn in *. destruct (EventLoop.calm l s); [|discriminate].
  destruct (EventLoop.step l s) as [s1|]; [|discriminate]. apply IH. exact Hrun.
Qed.

Lemma runCalm_orderly (ls : list EventLoop.label) (s s' : EventLoop.State) :
  EventLoop.orderly s -> EventLoop.runCalm ls s = Some s' -> EventLoop.orderly s'.
Proof.
  revert s. induction ls as [|l ls IH]; intros s Hord Hrun.
  - injection Hrun as <-. exact Hord.
  - cbn in Hrun. destruct (EventLoop.calm l s) eqn:Hcalm; [|discriminate].
    destruct (EventLoop.step l s) as [s1|] eqn:Hstep; [|discriminate].
    exact (IH s1 (step_orderly l s s1 Hord Hcalm Hstep) Hrun).
Qed.

(** What the ledger does enforce.  On a calm schedule no group ever has more
    items in flight than maxConcurrent, and a call that has passed the
    test finds, until it updates the counters, a free slot and the
    cooldown over: its dispatch begins under the two conditions. *)
Lemma calm_schedules_respect_admission (t : Z) (ls : list EventLoop.label)
    (s : EventLoop.State) (g : string) (c : Registry.GroupConfig) :
  EventLoop.runCalm ls (EventLoop.initial t) = Some s ->
  Registry.getModelConfigByGroup g = Returned (Registry.JGroupConfig c) ->
  Z.of_nat (length (EventLoop.inFlight g s)) <= Registry.maxConcurrent c
  /\ forall i x,
       EventLoop.tasks s !! i = Some x ->
       EventLoop.group x = g ->
       EventLoop.state x = EventLoop.Ready EventLoop.AfterWait ->
       EventLoop.getActive s g < Registry.maxConcurrent c
       /\ Registry.cooldownMs c <= EventLoop.clock s - EventLoop.getLast s g.
Proof.
  intros Hrun Hcfg.
  pose proof (runCalm_orderly ls _ s (initial_orderly t) Hrun) as (_ & _ & K3 & K4).
  split.
  - rewrite <- (counter_counts_items_in_flight t ls s g (runCalm_run ls _ s Hrun)).
    exact (K4 g c Hcfg).
  - intros i x Hi Hg Hst. subst g. exact (K3 i x c Hi Hst Hcfg).
Qed.

(** C2 on the code.  The test and the update of the counters stand on the
    two sides of an [await]: three calls for openai (at most 2 at a time,
    1000 ms apart) whose authentication settles together all pass the test
    before any of them has updated the ledger.  All three are then in
    flight, started at the same instant, and the counter reads 3.  The
    schedule is not a calm one. *)
Theorem admission_test_and_update_are_not_atomic :
  exists s,
    EventLoop.run Example.threeAtOnce (EventLoop.initial Example.pageLoad) = Some s
    /\ Registry.getModelConfigByGroup "openai"
       = Returned (Registry.JGroupConfig (Registry.mkGroupConfig 2 1000))
    /\ EventLoop.getActive s "openai" = 3
    /\ length (EventLoop.inFlight "openai" s) = 3%nat
    /\ EventLoop.tasks s =
       [ EventLoop.mkTask "openai" true (EventLoop.InFlight Example.pageLoad);
         EventLoop.mkTask "openai" true (EventLoop.InFlight Example.pageLoad);
         EventLoop.mkTask "openai" true (EventLoop.InFlight Example.pageLoad) ]
    /\ EventLoop.microtasks s = []
    /\ EventLoop.runCalm Example.threeAtOnce (EventLoop.initial Example.pageLoad) = None.
Proof.
  eexists. split; [vm_compute; reflexivity|].
  repeat split; vm_compute; reflexivity.
Qed.

(** The same two calls one after the other: both in flight, within the
    bound, started 1000 ms apart. *)
Lemma calm_schedule_example :
  exists s,
    EventLoop.runCalm Example.oneAfterTheOther (EventLoop.initial Example.pageLoad) = Some s
    /\ EventLoop.tasks s =
       [ EventLoop.mkTask "openai" true (EventLoop.InFlight Example.pageLoad);
         EventLoop.mkTask "openai" true (EventLoop.InFlight (Example.pageLoad + 1000)) ]
    /\ Z.of_nat (length (EventLoop.inFlight "openai" s)) <= 2.
Proof.
  eexists. split; [vm_compute; reflexivity|]. split; [reflexivity|].
  apply (calm_schedules_respect_admission Example.pageLoad Example.oneAfterTheOther _
           "openai" Example.twoAtATime); reflexivity.
Qed.

(** * Further properties: the wait, whole calls, the catalog, storage and the callers *)

(** ** The admission wait, whatever the ledger holds *)

(** However the wait ends, it has touched nothing but the clock; it returns
    only at an instant at which the test of line 107 holds, and it throws
    only for a group without configuration, at once. *)
Lemma waitForServiceAvailability_inv (fuel : nat) (lag : nat -> N) (k : nat) (group : string)
    (w w' : World) (r : outcome unit) :
  waitForServiceAvailability fuel lag k group w = Some (r, w') ->
  activeRequests w' = activeRequests w
  /\ lastRequestTime w' = lastRequestTime w
  /\ trace w' = trace w
  /\ now w <= now w'
  /\ match r with
     | Returned _ =>
         exists c,
           Registry.getModelConfigByGroup group = Returned (Registry.JGroupConfig c)
           /\ getActiveRequests w' group < Registry.maxConcurrent c
           /\ Registry.cooldownMs c <= now w' - getLastRequestTime w' group
     | Thrown _ =>
         Registry.getModelConfigByGroup group = Returned Registry.JUndefined /\ w' = w
     end.
Proof.
  revert k w. induction fuel as [|fuel IH]; intros k w Hrun; [discriminate Hrun|].
  cbn [waitForServiceAvailability] in Hrun.
  unfold bind at 1, getActive at 1 in Hrun. unfold bind at 1, getLast at 1 in Hrun.
  unfold bind at 1, dateNow at 1 in Hrun. unfold bind at 1, liftOutcome at 1 in Hrun.
  destruct (Registry.getModelConfigByGroup group) as [[|c|p]|x] eqn:Hcfg.
  - unfold throw in Hrun. injection Hrun as <- <-. repeat split; try reflexivity; lia.
  - destruct ((orNumber (activeRequests w !! group) 0 <? Registry.maxConcurrent c)
              && (Registry.cooldownMs c <=? now w - orNumber (lastRequestTime w !! group) 0))
      eqn:Htest.
    + unfold ret in Hrun. injection Hrun as <- <-.
      apply andb_prop in Htest as [H1 H2]. apply Z.ltb_lt in H1. apply Z.leb_le in H2.
      repeat split; try reflexivity; try lia.
      exists c. unfold getActiveRequests, getLastRequestTime. auto.
    + unfold bind at 1, awaitExternal at 1 in Hrun.
      apply IH in Hrun as (Ha & Hl & Ht & Hn & Hr). cbn [activeRequests lastRequestTime now trace] in *.
      repeat split; try assumption; [unfold POLLING_INTERVAL in Hn; lia|].
      destruct r as [u|e]; [exact Hr|].
      destruct Hr as [Hu _]. discriminate Hu.
  - unfold bind at 1, awaitExternal at 1 in Hrun.
    apply IH in Hrun as (Ha & Hl & Ht & Hn & Hr). cbn [activeRequests lastRequestTime now trace] in *.
    destruct r as [u|e].
    + destruct Hr as (c & Hc & _). discriminate Hc.
    + destruct Hr as [Hu _]. discriminate Hu.
  - unfold Registry.getModelConfigByGroup, Registry.getGroupConfig in Hcfg. discriminate Hcfg.
Qed.

(** No timeout: while the group is at its bound, or when its name is a
    property every object inherits, the wait only polls. *)
Lemma waitForServiceAvailability_polls (fuel : nat) (lag : nat -> N) (k : nat)
    (group : string) (w : World) :
  (exists p, Registry.getModelConfigByGroup group = Returned (Registry.JInherited p))
  \/ (exists c, Registry.getModelConfigByGroup group = Returned (Registry.JGroupConfig c)
                /\ Registry.maxConcurrent c <= getActiveRequests w group) ->
  waitForServiceAvailability fuel lag k group w = None.
Proof.
  revert k w. induction fuel as [|fuel IH]; intros k w Hsat; [reflexivity|].
  cbn [waitForServiceAvailability].
  unfold bind at 1, getActive at 1. unfold bind at 1, getLast at 1.
  unfold bind at 1, dateNow at 1. unfold bind at 1, liftOutcome at 1.
  destruct Hsat as [[p Hcfg] | (c & Hcfg & Hfull)]; rewrite Hcfg.
  - unfold bind, awaitExternal. rewrite IH; [reflexivity|].
    left. exists p. exact Hcfg.
  - fold (getActiveRequests w group).
    apply Z.ltb_ge in Hfull as Hfull'. rewrite Hfull'. cbn [andb].
    unfold bind, awaitExternal. rewrite IH; [reflexivity|].
    right. exists c. split; [exact Hcfg | exact Hfull].
Qed.

(** The wait ends within one polling interval, and the lag of one timer,
    of the end of the cooldown. *)
Lemma waitForServiceAvailability_overshoot (fuel : nat) (lag : nat -> N) (k : nat)
    (group : string) (c : Registry.GroupConfig) (L : Z) (w w' : World) :
  Registry.getModelConfigByGroup group = Returned (Registry.JGroupConfig c) ->
  (forall j, Z.of_N (lag j) <= L) ->
  waitForServiceAvailability fuel lag k group w = Some (Returned tt, w') ->
  now w' = now w
  \/ now w' < getLastRequestTime w group + Registry.cooldownMs c + POLLING_INTERVAL + L.
Proof.
  intros Hcfg Hlag. revert k w. induction fuel as [|fuel IH]; intros k w Hrun; [discriminate Hrun|].
  pose proof (waitForServiceAvailability_inv _ _ _ _ _ _ _ Hrun) as (Ha & Hl & _ & _ & Hend).
  destruct Hend as (c' & Hcfg' & Hfree & _).
  rewrite Hcfg in Hcfg'. injection Hcfg' as <-.
  cbn [waitForServiceAvailability] in Hrun.
  unfold bind at 1, getActive at 1 in Hrun. unfold bind at 1, getLast at 1 in Hrun.
  unfold bind at 1, dateNow at 1 in Hrun. unfold bind at 1, liftOutcome at 1 in Hrun.
  rewrite Hcfg in Hrun.
  fold (getActiveRequests w group) (getLastRequestTime w group) in Hrun.
  assert (Hfree' : (getActiveRequests w group <? Registry.maxConcurrent c) = true).
  { apply Z.ltb_lt. unfold getActiveRequests in *. rewrite <- Ha. exact Hfree. }
  rewrite Hfree' in Hrun. cbn [andb] in Hrun.
  destruct (Z.leb_spec (Registry.cooldownMs c) (now w - getLastRequestTime w group)) as [Hcool|Hcool].
  - unfold ret in Hrun. injection Hrun as <-. left. reflexivity.
  - unfold bind at 1, awaitExternal at 1 in Hrun.
    apply IH in Hrun. cbn [now] in Hrun.
    unfold getLastRequestTime in *. cbn [lastRequestTime] in Hrun.
    pose proof (Hlag k). unfold POLLING_INTERVAL in *.
    right. destruct Hrun as [Hrun | Hrun]; lia.
Qed.

(** ** One dispatch, whatever the ledger holds *)

Section Dispatch.

Variable group : string.
Variable c : Registry.GroupConfig.
Hypothesis configured :
  Registry.getModelConfigByGroup group = Returned (Registry.JGroupConfig c).

Variable generateFn : ItemEnv -> ServiceRequest -> M StandardResponse.
Variable b : Behaviour.
Hypothesis generateFn_behaves : behaves generateFn b.

Variable fuel : nat.

(** What a dispatch that has ended has done. *)
Lemma executeRequest_inv (e : ItemEnv) (req : ServiceRequest) (w w' : World)
    (r : outcome StandardResponse) :
  executeRequest fuel e group (generateFn e req) w = Some (r, w') ->
  r = dispatchOutcome b e req
  /\ match checkAuth e with
     | Returned true =>
         exists t,
           now w <= t
           /\ getActiveRequests w group < Registry.maxConcurrent c
           /\ Registry.cooldownMs c <= t - getLastRequestTime w group
           /\ w' = mkWorld (<[group := getActiveRequests w group]> (activeRequests w))
                     (<[group := t]> (lastRequestTime w))
                     (t + Z.of_N (duration b e req))
                     (trace w ++ calls b e req)
     | _ =>
         w' = mkWorld (activeRequests w) (lastRequestTime w)
                (now w + Z.of_N (authMs e)) (trace w)
     end.
Proof.
  intros Hrun. unfold dispatchOutcome.
  unfold executeRequest in Hrun. unfold bind at 1, awaitExternal at 1 in Hrun.
  destruct (checkAuth e) as [[|]|x].
  - cbn [negb] in Hrun. unfold bind at 1 in Hrun.
    destruct (waitForServiceAvailability fuel (timerLag e) 0 group _) as [[[u|x] w1]|] eqn:Hwait;
      [| |discriminate Hrun].
    + apply waitForServiceAvailability_inv in Hwait as (Ha & Hl & Ht & Hn & Hend).
      destruct Hend as (c' & Hcfg' & Hfree & Hcool).
      rewrite configured in Hcfg'. injection Hcfg' as <-.
      cbn [activeRequests lastRequestTime now trace] in *.
      unfold bind at 1, getActive at 1 in Hrun. unfold bind at 1, setActive at 1 in Hrun.
      unfold bind at 1, dateNow at 1 in Hrun. unfold bind at 1, setLast at 1 in Hrun.
      cbn [activeRequests lastRequestTime now trace] in Hrun.
      unfold tryFinally in Hrun. destruct generateFn_behaves as [Hfn _].
      rewrite Hfn in Hrun. cbn [activeRequests lastRequestTime now trace] in Hrun.
      unfold bind, getActive, setActive in Hrun.
      cbn [activeRequests lastRequestTime now trace] in Hrun.
      rewrite lookup_insert_eq, orNumber_Some_zero, insert_insert_eq in Hrun.
      injection Hrun as <- <-. split; [reflexivity|].
      exists (now w1). unfold getActiveRequests, getLastRequestTime in *.
      rewrite Ha, Hl in *. rewrite Ht.
      split; [lia|]. split; [exact Hfree|]. split; [exact Hcool|].
      f_equal. f_equal. lia.
    + apply waitForServiceAvailability_inv in Hwait as (_ & _ & _ & _ & Hcfg' & _).
      rewrite configured in Hcfg'. discriminate Hcfg'.
  - cbn [negb] in Hrun. unfold throw in Hrun. injection Hrun as <- <-. split; reflexivity.
  - injection Hrun as <- <-. split; reflexivity.
Qed.


Ltac reads :=
  repeat first
    [ rewrite getActiveRequests_insert
    | rewrite getLastRequestTime_insert
    | progress cbn [activeRequests lastRequestTime now trace] ];
  repeat case_decide; subst;
  unfold getActiveRequests, getLastRequestTime in *;
  cbn [activeRequests lastRequestTime now trace] in *;
  try congruence; try lia.

Lemma item_inv (e : ItemEnv) (req : ServiceRequest) (w w' : World)
    (r : outcome StandardResponse) :
  (let* result := executeRequest fuel e group (generateFn e req) in
   uploadToStorageIfNeeded e result) w = Some (r, w') ->
  r = match dispatchOutcome b e req with
      | Returned r0 => Returned (rehosted e r0)
      | Thrown x => Thrown x
      end
  /\ settled group c b e req w w'.
Proof.
  intros Hrun. unfold bind in Hrun.
  destruct (executeRequest fuel e group (generateFn e req) w) as [[r1 w1]|] eqn:Hexec;
    [|discriminate Hrun].
  apply executeRequest_inv in Hexec as [-> Hw1].
  unfold settled, itemCalls, dispatchOutcome in *.
  destruct (checkAuth e) as [[|]|x].
  - destruct Hw1 as (t & Ht & Hfree & Hcool & ->).
    destruct (settles b e req) as [r0|x].
    + rewrite uploadToStorageIfNeeded_run in Hrun. injection Hrun as <- <-.
      split; [reflexivity|].
      destruct (needsUpload r0).
      * split; [intros g; reads|]. split; [intros g Hg; reads|].
        split; [reads|]. split; [reads; rewrite app_assoc; reflexivity|].
        split; [exact Hfree|]. split; reads.
      * split; [intros g; reads|]. split; [intros g Hg; reads|].
        split; [reads|]. split; [reads; rewrite app_nil_r; reflexivity|].
        split; [exact Hfree|]. split; reads.
    + injection Hrun as <- <-. split; [reflexivity|].
      split; [intros g; reads|]. split; [intros g Hg; reads|].
      split; [reads|]. split; [reads; rewrite app_nil_r; reflexivity|].
      split; [exact Hfree|]. split; reads.
  - subst w1. injection Hrun as <- <-. split; [reflexivity|].
    split; [intros g; reads|]. split; [intros g Hg; reads|].
    split; [reads|]. split; [reads; rewrite app_nil_r; reflexivity|]. reads.
  - subst w1. injection Hrun as <- <-. split; [reflexivity|].
    split; [intros g; reads|]. split; [intros g Hg; reads|].
    split; [reads|]. split; [reads; rewrite app_nil_r; reflexivity|]. reads.
Qed.

(** One turn of the aggregate loop that has ended. *)
Lemma aggregateItem_inv (env : nat -> ItemEnv) (req : ServiceRequest) (i : nat)
    (acc : list thrown * list StandardResponse) (w w' : World)
    (r : outcome (list thrown * list StandardResponse)) :
  aggregateItem fuel env group req generateFn i acc w = Some (r, w') ->
  r = Returned (acc.1 ++ itemErrors b (env i) req,
                acc.2 ++ [itemResult b (env i) req (now w')])
  /\ settled group c b (env i) req w w'.
Proof.
  intros Hrun. unfold aggregateItem, tryCatch in Hrun. rewrite bind_assoc_at in Hrun.
  unfold bind at 1 in Hrun.
  destruct ((let* result := executeRequest fuel (env i) group (generateFn (env i) req) in
             uploadToStorageIfNeeded (env i) result) w) as [[r1 w1]|] eqn:Hitem;
    [|discriminate Hrun].
  apply item_inv in Hitem as [-> Hset].
  unfold itemErrors, itemResult.
  destruct (dispatchOutcome b (env i) req) as [r0|x];
    unfold bind, dateNow, ret in Hrun; injection Hrun as <- <-;
    rewrite ?app_nil_r; (split; [reflexivity | exact Hset]).
Qed.

(** The aggregate loop that has ended: the slots of its items stamped at
    non-decreasing instants, and the ledger of the group paced by the
    cooldown. *)
Lemma aggregate_loop_inv (env : nat -> ItemEnv) (req : ServiceRequest) (n first : nat)
    (acc : list thrown * list StandardResponse) (w w' : World)
    (r : outcome (list thrown * list StandardResponse)) :
  forLoop (aggregateItem fuel env group req generateFn) n first acc w = Some (r, w') ->
  exists ts,
    length ts = n
    /\ r = Returned (acc.1 ++ collected b env req first n,
                     acc.2 ++ slots b env req first ts)
    /\ (forall g, getActiveRequests w' g = getActiveRequests w g)
    /\ (forall g, g <> group -> getLastRequestTime w' g = getLastRequestTime w g)
    /\ now w <= now w'
    /\ trace w' = trace w ++ batchCalls b env req first n
    /\ StronglySorted Z.le ts
    /\ Forall (fun t => now w <= t <= now w') ts
    /\ (n = 0%nat -> w' = w)
    /\ ((forall i, (first <= i < first + n)%nat -> checkAuth (env i) = Returned true) ->
        (1 <= n)%nat ->
        Z.max (now w) (getLastRequestTime w group + Registry.cooldownMs c)
          + (Z.of_nat n - 1) * Registry.cooldownMs c <= getLastRequestTime w' group
        /\ getLastRequestTime w' group <= now w').
Proof.
  revert first acc w r. induction n as [|n IH]; intros first acc w r Hrun.
  - cbn in Hrun. unfold ret in Hrun. injection Hrun as <- <-.
    exists []. split; [reflexivity|]. cbn. rewrite !app_nil_r.
    split; [destruct acc; reflexivity|].
    repeat split; try reflexivity; try constructor; try lia.
  - cbn [forLoop] in Hrun. unfold bind at 1 in Hrun.
    destruct (aggregateItem fuel env group req generateFn first acc w) as [[r1 w1]|] eqn:Hitem;
      [|discriminate Hrun].
    apply aggregateItem_inv in Hitem as [-> (Ha1 & Hl1 & Hn1 & Ht1 & Hpace1)].
    apply IH in Hrun as (ts & Hlen & -> & Ha2 & Hl2 & Hn2 & Ht2 & Hsorted & Hbounds & Hnone & Hpace2).
    cbn [fst snd] in *.
    exists (now w1 :: ts). split; [cbn; lia|].
    split.
    { rewrite slots_cons. unfold collected. cbn [seq List.map concat].
      rewrite <- !app_assoc. reflexivity. }
    split; [intros g; rewrite Ha2; apply Ha1|].
    split; [intros g Hg; rewrite (Hl2 g Hg); apply (Hl1 g Hg)|].
    split; [lia|].
    split.
    { rewrite Ht2, Ht1. unfold batchCalls. cbn [seq List.map concat].
      rewrite <- app_assoc. reflexivity. }
    split.
    { constructor; [exact Hsorted|].
      eapply Forall_impl; [exact Hbounds|]. cbn. intros t Ht. lia. }
    split.
    { constructor; [lia|].
      eapply Forall_impl; [exact Hbounds|]. cbn. intros t Ht. lia. }
    split; [discriminate|].
    intros Hauth _.
    rewrite (Hauth first) in Hpace1 by lia. destruct Hpace1 as (_ & Hlow & Hhigh).
    destruct n as [|n].
    + rewrite (Hnone eq_refl). split; [lia | exact Hhigh].
    + destruct Hpace2 as [Hlow2 Hhigh2]; [intros i Hi; apply Hauth; lia | lia |].
      split; [nia | exact Hhigh2].
Qed.

End Dispatch.

(** ** Streaming against aggregate *)

Lemma alike_ret {A : Type} (a : A) : alike (ret a) (ret a).
Proof. intros w1 w2 H. cbn. auto. Qed.

Lemma alike_throw {A : Type} (x : thrown) : alike (@throw A x) (throw x).
Proof. intros w1 w2 H. cbn. auto. Qed.

Lemma alike_bind {A B : Type} (m1 m2 : M A) (k1 k2 : A -> M B) :
  alike m1 m2 -> (forall a, alike (k1 a) (k2 a)) -> alike (bind m1 k1) (bind m2 k2).
Proof.
  intros Hm Hk w1 w2 Hw. unfold bind. specialize (Hm w1 w2 Hw).
  destruct (m1 w1) as [[[a1|x1] w1']|], (m2 w2) as [[[a2|x2] w2']|];
    try contradiction; try exact I; destruct Hm as [Heq Hw']; try discriminate Heq.
  - injection Heq as <-. apply Hk. exact Hw'.
  - injection Heq as <-. auto.
Qed.

Lemma alike_tryCatch {A : Type} (m1 m2 : M A) (h1 h2 : thrown -> M A) :
  alike m1 m2 -> (forall x, alike (h1 x) (h2 x)) -> alike (tryCatch m1 h1) (tryCatch m2 h2).
Proof.
  intros Hm Hh w1 w2 Hw. unfold tryCatch. specialize (Hm w1 w2 Hw).
  destruct (m1 w1) as [[[a1|x1] w1']|], (m2 w2) as [[[a2|x2] w2']|];
    try contradiction; try exact I; destruct Hm as [Heq Hw']; try discriminate Heq.
  - injection Heq as <-. auto.
  - injection Heq as <-. apply Hh. exact Hw'.
Qed.

Lemma alike_tryFinally {A : Type} (m1 m2 : M A) (f1 f2 : M unit) :
  alike m1 m2 -> alike f1 f2 -> alike (tryFinally m1 f1) (tryFinally m2 f2).
Proof.
  intros Hm Hf w1 w2 Hw. unfold tryFinally. specialize (Hm w1 w2 Hw).
  destruct (m1 w1) as [[r1 w1']|], (m2 w2) as [[r2 w2']|];
    try contradiction; try exact I. destruct Hm as [<- Hw'].
  specialize (Hf w1' w2' Hw').
  destruct (f1 w1') as [[[u1|x1] w1'']|], (f2 w2') as [[[u2|x2] w2'']|];
    try contradiction; try exact I; destruct Hf as [Heq Hw'']; try discriminate Heq.
  - auto.
  - injection Heq as <-. auto.
Qed.

(** A call to the outside that only leaves a mark in the trace. *)
Lemma alike_emit_left {A : Type} (ev : event) (m1 m2 : M A) :
  alike m1 m2 -> alike (do* emit ev in m1) m2.
Proof.
  intros Hm w1 w2 (Ha & Hl & Hn). unfold bind, emit. apply Hm.
  repeat split; assumption.
Qed.

Lemma alike_emit (ev : event) : alike (emit ev) (emit ev).
Proof. intros w1 w2 (Ha & Hl & Hn). cbn. repeat split; assumption. Qed.

Lemma alike_awaitExternal {A : Type} (ms : N) (r : outcome A) :
  alike (awaitExternal ms r) (awaitExternal ms r).
Proof.
  intros w1 w2 (Ha & Hl & Hn). cbn. repeat split; try assumption. rewrite Hn. reflexivity.
Qed.

Lemma alike_getActive (g : string) : alike (getActive g) (getActive g).
Proof. intros w1 w2 (Ha & Hl & Hn). cbn. rewrite Ha. repeat split; assumption. Qed.

Lemma alike_getLast (g : string) : alike (getLast g) (getLast g).
Proof. intros w1 w2 (Ha & Hl & Hn). cbn. rewrite Hl. repeat split; assumption. Qed.

Lemma alike_setActive (g : string) (v : Z) : alike (setActive g v) (setActive g v).
Proof. intros w1 w2 (Ha & Hl & Hn). cbn. rewrite Ha. repeat split; assumption. Qed.

Lemma alike_setLast (g : string) (v : Z) : alike (setLast g v) (setLast g v).
Proof. intros w1 w2 (Ha & Hl & Hn). cbn. rewrite Hl. repeat split; assumption. Qed.

Lemma alike_dateNow : alike dateNow dateNow.
Proof. intros w1 w2 (Ha & Hl & Hn). cbn. rewrite Hn. repeat split; assumption. Qed.

Lemma alike_liftOutcome {A : Type} (r : outcome A) : alike (liftOutcome r) (liftOutcome r).
Proof. intros w1 w2 H. cbn. auto. Qed.

Lemma alike_waitForServiceAvailability (fuel : nat) (lag : nat -> N) (k : nat) (group : string) :
  alike (waitForServiceAvailability fuel lag k group)
        (waitForServiceAvailability fuel lag k group).
Proof.
  revert k. induction fuel as [|fuel IH]; intros k; [intros w1 w2 _; exact I|].
  cbn [waitForServiceAvailability].
  apply alike_bind; [apply alike_getActive|]. intros activeCount.
  apply alike_bind; [apply alike_getLast|]. intros lastRequest.
  apply alike_bind; [apply alike_dateNow|]. intros t.
  apply alike_bind; [apply alike_liftOutcome|]. intros modelConfig.
  assert (Hsleep :
    alike (do* awaitExternal (Z.to_N POLLING_INTERVAL + lag k) (Returned tt) in
           waitForServiceAvailability fuel lag (S k) group)
          (do* awaitExternal (Z.to_N POLLING_INTERVAL + lag k) (Returned tt) in
           waitForServiceAvailability fuel lag (S k) group)).
  { apply alike_bind; [apply alike_awaitExternal | intros _; apply IH]. }
  destruct modelConfig as [|c|p]; [apply alike_throw | | exact Hsleep].
  destruct (_ && _); [apply alike_ret | exact Hsleep].
Qed.

Section Streaming.

Variable generateFn : ItemEnv -> ServiceRequest -> M StandardResponse.
Variable b : Behaviour.
Hypothesis generateFn_behaves : behaves generateFn b.

Lemma alike_generateFn (e : ItemEnv) (req : ServiceRequest) :
  alike (generateFn e req) (generateFn e req).
Proof.
  intros w1 w2 (Ha & Hl & Hn). destruct generateFn_behaves as [Hfn _].
  rewrite !Hfn. split; [reflexivity|]. cbn. repeat split; try assumption.
  rewrite Hn. reflexivity.
Qed.

Lemma alike_executeRequest (fuel : nat) (e : ItemEnv) (group : string) (req : ServiceRequest) :
  alike (executeRequest fuel e group (generateFn e req))
        (executeRequest fuel e group (generateFn e req)).
Proof.
  unfold executeRequest.
  apply alike_bind; [apply alike_awaitExternal|]. intros isAuthenticated.
  destruct (negb isAuthenticated); [apply alike_throw|].
  apply alike_bind; [apply alike_waitForServiceAvailability|]. intros _.
  apply alike_bind; [apply alike_getActive|]. intros active.
  apply alike_bind; [apply alike_setActive|]. intros _.
  apply alike_bind; [apply alike_dateNow|]. intros t.
  apply alike_bind; [apply alike_setLast|]. intros _.
  apply alike_tryFinally; [apply alike_generateFn|].
  apply alike_bind; [apply alike_getActive|]. intros active'. apply alike_setActive.
Qed.

Lemma alike_uploadToStorageIfNeeded (e : ItemEnv) (r : StandardResponse) :
  alike (uploadToStorageIfNeeded e r) (uploadToStorageIfNeeded e r).
Proof.
  unfold uploadToStorageIfNeeded.
  destruct (success r && truthy (imageUrl r)); [|apply alike_ret].
  apply alike_tryCatch; [|intros x; apply alike_ret].
  apply alike_bind; [apply alike_emit|]. intros _.
  apply alike_bind; [apply alike_awaitExternal|]. intros u.
  destruct (Storage.success u && truthy (Storage.url u)); apply alike_ret.
Qed.

(** One turn of the streaming loop is one turn of the aggregate loop and
    a call of onProgress. *)
Lemma alike_items (fuel : nat) (env : nat -> ItemEnv) (group : string) (req : ServiceRequest)
    (sr : StreamGenerationRequest) (count : Z) (i : nat)
    (acc : list thrown * list StandardResponse) :
  alike (streamItem fuel env group req generateFn sr count i acc)
        (aggregateItem fuel env group req generateFn i acc).
Proof.
  unfold streamItem, aggregateItem.
  apply alike_tryCatch.
  - apply alike_bind; [apply alike_executeRequest|]. intros result.
    apply alike_bind; [apply alike_uploadToStorageIfNeeded|]. intros finalResult.
    apply alike_bind; [apply alike_dateNow|]. intros t.
    unfold callOnProgress. destruct (onProgress sr).
    + apply alike_emit_left, alike_ret.
    + intros w1 w2 Hw. cbn. auto.
  - intros x. apply alike_bind; [apply alike_dateNow|]. intros t.
    unfold callOnProgress. destruct (onProgress sr).
    + apply alike_emit_left, alike_ret.
    + intros w1 w2 Hw. cbn. auto.
Qed.

Lemma alike_forLoop {Acc : Type} (body1 body2 : nat -> Acc -> M Acc) (n i : nat) (acc : Acc) :
  (forall j a, alike (body1 j a) (body2 j a)) ->
  alike (forLoop body1 n i acc) (forLoop body2 n i acc).
Proof.
  intros Hbody. revert i acc. induction n as [|n IH]; intros i acc; [apply alike_ret|].
  cbn [forLoop]. apply alike_bind; [apply Hbody|]. intros acc'. apply IH.
Qed.

End Streaming.

Lemma sameLedger_refl (w : World) : sameLedger w w.
Proof. repeat split. Qed.

(** Neither loop rejects: a turn that fails fills its slot. *)
Lemma aggregateItem_returns (fuel : nat) (env : nat -> ItemEnv) (group : string)
    (req : ServiceRequest) (generateFn : ItemEnv -> ServiceRequest -> M StandardResponse)
    (i : nat) (acc : list thrown * list StandardResponse) (w w' : World) (x : thrown) :
  aggregateItem fuel env group req generateFn i acc w <> Some (Thrown x, w').
Proof.
  unfold aggregateItem, tryCatch.
  match goal with |- context [match ?m w with _ => _ end] =>
    destruct (m w) as [[[a|y] w1]|] end;
    [discriminate | unfold bind, dateNow, ret; discriminate | discriminate].
Qed.

Lemma forLoop_returns {Acc : Type} (body : nat -> Acc -> M Acc) (n i : nat) (acc : Acc)
    (w w' : World) (x : thrown) :
  (forall j a w1 w2 y, body j a w1 <> Some (Thrown y, w2)) ->
  forLoop body n i acc w <> Some (Thrown x, w').
Proof.
  intros Hbody. revert i acc w. induction n as [|n IH]; intros i acc w; [discriminate|].
  cbn [forLoop]. unfold bind.
  destruct (body i acc w) as [[[a|y] w1]|] eqn:Hb; [apply IH | | discriminate].
  exfalso. exact (Hbody _ _ _ _ _ Hb).
Qed.

(** X1. Streaming and aggregate generation are one computation: from the
    same world, with the same count and callbacks that take no time, the
    streaming call is still waiting exactly when the aggregate call is, and
    otherwise it ends with the same ledger at the same instant, having
    handed to onComplete the very response the aggregate call returns.
    Neither call rejects. *)
Theorem streaming_hands_over_the_aggregate_response
    (generateFn : ItemEnv -> ServiceRequest -> M StandardResponse) (b : Behaviour)
    (fuel : nat) (env : nat -> ItemEnv) (group : string) (req : ServiceRequest)
    (sr : StreamGenerationRequest) (w : World) :
  behaves generateFn b ->
  orNumber (streamCount sr) (orNumber (count req) DEFAULT_COUNT)
  = orNumber (count req) DEFAULT_COUNT ->
  match generateMultipleImages fuel env group req generateFn w with
  | Some (Returned response, w1) =>
      exists w2,
        generateMultipleImagesStream fuel env group req generateFn sr w
        = Some (Returned tt, w2)
        /\ sameLedger w1 w2
        /\ (onComplete sr = true -> last (trace w2) = Some (EvComplete response))
  | Some (Thrown _, _) => False
  | None => generateMultipleImagesStream fuel env group req generateFn sr w = None
  end.
Proof.
  intros Hb Hcount.
  unfold generateMultipleImages, generateMultipleImagesStream. rewrite Hcount.
  set (n := orNumber (count req) DEFAULT_COUNT).
  pose proof (alike_forLoop
                (streamItem fuel env group req generateFn sr n)
                (aggregateItem fuel env group req generateFn)
                (Z.to_nat n) 0 ([], [])
                (fun j a => alike_items generateFn b Hb fuel env group req sr n j a)
                w w (sameLedger_refl w)) as Hloops.
  unfold tryCatch, bind.
  destruct (forLoop (aggregateItem fuel env group req generateFn) (Z.to_nat n) 0 ([], []) w)
    as [[[acc|x] w1]|] eqn:Hagg.
  - destruct (forLoop (streamItem fuel env group req generateFn sr n) (Z.to_nat n) 0 ([], []) w)
      as [[r2 w2]|]; [|contradiction].
    destruct Hloops as [-> (Ha & Hl & Hn)]. cbn [ret].
    unfold callOnComplete, emit, ret. destruct (onComplete sr).
    + eexists. split; [reflexivity|]. split; [repeat split; cbn; congruence|].
      intros _. cbn [trace]. apply last_snoc.
    + exists w2. split; [reflexivity|]. split; [repeat split; congruence | discriminate].
  - exact (forLoop_returns _ _ _ _ _ _ _
             (fun j a w1 w2 y => aggregateItem_returns fuel env group req generateFn j a w1 w2 y)
             Hagg).
  - destruct (forLoop (streamItem fuel env group req generateFn sr n) (Z.to_nat n) 0 ([], []) w)
      as [[r2 w2]|]; [contradiction | reflexivity].
Qed.

Lemma streaming_hands_over_the_aggregate_response_witness :
  match generateMultipleImages 20 Example.alternating "openai"
          (mkServiceRequest "a cat" None (Some 3)) (gpt4oRequestFn Example.keys)
          (initialWorld Example.pageLoad) with
  | Some (Returned response, w1) =>
      exists w2,
        generateMultipleImagesStream 20 Example.alternating "openai"
          (mkServiceRequest "a cat" None (Some 3)) (gpt4oRequestFn Example.keys)
          Example.listening (initialWorld Example.pageLoad) = Some (Returned tt, w2)
        /\ sameLedger w1 w2
        /\ (onComplete Example.listening = true ->
            last (trace w2) = Some (EvComplete response))
  | Some (Thrown _, _) => False
  | None =>
      generateMultipleImagesStream 20 Example.alternating "openai"
        (mkServiceRequest "a cat" None (Some 3)) (gpt4oRequestFn Example.keys)
        Example.listening (initialWorld Example.pageLoad) = None
  end.
Proof.
  apply (streaming_hands_over_the_aggregate_response (gpt4oRequestFn Example.keys)
           (gpt4oBehaviour Example.keys) 20 Example.alternating "openai"
           (mkServiceRequest "a cat" None (Some 3)) Example.listening
           (initialWorld Example.pageLoad)).
  - apply gpt4oRequestFn_behaves.
  - reflexivity.
Defined.

(** ** A whole aggregate call, described *)

Section Described.

Variable group : string.
Variable c : Registry.GroupConfig.
Hypothesis configured :
  Registry.getModelConfigByGroup group = Returned (Registry.JGroupConfig c).

Variable generateFn : ItemEnv -> ServiceRequest -> M StandardResponse.
Variable b : Behaviour.
Hypothesis generateFn_behaves : behaves generateFn b.

Variable env : nat -> ItemEnv.
Variable req : ServiceRequest.

(** With a free slot in its group the call resolves; its slots are stamped
    at instants that do not decrease, and the ledger is as the loop left
    it. *)
Lemma generateMultipleImages_described (w : World) :
  getActiveRequests w group < Registry.maxConcurrent c ->
  let n := Z.to_nat (orNumber (count req) DEFAULT_COUNT) in
  exists fuel0, forall fuel, (fuel0 <= fuel)%nat ->
    exists ts w',
      length ts = n
      /\ generateMultipleImages fuel env group req generateFn w =
         Some (Returned (summary (orNumber (count req) DEFAULT_COUNT)
                           (collected b env req 0 n) (slots b env req 0 ts)), w')
      /\ (forall g, getActiveRequests w' g = getActiveRequests w g)
      /\ (forall g, g <> group -> getLastRequestTime w' g = getLastRequestTime w g)
      /\ now w <= now w'
      /\ trace w' = trace w ++ batchCalls b env req 0 n
      /\ StronglySorted Z.le ts
      /\ Forall (fun t => now w <= t <= now w') ts
      /\ ((forall i, (i < n)%nat -> checkAuth (env i) = Returned true) ->
          (1 <= n)%nat ->
          Z.max (now w) (getLastRequestTime w group + Registry.cooldownMs c)
            + (Z.of_nat n - 1) * Registry.cooldownMs c <= getLastRequestTime w' group
          /\ getLastRequestTime w' group <= now w').
Proof.
  intros Hfree n.
  set (bound := Z.max (Registry.cooldownMs c)
                  (getLastRequestTime w group + Registry.cooldownMs c - now w)).
  exists (S (Z.to_nat bound)). intros fuel Hfuel.
  assert (Hbound : Registry.cooldownMs c <= bound) by (subst bound; lia).
  assert (Hfuel' : (Z.to_nat bound < fuel)%nat) by lia.
  pose proof (admissible_start group c w Hfree) as Hadm. fold bound in Hadm.
  destruct (generateMultipleImages_run group c configured generateFn b generateFn_behaves
              bound fuel Hbound Hfuel' env req w Hadm) as (ts0 & w' & _ & _ & Hrun).
  pose proof Hrun as Hrun'.
  unfold generateMultipleImages in Hrun'. unfold bind in Hrun'.
  destruct (forLoop (aggregateItem fuel env group req generateFn)
              (Z.to_nat (orNumber (count req) DEFAULT_COUNT)) 0 ([], []) w)
    as [[r1 w1]|] eqn:Hloop; [|discriminate Hrun'].
  pose proof (aggregate_loop_inv group c configured generateFn b generateFn_behaves
                _ _ _ _ _ _ _ _ _ Hloop)
    as (ts & Hlen & -> & Ha & Hl & Hn & Ht & Hsorted & Hbounds & _ & Hpace).
  unfold ret in Hrun'. cbn [fst snd app] in Hrun'.
  assert (w1 = w') by congruence. subst w1.
  exists ts, w'. split; [exact Hlen|].
  split; [unfold generateMultipleImages, bind; rewrite Hloop; reflexivity|].
  split; [exact Ha|]. split; [exact Hl|]. split; [exact Hn|]. split; [exact Ht|].
  split; [exact Hsorted|]. split; [exact Hbounds|].
  intros Hauth Hn1. apply Hpace; [intros i Hi; apply Hauth; lia | exact Hn1].
Qed.

End Described.

(** ** Pacing, stamps and counts of an aggregate call *)

(** X2. A signed-in call for N images starts its items at least one
    cooldown apart: it takes at least (N - 1) cooldowns, the timestamp of
    the group moves on by at least N cooldowns, and it is never in the
    future. *)
Theorem batch_is_paced_by_the_cooldown
    (group : string) (c : Registry.GroupConfig)
    (generateFn : ItemEnv -> ServiceRequest -> M StandardResponse) (b : Behaviour)
    (env : nat -> ItemEnv) (req : ServiceRequest) (N : Z) (w : World) :
  Registry.getModelConfigByGroup group = Returned (Registry.JGroupConfig c) ->
  behaves generateFn b ->
  1 <= N ->
  count req = Some N ->
  (forall i, checkAuth (env i) = Returned true) ->
  getActiveRequests w group < Registry.maxConcurrent c ->
  exists fuel0, forall fuel, (fuel0 <= fuel)%nat ->
    exists response w',
      generateMultipleImages fuel env group req generateFn w = Some (Returned response, w')
      /\ now w + (N - 1) * Registry.cooldownMs c <= now w'
      /\ getLastRequestTime w group + N * Registry.cooldownMs c <= getLastRequestTime w' group
      /\ getLastRequestTime w' group <= now w'.
Proof.
  intros Hcfg Hb HN Hcount Hauth Hfree.
  destruct (generateMultipleImages_described group c Hcfg generateFn b Hb env req w Hfree)
    as [fuel0 Hdesc].
  exists fuel0. intros fuel Hfuel.
  destruct (Hdesc fuel Hfuel) as (ts & w' & _ & Hrun & _ & _ & _ & _ & _ & _ & Hpace).
  rewrite Hcount, (orNumber_count_pos N HN) in Hrun, Hpace.
  destruct Hpace as [Hlow Hhigh]; [intros i _; apply Hauth | lia |].
  rewrite Z2Nat.id in Hlow by lia.
  eexists _, w'. split; [exact Hrun|]. split; [nia|]. split; [nia | exact Hhigh].
Qed.

Lemma batch_is_paced_by_the_cooldown_witness :
  exists fuel0, forall fuel, (fuel0 <= fuel)%nat ->
    exists response w',
      generateMultipleImages fuel Example.allGood "openai"
        (mkServiceRequest "a cat" None (Some 4)) (gpt4oRequestFn Example.keys)
        (initialWorld Example.pageLoad) = Some (Returned response, w')
      /\ Example.pageLoad + 3000 <= now w'.
Proof.
  destruct (batch_is_paced_by_the_cooldown "openai" Example.twoAtATime
              (gpt4oRequestFn Example.keys) (gpt4oBehaviour Example.keys) Example.allGood
              (mkServiceRequest "a cat" None (Some 4)) 4 (initialWorld Example.pageLoad))
    as [fuel0 H].
  - reflexivity.
  - apply gpt4oRequestFn_behaves.
  - lia.
  - reflexivity.
  - intros i. reflexivity.
  - vm_compute. reflexivity.
  - exists fuel0. intros fuel Hfuel.
    destruct (H fuel Hfuel) as (response & w' & Hrun & Hnow & _).
    exists response, w'. split; [exact Hrun | exact Hnow].
Defined.

Lemma batchCalls_no_callbacks (b : Behaviour) (env : nat -> ItemEnv) (req : ServiceRequest)
    (first n : nat) :
  (forall e' req', callbacks (calls b e' req') = []) ->
  callbacks (batchCalls b env req first n) = [].
Proof.
  intros Hcalls. revert first. induction n as [|n IH]; intros first; [reflexivity|].
  unfold batchCalls in *. cbn [seq List.map concat].
  rewrite callbacks_app, callbacks_itemCalls, IH by exact Hcalls. reflexivity.
Qed.

(** X3. An aggregate call works on the ledger of its own group only: the
    timestamp and the counter of every other group read as before, the
    clock has not run backwards, and no callback was called. *)
Theorem batch_leaves_other_groups_alone
    (group : string) (c : Registry.GroupConfig)
    (generateFn : ItemEnv -> ServiceRequest -> M StandardResponse) (b : Behaviour)
    (env : nat -> ItemEnv) (req : ServiceRequest) (w : World) :
  Registry.getModelConfigByGroup group = Returned (Registry.JGroupConfig c) ->
  behaves generateFn b ->
  getActiveRequests w group < Registry.maxConcurrent c ->
  exists fuel0, forall fuel, (fuel0 <= fuel)%nat ->
    exists response w' evs,
      generateMultipleImages fuel env group req generateFn w = Some (Returned response, w')
      /\ (forall g, g <> group ->
            getLastRequestTime w' g = getLastRequestTime w g
            /\ getActiveRequests w' g = getActiveRequests w g)
      /\ now w <= now w'
      /\ trace w' = trace w ++ evs
      /\ callbacks evs = [].
Proof.
  intros Hcfg Hb Hfree.
  destruct (generateMultipleImages_described group c Hcfg generateFn b Hb env req w Hfree)
    as [fuel0 Hdesc].
  exists fuel0. intros fuel Hfuel.
  destruct (Hdesc fuel Hfuel) as (ts & w' & _ & Hrun & Ha & Hl & Hn & Ht & _).
  eexists _, w', _. split; [exact Hrun|].
  split; [intros g Hg; split; [apply Hl; exact Hg | apply Ha]|].
  split; [exact Hn|]. split; [exact Ht|].
  apply batchCalls_no_callbacks, Hb.
Qed.

Lemma batch_leaves_other_groups_alone_witness :
  exists fuel0, forall fuel, (fuel0 <= fuel)%nat ->
    exists response w',
      generateMultipleImages fuel Example.alternating "openai"
        (mkServiceRequest "a cat" None (Some 2)) (gpt4oRequestFn Example.keys)
        (initialWorld Example.pageLoad) = Some (Returned response, w')
      /\ getLastRequestTime w' "doubao" = getLastRequestTime (initialWorld Example.pageLoad) "doubao".
Proof.
  destruct (batch_leaves_other_groups_alone "openai" Example.twoAtATime
              (gpt4oRequestFn Example.keys) (gpt4oBehaviour Example.keys) Example.alternating
              (mkServiceRequest "a cat" None (Some 2)) (initialWorld Example.pageLoad))
    as [fuel0 H].
  - reflexivity.
  - apply gpt4oRequestFn_behaves.
  - vm_compute. reflexivity.
  - exists fuel0. intros fuel Hfuel.
    destruct (H fuel Hfuel) as (response & w' & evs & Hrun & Hframe & _).
    exists response, w'. split; [exact Hrun|].
    apply (Hframe "doubao"). discriminate.
Defined.

Lemma createdAt_itemResult (b : Behaviour) (e : ItemEnv) (req : ServiceRequest) (t : Z) :
  createdAt (itemResult b e req t) = Some t.
Proof. unfold itemResult. destruct (dispatchOutcome b e req); reflexivity. Qed.

Lemma createdAt_slots (b : Behaviour) (env : nat -> ItemEnv) (req : ServiceRequest)
    (first : nat) (ts : list Z) :
  List.map createdAt (slots b env req first ts) = List.map Some ts.
Proof.
  revert first. induction ts as [|t ts IH]; intros first; [reflexivity|].
  rewrite slots_cons. cbn [List.map]. rewrite createdAt_itemResult, IH. reflexivity.
Qed.

(** X4. Every slot of the response carries a creation stamp, failed slots
    too; the stamps lie between the start and the end of the call and do
    not decrease along the results. *)
Theorem results_are_stamped_in_order
    (group : string) (c : Registry.GroupConfig)
    (generateFn : ItemEnv -> ServiceRequest -> M StandardResponse) (b : Behaviour)
    (env : nat -> ItemEnv) (req : ServiceRequest) (w : World) :
  Registry.getModelConfigByGroup group = Returned (Registry.JGroupConfig c) ->
  behaves generateFn b ->
  getActiveRequests w group < Registry.maxConcurrent c ->
  exists fuel0, forall fuel, (fuel0 <= fuel)%nat ->
    exists response w' ts,
      generateMultipleImages fuel env group req generateFn w = Some (Returned response, w')
      /\ List.map createdAt (results response) = List.map Some ts
      /\ StronglySorted Z.le ts
      /\ Forall (fun t => now w <= t <= now w') ts.
Proof.
  intros Hcfg Hb Hfree.
  destruct (generateMultipleImages_described group c Hcfg generateFn b Hb env req w Hfree)
    as [fuel0 Hdesc].
  exists fuel0. intros fuel Hfuel.
  destruct (Hdesc fuel Hfuel) as (ts & w' & _ & Hrun & _ & _ & _ & _ & Hsorted & Hbounds & _).
  eexists _, w', ts. split; [exact Hrun|].
  split; [apply createdAt_slots|]. split; [exact Hsorted | exact Hbounds].
Qed.

Lemma results_are_stamped_in_order_witness :
  exists fuel0, forall fuel, (fuel0 <= fuel)%nat ->
    exists response w' ts,
      generateMultipleImages fuel Example.alternating "openai"
        (mkServiceRequest "a cat" None (Some 3)) (gpt4oRequestFn Example.keys)
        (initialWorld Example.pageLoad) = Some (Returned response, w')
      /\ List.map createdAt (results response) = List.map Some ts
      /\ StronglySorted Z.le ts.
Proof.
  destruct (results_are_stamped_in_order "openai" Example.twoAtATime
              (gpt4oRequestFn Example.keys) (gpt4oBehaviour Example.keys) Example.alternating
              (mkServiceRequest "a cat" None (Some 3)) (initialWorld Example.pageLoad))
    as [fuel0 H].
  - reflexivity.
  - apply gpt4oRequestFn_behaves.
  - vm_compute. reflexivity.
  - exists fuel0. intros fuel Hfuel.
    destruct (H fuel Hfuel) as (response & w' & ts & Hrun & Hstamps & Hsorted & _).
    exists response, w', ts. auto.
Defined.

Lemma success_itemResult (b : Behaviour) (e : ItemEnv) (req : ServiceRequest) (t : Z) :
  success (itemResult b e req t) = itemSucceeded b e req.
Proof.
  unfold itemResult, itemSucceeded. destruct (dispatchOutcome b e req) as [r|x]; [|reflexivity].
  cbn. apply rehosted_success.
Qed.

Lemma successful_slots (b : Behaviour) (env : nat -> ItemEnv) (req : ServiceRequest)
    (first : nat) (ts : list Z) :
  length (List.filter success (slots b env req first ts)) =
  length (List.filter (fun i => itemSucceeded b (env i) req) (seq first (length ts))).
Proof.
  revert first. induction ts as [|t ts IH]; intros first; [reflexivity|].
  rewrite slots_cons. cbn [length seq List.filter]. rewrite success_itemResult.
  destruct (itemSucceeded b (env first) req); cbn [length]; rewrite IH; reflexivity.
Qed.

Lemma collected_length (b : Behaviour) (env : nat -> ItemEnv) (req : ServiceRequest)
    (first n : nat) :
  length (collected b env req first n) =
  length (List.filter (fun i => itemThrew b (env i) req) (seq first n)).
Proof.
  revert first. induction n as [|n IH]; intros first; [reflexivity|].
  unfold collected in *. cbn [seq List.map concat List.filter].
  rewrite length_app, IH. unfold itemErrors, itemThrew.
  destruct (dispatchOutcome b (env first) req); reflexivity.
Qed.

Lemma items_fall_in_three (b : Behaviour) (env : nat -> ItemEnv) (req : ServiceRequest)
    (first n : nat) :
  (length (List.filter (fun i => itemSucceeded b (env i) req) (seq first n))
   + length (List.filter (fun i => itemThrew b (env i) req) (seq first n))
   + length (List.filter (fun i => itemReturnedFailure b (env i) req) (seq first n)))%nat
  = n.
Proof.
  revert first. induction n as [|n IH]; intros first; [reflexivity|].
  cbn [seq List.filter]. specialize (IH (S first)).
  unfold itemSucceeded, itemThrew, itemReturnedFailure in *.
  destruct (dispatchOutcome b (env first) req) as [r|x]; [destruct (success r)|];
    cbn [negb length]; lia.
Qed.

(** X5. The summary counts what the loop saw: successful is the number of
    items whose result has success set, failed the number of items that
    threw.  An item whose request function returned a result without
    success is in neither, so the two add up to the number of results only
    when there is no such item. *)
Theorem summary_counts_returned_failures_in_neither
    (group : string) (c : Registry.GroupConfig)
    (generateFn : ItemEnv -> ServiceRequest -> M StandardResponse) (b : Behaviour)
    (env : nat -> ItemEnv) (req : ServiceRequest) (w : World) :
  Registry.getModelConfigByGroup group = Returned (Registry.JGroupConfig c) ->
  behaves generateFn b ->
  getActiveRequests w group < Registry.maxConcurrent c ->
  let n := Z.to_nat (orNumber (count req) DEFAULT_COUNT) in
  exists fuel0, forall fuel, (fuel0 <= fuel)%nat ->
    exists response md w',
      generateMultipleImages fuel env group req generateFn w = Some (Returned response, w')
      /\ metadata response = Some md
      /\ length (results response) = n
      /\ totalRequested md = orNumber (count req) DEFAULT_COUNT
      /\ successful md = countItems (fun e => itemSucceeded b e req) env n
      /\ failed md = countItems (fun e => itemThrew b e req) env n
      /\ successful md + failed md
         + countItems (fun e => itemReturnedFailure b e req) env n = Z.of_nat n.
Proof.
  intros Hcfg Hb Hfree n.
  destruct (generateMultipleImages_described group c Hcfg generateFn b Hb env req w Hfree)
    as [fuel0 Hdesc].
  exists fuel0. intros fuel Hfuel.
  destruct (Hdesc fuel Hfuel) as (ts & w' & Hlen & Hrun & _).
  fold n in Hlen, Hrun.
  eexists _, _, w'. split; [exact Hrun|]. split; [reflexivity|].
  cbn [results summary totalRequested successful failed].
  split; [rewrite slots_length; exact Hlen|]. split; [reflexivity|].
  unfold countItems. rewrite successful_slots, collected_length, Hlen.
  split; [reflexivity|]. split; [reflexivity|].
  pose proof (items_fall_in_three b env req 0 n). lia.
Qed.

Lemma summary_counts_returned_failures_in_neither_witness :
  exists fuel0, forall fuel, (fuel0 <= fuel)%nat ->
    exists response md w',
      generateMultipleImages fuel Example.declining "openai"
        (mkServiceRequest "a cat" None (Some 3)) (gpt4oRequestFn Example.keys)
        (initialWorld Example.pageLoad) = Some (Returned response, w')
      /\ metadata response = Some md
      /\ length (results response) = 3%nat
      /\ successful md = 2
      /\ failed md = 0.
Proof.
  destruct (summary_counts_returned_failures_in_neither "openai" Example.twoAtATime
              (gpt4oRequestFn Example.keys) (gpt4oBehaviour Example.keys) Example.declining
              (mkServiceRequest "a cat" None (Some 3)) (initialWorld Example.pageLoad))
    as [fuel0 H].
  - reflexivity.
  - apply gpt4oRequestFn_behaves.
  - vm_compute. reflexivity.
  - exists fuel0. intros fuel Hfuel.
    destruct (H fuel Hfuel) as (response & md & w' & Hrun & Hmd & Hlen & _ & Hok & Hfailed & _).
    exists response, md, w'. split; [exact Hrun|]. split; [exact Hmd|].
    split; [exact Hlen|]. split; [rewrite Hok | rewrite Hfailed]; reflexivity.
Defined.

(** ** The count of a streamed batch *)

(** X6. The count of the stream request comes first.  With
    streamRequest.count = K >= 1 the streaming batch generates K items,
    whatever count the request itself carries: there are K results, every
    call of onProgress reports K as the total, and onComplete gets
    totalRequested = K.  A callback that was not supplied is simply not
    called. *)
Theorem stream_count_comes_before_the_request_count
    (group : string) (c : Registry.GroupConfig)
    (generateFn : ItemEnv -> ServiceRequest -> M StandardResponse) (b : Behaviour)
    (env : nat -> ItemEnv) (req : ServiceRequest) (sr : StreamGenerationRequest)
    (K : Z) (w : World) :
  Registry.getModelConfigByGroup group = Returned (Registry.JGroupConfig c) ->
  behaves generateFn b ->
  1 <= K ->
  streamCount sr = Some K ->
  getActiveRequests w group < Registry.maxConcurrent c ->
  exists fuel0, forall fuel, (fuel0 <= fuel)%nat ->
    exists ts evs response md w',
      generateMultipleImagesStream fuel env group req generateFn sr w = Some (Returned tt, w')
      /\ trace w' = trace w ++ evs
      /\ length ts = Z.to_nat K
      /\ callbacks evs
         = (if onProgress sr
            then imap (fun i t => EvProgress (itemResult b (env i) req t) (Z.of_nat i) K) ts
            else [])
           ++ (if onComplete sr then [EvComplete response] else [])
      /\ metadata response = Some md
      /\ totalRequested md = K
      /\ length (results response) = Z.to_nat K.
Proof.
  intros Hcfg Hb HK Hcount Hfree.
  set (bound := Z.max (Registry.cooldownMs c)
                  (getLastRequestTime w group + Registry.cooldownMs c - now w)).
  exists (S (Z.to_nat bound)). intros fuel Hfuel.
  assert (Hbound : Registry.cooldownMs c <= bound) by (subst bound; lia).
  assert (Hfuel' : (Z.to_nat bound < fuel)%nat) by lia.
  pose proof (admissible_start group c w Hfree) as Hadm. fold bound in Hadm.
  destruct (generateMultipleImagesStream_run group c Hcfg generateFn b Hb bound fuel Hbound
              Hfuel' env req sr w Hadm) as (ts & w' & Hlen & (_ & _ & Htrace & _) & Hrun).
  assert (Hn : orNumber (streamCount sr) (orNumber (count req) DEFAULT_COUNT) = K).
  { rewrite Hcount. apply (orNumber_Some_pos K _ HK). }
  rewrite Hn in Hlen, Htrace.
  exists ts. eexists _, (summary K (collected b env req 0 (Z.to_nat K)) (slots b env req 0 ts)), _, w'.
  split; [exact Hrun|]. split; [exact Htrace|]. split; [exact Hlen|].
  split.
  { rewrite callbacks_app, callbacks_streamCalls by apply Hb. cbn [Nat.add]. f_equal.
    destruct (onComplete sr); reflexivity. }
  split; [reflexivity|]. split; [reflexivity|].
  cbn [results summary]. rewrite slots_length. exact Hlen.
Qed.

Lemma stream_count_comes_before_the_request_count_witness :
  exists fuel0, forall fuel, (fuel0 <= fuel)%nat ->
    exists response md w',
      generateMultipleImagesStream fuel Example.allGood "openai"
        (mkServiceRequest "a cat" None (Some 5)) (gpt4oRequestFn Example.keys)
        (mkStreamRequest (Some 2) true true false) (initialWorld Example.pageLoad)
      = Some (Returned tt, w')
      /\ last (callbacks (trace w')) = Some (EvComplete response)
      /\ metadata response = Some md
      /\ totalRequested md = 2
      /\ length (results response) = 2%nat.
Proof.
  destruct (stream_count_comes_before_the_request_count "openai" Example.twoAtATime
              (gpt4oRequestFn Example.keys) (gpt4oBehaviour Example.keys) Example.allGood
              (mkServiceRequest "a cat" None (Some 5)) (mkStreamRequest (Some 2) true true false)
              2 (initialWorld Example.pageLoad)) as [fuel0 H].
  - reflexivity.
  - apply gpt4oRequestFn_behaves.
  - lia.
  - reflexivity.
  - vm_compute. reflexivity.
  - exists fuel0. intros fuel Hfuel.
    destruct (H fuel Hfuel) as (ts & evs & response & md & w' & Hrun & Htrace & _ & Hcalls
                                & Hmd & Htotal & Hlen).
    exists response, md, w'. split; [exact Hrun|].
    split; [|split; [exact Hmd | split; [exact Htotal | exact Hlen]]].
    rewrite Htrace. cbn [trace initialWorld app]. rewrite Hcalls. cbn [onComplete].
    apply last_snoc.
Defined.


(** ** The admission wait as callers see it *)

(** X7. The wait returns only at an instant at which the group has a free
    slot and its cooldown has run; until then it has changed nothing but
    the clock.  It throws only for a group without configuration, before
    any time has passed. *)
Theorem admission_wait_ends_only_when_the_test_holds
    (fuel : nat) (lag : nat -> N) (k : nat) (group : string) (w w' : World)
    (r : outcome unit) :
  waitForServiceAvailability fuel lag k group w = Some (r, w') ->
  activeRequests w' = activeRequests w
  /\ lastRequestTime w' = lastRequestTime w
  /\ trace w' = trace w
  /\ now w <= now w'
  /\ (forall u, r = Returned u ->
        exists c,
          Registry.getModelConfigByGroup group = Returned (Registry.JGroupConfig c)
          /\ getActiveRequests w' group < Registry.maxConcurrent c
          /\ Registry.cooldownMs c <= now w' - getLastRequestTime w' group)
  /\ (forall x, r = Thrown x ->
        Registry.getModelConfigByGroup group = Returned Registry.JUndefined /\ w' = w).
Proof.
  intros Hrun.
  apply waitForServiceAvailability_inv in Hrun as (Ha & Hl & Ht & Hn & Hend).
  repeat (split; [assumption|]).
  split; [intros u -> | intros x ->]; exact Hend.
Qed.

Lemma admission_wait_ends_only_when_the_test_holds_witness :
  (let w := Example.coolingDown 1250 in
   let w' := Example.coolingDown 2074 in
   waitForServiceAvailability 20 (fun _ => 3%N) 0 "openai" w = Some (Returned tt, w')
   /\ activeRequests w' = activeRequests w
   /\ lastRequestTime w' = lastRequestTime w
   /\ trace w' = trace w
   /\ now w <= now w'
   /\ (forall u, Returned tt = Returned u ->
         exists c,
           Registry.getModelConfigByGroup "openai" = Returned (Registry.JGroupConfig c)
           /\ getActiveRequests w' "openai" < Registry.maxConcurrent c
           /\ Registry.cooldownMs c <= now w' - getLastRequestTime w' "openai")
   /\ (forall x, Returned tt = Thrown x ->
         Registry.getModelConfigByGroup "openai" = Returned Registry.JUndefined /\ w' = w))
  /\ (let w := Example.coolingDown 1250 in
      let x := ErrorObj "Cannot read properties of undefined (reading 'maxConcurrent')" in
      waitForServiceAvailability 20 (fun _ => 3%N) 0 "midjourney" w = Some (Thrown x, w)
      /\ (forall y, @Thrown unit x = Thrown y ->
            Registry.getModelConfigByGroup "midjourney" = Returned Registry.JUndefined
            /\ w = w)).
Proof.
  split.
  - split; [vm_compute; reflexivity|].
    apply (admission_wait_ends_only_when_the_test_holds 20 (fun _ => 3%N) 0 "openai"
             (Example.coolingDown 1250) (Example.coolingDown 2074) (Returned tt)).
    vm_compute. reflexivity.
  - split; [vm_compute; reflexivity|].
    apply (admission_wait_ends_only_when_the_test_holds 20 (fun _ => 3%N) 0 "midjourney"
             (Example.coolingDown 1250) (Example.coolingDown 1250)
             (Thrown (ErrorObj "Cannot read properties of undefined (reading 'maxConcurrent')"))).
    vm_compute. reflexivity.
Defined.

Lemma waitForServiceAvailability_at_once (fuel : nat) (lag : nat -> N) (k : nat)
    (group : string) (c : Registry.GroupConfig) (w : World) :
  Registry.getModelConfigByGroup group = Returned (Registry.JGroupConfig c) ->
  getActiveRequests w group < Registry.maxConcurrent c ->
  Registry.cooldownMs c <= now w - getLastRequestTime w group ->
  waitForServiceAvailability (S fuel) lag k group w = Some (Returned tt, w).
Proof.
  intros Hcfg Hfree Hcool. cbn [waitForServiceAvailability].
  unfold bind at 1, getActive at 1. unfold bind at 1, getLast at 1.
  unfold bind at 1, dateNow at 1. unfold bind at 1, liftOutcome at 1.
  rewrite Hcfg. fold (getActiveRequests w group) (getLastRequestTime w group).
  apply Z.ltb_lt in Hfree. apply Z.leb_le in Hcool. rewrite Hfree, Hcool. reflexivity.
Qed.

(** X8. There is no way past a group at its bound, and no timeout: as long
    as no other call gives a slot back, the wait polls, and so do the
    dispatch of a signed-in item and the batch around it, however long
    they are given. *)
Theorem saturated_group_keeps_the_call_waiting
    (fuel : nat) (group : string) (c : Registry.GroupConfig)
    (generateFn : ItemEnv -> ServiceRequest -> M StandardResponse)
    (env : nat -> ItemEnv) (req : ServiceRequest) (sr : StreamGenerationRequest)
    (lag : nat -> N) (k : nat) (w : World) :
  Registry.getModelConfigByGroup group = Returned (Registry.JGroupConfig c) ->
  Registry.maxConcurrent c <= getActiveRequests w group ->
  checkAuth (env 0%nat) = Returned true ->
  waitForServiceAvailability fuel lag k group w = None
  /\ executeRequest fuel (env 0%nat) group (generateFn (env 0%nat) req) w = None
  /\ (1 <= orNumber (count req) DEFAULT_COUNT ->
      generateMultipleImages fuel env group req generateFn w = None)
  /\ (1 <= orNumber (streamCount sr) (orNumber (count req) DEFAULT_COUNT) ->
      generateMultipleImagesStream fuel env group req generateFn sr w = None).
Proof.
  intros Hcfg Hfull Hauth.
  assert (Hwait : forall lag' k' w',
             getActiveRequests w' group = getActiveRequests w group ->
             waitForServiceAvailability fuel lag' k' group w' = None).
  { intros lag' k' w' Hsame. apply waitForServiceAvailability_polls.
    right. exists c. split; [exact Hcfg | rewrite Hsame; exact Hfull]. }
  assert (Hexec : executeRequest fuel (env 0%nat) group (generateFn (env 0%nat) req) w = None).
  { unfold executeRequest. unfold bind at 1, awaitExternal at 1. rewrite Hauth. cbn [negb].
    unfold bind at 1. rewrite Hwait; reflexivity. }
  split; [apply Hwait; reflexivity|]. split; [exact Hexec|].
  split; intros Hn.
  - unfold generateMultipleImages.
    destruct (Z.to_nat (orNumber (count req) DEFAULT_COUNT)) as [|n] eqn:Hto; [lia|].
    cbn [forLoop]. unfold bind at 1. unfold bind at 1.
    unfold aggregateItem, tryCatch. unfold bind at 1. unfold bind at 1.
    rewrite Hexec. reflexivity.
  - unfold generateMultipleImagesStream.
    destruct (Z.to_nat (orNumber (streamCount sr) (orNumber (count req) DEFAULT_COUNT)))
      as [|n] eqn:Hto; [lia|].
    unfold tryCatch at 1. unfold bind at 1.
    cbn [forLoop]. unfold bind at 1.
    unfold streamItem at 1, tryCatch. unfold bind at 1. unfold bind at 1.
    rewrite Hexec. reflexivity.
Qed.

Lemma saturated_group_keeps_the_call_waiting_witness :
  waitForServiceAvailability 50 (fun _ => 0%N) 0 "openai" Example.saturated = None
  /\ executeRequest 50 (Example.allGood 0) "openai"
       (gpt4oRequestFn Example.keys (Example.allGood 0) (mkServiceRequest "a cat" None (Some 2)))
       Example.saturated = None
  /\ (1 <= orNumber (count (mkServiceRequest "a cat" None (Some 2))) DEFAULT_COUNT ->
      generateMultipleImages 50 Example.allGood "openai" (mkServiceRequest "a cat" None (Some 2))
        (gpt4oRequestFn Example.keys) Example.saturated = None)
  /\ (1 <= orNumber (streamCount Example.listening)
             (orNumber (count (mkServiceRequest "a cat" None (Some 2))) DEFAULT_COUNT) ->
      generateMultipleImagesStream 50 Example.allGood "openai"
        (mkServiceRequest "a cat" None (Some 2)) (gpt4oRequestFn Example.keys)
        Example.listening Example.saturated = None).
Proof.
  apply (saturated_group_keeps_the_call_waiting 50 "openai" Example.twoAtATime
           (gpt4oRequestFn Example.keys) Example.allGood
           (mkServiceRequest "a cat" None (Some 2)) Example.listening (fun _ => 0%N) 0
           Example.saturated).
  - reflexivity.
  - vm_compute. discriminate.
  - reflexivity.
Defined.

(** X9. With a free slot the wait does end: at once when the cooldown has
    run, and otherwise no earlier than the end of the cooldown and within
    one polling interval, and the lag of a timer, after it. *)
Theorem admission_wait_ends_within_a_poll_of_the_cooldown
    (group : string) (c : Registry.GroupConfig) (lag : nat -> N) (L : Z) (k : nat)
    (w : World) :
  Registry.getModelConfigByGroup group = Returned (Registry.JGroupConfig c) ->
  (forall j, Z.of_N (lag j) <= L) ->
  getActiveRequests w group < Registry.maxConcurrent c ->
  exists fuel0, forall fuel, (fuel0 <= fuel)%nat ->
    exists w',
      waitForServiceAvailability fuel lag k group w = Some (Returned tt, w')
      /\ (Registry.cooldownMs c <= now w - getLastRequestTime w group -> w' = w)
      /\ (now w - getLastRequestTime w group < Registry.cooldownMs c ->
          getLastRequestTime w group + Registry.cooldownMs c <= now w'
          /\ now w' < getLastRequestTime w group + Registry.cooldownMs c
                      + POLLING_INTERVAL + L).
Proof.
  intros Hcfg Hlag Hfree.
  exists (S (Z.to_nat (getLastRequestTime w group + Registry.cooldownMs c - now w))).
  intros fuel Hfuel.
  destruct (waitForServiceAvailability_returns group c Hcfg fuel lag k w Hfree)
    as (t & Ht1 & Ht2 & Hrun); [lia|].
  eexists. split; [exact Hrun|]. split.
  - intros Hcool. destruct fuel as [|fuel]; [lia|].
    rewrite (waitForServiceAvailability_at_once fuel lag k group c w Hcfg Hfree Hcool) in Hrun.
    injection Hrun as <-. reflexivity.
  - intros Hearly. cbn [now]. split; [lia|].
    destruct (waitForServiceAvailability_overshoot fuel lag k group c L w _ Hcfg Hlag Hrun)
      as [Hsame | Hbound]; cbn [now] in *; [lia | exact Hbound].
Qed.

Lemma admission_wait_ends_within_a_poll_of_the_cooldown_witness :
  exists fuel0, forall fuel, (fuel0 <= fuel)%nat ->
    exists w',
      waitForServiceAvailability fuel (fun _ => 3%N) 0 "openai"
        (mkWorld ∅ (<["openai" := 1000]> ∅) 1250 []) = Some (Returned tt, w')
      /\ (1250 - 1000 < 1000 -> 2000 <= now w' /\ now w' < 2000 + POLLING_INTERVAL + 3).
Proof.
  destruct (admission_wait_ends_within_a_poll_of_the_cooldown "openai" Example.twoAtATime
              (fun _ => 3%N) 3 0 (mkWorld ∅ (<["openai" := 1000]> ∅) 1250 []))
    as [fuel0 H].
  - reflexivity.
  - intros j. lia.
  - vm_compute. reflexivity.
  - exists fuel0. intros fuel Hfuel. destruct (H fuel Hfuel) as (w' & Hrun & _ & Hlate).
    exists w'. split; [exact Hrun | exact Hlate].
Defined.

Lemma initialWorld_reads (t : Z) (g : string) :
  getActiveRequests (initialWorld t) g = 0 /\ getLastRequestTime (initialWorld t) g = 0.
Proof.
  unfold getActiveRequests, getLastRequestTime, initialWorld.
  cbn [activeRequests lastRequestTime].
  unfold initializeCounters, Registry.getAllGroupConfigs, Registry.configs.
  cbn [fold_left fst snd].
  split; repeat (rewrite lookup_insert; case_decide; [reflexivity|]);
    rewrite lookup_empty; reflexivity.
Qed.

(** X10. A dispatcher that has just been built reads zero for the counter
    and the timestamp of every group, configured or not, and holds an
    entry exactly for the configured ones; the first call for a group is
    therefore let through without any wait. *)
Theorem fresh_dispatcher_lets_the_first_call_through
    (t : Z) (group : string) (c : Registry.GroupConfig) (fuel : nat) (lag : nat -> N)
    (k : nat) :
  Registry.getModelConfigByGroup group = Returned (Registry.JGroupConfig c) ->
  Registry.cooldownMs c <= t ->
  (forall g, getActiveRequests (initialWorld t) g = 0
             /\ getLastRequestTime (initialWorld t) g = 0)
  /\ (forall g, activeRequests (initialWorld t) !! g
                = (if Registry.ownProperty g Registry.configs is Some _ then Some 0 else None)
                /\ lastRequestTime (initialWorld t) !! g
                   = (if Registry.ownProperty g Registry.configs is Some _ then Some 0 else None))
  /\ waitForServiceAvailability (S fuel) lag k group (initialWorld t)
     = Some (Returned tt, initialWorld t).
Proof.
  intros Hcfg Ht. split; [apply initialWorld_reads|]. split.
  - intros g. unfold initialWorld. cbn [activeRequests lastRequestTime].
    unfold initializeCounters, Registry.getAllGroupConfigs, Registry.configs.
    cbn [fold_left fst snd Registry.ownProperty].
    destruct (decide (g = "doubao")) as [->|H1]; [split; reflexivity|].
    destruct (decide (g = "openai")) as [->|H2]; [split; reflexivity|].
    destruct (decide (g = "cogview")) as [->|H3]; [split; reflexivity|].
    destruct (decide (g = "tongyi")) as [->|H4]; [split; reflexivity|].
    destruct (decide (g = "jimeng")) as [->|H5]; [split; reflexivity|].
    rewrite !lookup_insert_ne, !lookup_empty by congruence.
    repeat match goal with
           | |- context [String.eqb ?a g] =>
               replace (String.eqb a g) with false
                 by (symmetry; apply String.eqb_neq; congruence)
           end.
    split; reflexivity.
  - apply (waitForServiceAvailability_at_once fuel lag k group c _ Hcfg).
    + rewrite (proj1 (initialWorld_reads t group)), (configured_values group c Hcfg).
      cbn. lia.
    + rewrite (proj2 (initialWorld_reads t group)). cbn [now initialWorld]. lia.
Qed.

Lemma fresh_dispatcher_lets_the_first_call_through_witness :
  waitForServiceAvailability 1 (fun _ => 0%N) 0 "doubao" (initialWorld Example.pageLoad)
  = Some (Returned tt, initialWorld Example.pageLoad).
Proof.
  apply (fresh_dispatcher_lets_the_first_call_through Example.pageLoad "doubao"
           Example.twoAtATime 0 (fun _ => 0%N) 0).
  - reflexivity.
  - vm_compute. discriminate.
Defined.

(** ** Calm schedules *)

(** X11. What the ledger does enforce.  On a schedule on which every
    authentication check settles in a turn of its own, a call updates the
    counters of its group only while the group has a free slot and its
    cooldown has run: at the step that resumes a call after its wait, the
    counter is below maxConcurrent and the last dispatch of the group lies
    at least cooldownMs back; the step stamps the group with the present
    instant, and afterwards the counter is still within the bound (one
    higher when the request function gets past its credentials). *)
Theorem calm_schedules_start_items_under_both_conditions
    (t : Z) (ls : list EventLoop.label) (s s' : EventLoop.State) (i : nat)
    (queue : list nat) (x : EventLoop.task) (c : Registry.GroupConfig) :
  EventLoop.runCalm ls (EventLoop.initial t) = Some s ->
  EventLoop.microtasks s = i :: queue ->
  EventLoop.tasks s !! i = Some x ->
  EventLoop.state x = EventLoop.Ready EventLoop.AfterWait ->
  Registry.getModelConfigByGroup (EventLoop.group x) = Returned (Registry.JGroupConfig c) ->
  EventLoop.step EventLoop.RunMicrotask s = Some s' ->
  EventLoop.getActive s (EventLoop.group x) < Registry.maxConcurrent c
  /\ Registry.cooldownMs c <= EventLoop.clock s - EventLoop.getLast s (EventLoop.group x)
  /\ EventLoop.getLast s' (EventLoop.group x) = EventLoop.clock s
  /\ EventLoop.clock s' = EventLoop.clock s
  /\ EventLoop.getActive s' (EventLoop.group x)
     = (if EventLoop.credentials x then EventLoop.getActive s (EventLoop.group x) + 1
        else EventLoop.getActive s (EventLoop.group x))
  /\ EventLoop.getActive s' (EventLoop.group x) <= Registry.maxConcurrent c.
Proof.
  intros Hrun Hqueue Hi Hstate Hcfg Hstep.
  pose proof (runCalm_orderly ls _ s (initial_orderly t) Hrun) as (_ & _ & K3 & _).
  destruct (K3 i x c Hi Hstate Hcfg) as [Hfree Hcool].
  split; [exact Hfree|]. split; [exact Hcool|].
  cbn [EventLoop.step] in Hstep. rewrite Hqueue, Hi in Hstep.
  destruct x as [g cred st]. cbn [EventLoop.state EventLoop.group EventLoop.credentials] in *.
  subst st. injection Hstep as <-.
  cbn [EventLoop.resume EventLoop.group EventLoop.credentials].
  destruct cred; cbn [EventLoop.getLast EventLoop.getActive EventLoop.lastRequestTime
                        EventLoop.activeRequests EventLoop.clock];
    unfold EventLoop.getLast, EventLoop.getActive;
    cbn [EventLoop.lastRequestTime EventLoop.activeRequests EventLoop.clock];
    rewrite ?lookup_insert_eq, ?orNumber_Some_zero;
    fold (EventLoop.getActive s g).
  - repeat split; lia.
  - rewrite ?lookup_insert_eq, ?orNumber_Some_zero. repeat split; lia.
Qed.

Lemma calm_schedules_start_items_under_both_conditions_witness :
  exists s s',
    EventLoop.runCalm Example.secondAboutToStart (EventLoop.initial Example.pageLoad) = Some s
    /\ EventLoop.step EventLoop.RunMicrotask s = Some s'
    /\ 1000 <= EventLoop.clock s - EventLoop.getLast s "openai"
    /\ EventLoop.getActive s' "openai" <= 2.
Proof.
  let v := eval vm_compute in
             (EventLoop.runCalm Example.secondAboutToStart
                (EventLoop.initial Example.pageLoad)) in
  match v with
  | Some ?s0 =>
      let v' := eval vm_compute in (EventLoop.step EventLoop.RunMicrotask s0) in
      match v' with
      | Some ?s1 =>
          exists s0, s1;
          destruct (calm_schedules_start_items_under_both_conditions Example.pageLoad
                      Example.secondAboutToStart s0 s1 1%nat []
                      (EventLoop.mkTask "openai" true (EventLoop.Ready EventLoop.AfterWait))
                      Example.twoAtATime)
            as (_ & Hcool & _ & _ & _ & Hbound);
          [ vm_compute; reflexivity | reflexivity | reflexivity | reflexivity | reflexivity
          | vm_compute; reflexivity | ]
      end
  end.
  split; [vm_compute; reflexivity|]. split; [vm_compute; reflexivity|].
  split; [exact Hcool | exact Hbound].
Defined.


(** ** Entry points *)

Lemma getModelById_None (modelId : string) :
  (forall m, In m Registry.models -> Registry.id m <> modelId) ->
  Registry.getModelById modelId = None.
Proof.
  intros Hnone. unfold Registry.getModelById.
  destruct (List.find _ Registry.models) as [m|] eqn:Hfind; [|reflexivity].
  apply List.find_some in Hfind as [Hin Heq]. apply String.eqb_eq in Heq.
  exfalso. exact (Hnone m Hin Heq).
Qed.

(** X12. An id that names no model of the catalog is turned away before
    anything is dispatched: the aggregate entry point rejects with the
    message that names the id and leaves the world as it was; the
    streaming entry point returns after a single call of onError with that
    message. *)
Theorem unknown_model_is_refused_before_any_dispatch
    (fuel : nat) (env : nat -> ItemEnv) (modelId prompt : string) (count : option Z)
    (modelConfig : option ModelConfig) (sr : StreamGenerationRequest) (w : World) :
  (forall m, In m Registry.models -> Registry.id m <> modelId) ->
  generateImage fuel env modelId prompt count modelConfig w
  = Some (Thrown (ErrorObj ("模型不存在: " +:+ modelId)), w)
  /\ generateImageStream fuel env modelId prompt count sr modelConfig w
     = Some (Returned tt,
             mkWorld (activeRequests w) (lastRequestTime w) (now w)
               (trace w ++
                if onError sr then [EvError (ErrorObj ("模型不存在: " +:+ modelId))] else [])).
Proof.
  intros Hnone. apply getModelById_None in Hnone.
  unfold generateImage, generateImageStream, bind, liftOutcome, Registry.getModelStatus.
  rewrite Hnone. cbn. split; [reflexivity|].
  unfold callOnError, emit, ret. destruct (onError sr); [reflexivity|].
  rewrite app_nil_r. destruct w; reflexivity.
Qed.

Lemma unknown_model_is_refused_before_any_dispatch_witness :
  generateImage 0 Example.allGood "dall-e-3" "a cat" (Some 2) Example.keys (initialWorld 0)
  = Some (Thrown (ErrorObj ("模型不存在: " +:+ "dall-e-3")), initialWorld 0).
Proof.
  apply (unknown_model_is_refused_before_any_dispatch 0 Example.allGood "dall-e-3" "a cat"
           (Some 2) Example.keys Example.listening (initialWorld 0)).
  intros m Hin. unfold Registry.models in Hin. cbn [In] in Hin.
  repeat (destruct Hin as [<- | Hin]; [discriminate|]). destruct Hin.
Defined.

(** X13. Re-hosting never changes whether a result counts as a success, nor
    its error, its text or its stamp, and it leaves the ledger alone; a
    result that failed, or that carries no image address (a text answer),
    comes back as it went in, with no call to storage and no time spent. *)
Theorem rehosting_keeps_the_verdict_and_skips_results_without_image
    (e : ItemEnv) (r : StandardResponse) (w : World) :
  exists final w',
    uploadToStorageIfNeeded e r w = Some (Returned final, w')
    /\ success final = success r
    /\ error final = error r
    /\ text final = text r
    /\ createdAt final = createdAt r
    /\ activeRequests w' = activeRequests w
    /\ lastRequestTime w' = lastRequestTime w
    /\ (success r = false \/ truthy (imageUrl r) = false -> final = r /\ w' = w).
Proof.
  rewrite uploadToStorageIfNeeded_run. eexists _, _. split; [reflexivity|].
  unfold rehosted, needsUpload.
  destruct (success r && truthy (imageUrl r)) eqn:Hneeds.
  - destruct (uploadResult e) as [u|x];
      [destruct (Storage.success u && truthy (Storage.url u))|];
      cbn; do 6 (split; [reflexivity|]);
      intros [H | H]; rewrite H in Hneeds; try discriminate Hneeds;
      rewrite andb_false_r in Hneeds; discriminate Hneeds.
  - do 6 (split; [reflexivity|]). intros _. split; reflexivity.
Qed.

Section Calls.

Variable b : Behaviour.
Variable env : nat -> ItemEnv.
Variable req : ServiceRequest.
Variable call : event.
Hypothesis one_call : forall e, calls b e req = [call].
Hypothesis call_is_adapter : isAdapterCall call = true.
Hypothesis returns_adapter : forall e, settles b e req = adapterResult e.
Hypothesis signed_in : forall i, checkAuth (env i) = Returned true.

Lemma adapter_calls_of_a_batch (first n : nat) :
  List.filter isAdapterCall (batchCalls b env req first n) = repeat call n.
Proof.
  revert first. induction n as [|n IH]; intros first; [reflexivity|].
  unfold batchCalls in *. cbn [seq List.map concat]. rewrite List.filter_app, IH.
  unfold itemCalls. rewrite signed_in, one_call. cbn [app List.filter].
  rewrite call_is_adapter.
  destruct (settles b (env first) req) as [r|x]; [destruct (needsUpload r)|];
    reflexivity.
Qed.

Lemma uploads_of_a_batch (first n : nat) :
  length (List.filter isUpload (batchCalls b env req first n)) =
  length (List.filter (fun i => adapterImage (env i)) (seq first n)).
Proof.
  revert first. induction n as [|n IH]; intros first; [reflexivity|].
  unfold batchCalls in *. cbn [seq List.map concat].
  rewrite List.filter_app, length_app, IH.
  unfold itemCalls, adapterImage. rewrite signed_in, one_call, returns_adapter.
  cbn [app List.filter].
  assert (Hnot : isUpload call = false) by (destruct call; try discriminate; reflexivity).
  rewrite Hnot.
  destruct (adapterResult (env first)) as [r|x]; [destruct (needsUpload r)|];
    reflexivity.
Qed.

End Calls.

Lemma generateImage_openai (fuel : nat) (env : nat -> ItemEnv) (modelId prompt : string)
    (count : option Z) (modelConfig : option ModelConfig) (m : Registry.ImageModel) (w : World) :
  Registry.getModelById modelId = Some m ->
  Registry.group m = "openai" ->
  generateImage fuel env modelId prompt count modelConfig w
  = generateMultipleImages fuel env "openai" (mkServiceRequest prompt None count)
      (gpt4oRequestFn modelConfig) w.
Proof.
  intros Hm Hg.
  unfold generateImage, bind, liftOutcome, Registry.getModelStatus.
  rewrite Hm, Hg. cbn. rewrite Hg. reflexivity.
Qed.

Lemma generateImage_doubao (fuel : nat) (env : nat -> ItemEnv) (modelId prompt : string)
    (count : option Z) (modelConfig : option ModelConfig) (m : Registry.ImageModel) (w : World) :
  Registry.getModelById modelId = Some m ->
  Registry.group m = "doubao" ->
  generateImage fuel env modelId prompt count modelConfig w
  = generateMultipleImages fuel env "doubao" (mkServiceRequest prompt (Some modelId) count)
      (doubaoRequestFn modelConfig) w.
Proof.
  intros Hm Hg.
  unfold generateImage, bind, liftOutcome, Registry.getModelStatus.
  rewrite Hm, Hg. cbn. rewrite Hg. reflexivity.
Qed.

(** X14. For a model of the groups openai and doubao, with the credentials
    in place and the caller signed in, the aggregate entry point calls the
    adapter of the group exactly once per requested image, never again
    after a failure, each time with the prompt (and, for doubao, the id of
    the model); storage is called once for each image address an adapter
    returned, and for nothing else. *)
Theorem each_item_calls_its_adapter_once
    (env : nat -> ItemEnv) (modelId prompt : string) (count : option Z)
    (modelConfig : option ModelConfig) (m : Registry.ImageModel) (w : World) :
  Registry.getModelById modelId = Some m ->
  (forall i, checkAuth (env i) = Returned true) ->
  let n := Z.to_nat (orNumber count DEFAULT_COUNT) in
  let called (adapterCall : event) : Prop :=
    exists fuel0, forall fuel, (fuel0 <= fuel)%nat ->
      exists response w' evs,
        generateImage fuel env modelId prompt count modelConfig w
        = Some (Returned response, w')
        /\ trace w' = trace w ++ evs
        /\ List.filter isAdapterCall evs = repeat adapterCall n
        /\ Z.of_nat (length (List.filter isUpload evs)) = countItems adapterImage env n in
  (Registry.group m = "openai" ->
   truthy (configField api_key modelConfig) = true ->
   getActiveRequests w "openai" < 2 ->
   called (EvAdapter "openai" prompt None))
  /\ (Registry.group m = "doubao" ->
      truthy (configField api_key modelConfig) = true ->
      truthy (configField api_secret modelConfig) = true ->
      getActiveRequests w "doubao" < 2 ->
      called (EvAdapter "doubao" prompt (Some modelId))).
Proof.
  intros Hm Hauth n called. split.
  - intros Hg Hkey Hfree.
    destruct (generateMultipleImages_described "openai" Example.twoAtATime configured_openai
                (gpt4oRequestFn modelConfig) (gpt4oBehaviour modelConfig)
                (gpt4oRequestFn_behaves modelConfig) env
                (mkServiceRequest prompt None count) w Hfree) as [fuel0 Hdesc].
    exists fuel0. intros fuel Hfuel.
    destruct (Hdesc fuel Hfuel) as (ts & w' & _ & Hrun & _ & _ & _ & Htrace & _).
    cbn [Dispatcher.count] in Hrun, Htrace. fold n in Hrun, Htrace.
    eexists _, w', _. split; [rewrite (generateImage_openai _ _ _ _ _ _ m w Hm Hg); exact Hrun|].
    split; [exact Htrace|].
    assert (Hcalls : forall e, calls (gpt4oBehaviour modelConfig) e
                                 (mkServiceRequest prompt None count)
                               = [EvAdapter "openai" prompt None]).
    { intros e. unfold gpt4oBehaviour. rewrite Hkey. reflexivity. }
    assert (Hsettles : forall e, settles (gpt4oBehaviour modelConfig) e
                                   (mkServiceRequest prompt None count)
                                 = adapterResult e).
    { intros e. unfold gpt4oBehaviour. rewrite Hkey. reflexivity. }
    split.
    + apply adapter_calls_of_a_batch; [exact Hcalls | reflexivity | exact Hauth].
    + unfold countItems. f_equal.
      apply (uploads_of_a_batch _ _ _ _ Hcalls eq_refl Hsettles Hauth).
  - intros Hg Hkey Hsecret Hfree.
    destruct (generateMultipleImages_described "doubao" Example.twoAtATime configured_doubao
                (doubaoRequestFn modelConfig) (doubaoBehaviour modelConfig)
                (doubaoRequestFn_behaves modelConfig) env
                (mkServiceRequest prompt (Some modelId) count) w Hfree) as [fuel0 Hdesc].
    exists fuel0. intros fuel Hfuel.
    destruct (Hdesc fuel Hfuel) as (ts & w' & _ & Hrun & _ & _ & _ & Htrace & _).
    cbn [Dispatcher.count] in Hrun, Htrace. fold n in Hrun, Htrace.
    eexists _, w', _. split; [rewrite (generateImage_doubao _ _ _ _ _ _ m w Hm Hg); exact Hrun|].
    split; [exact Htrace|].
    assert (Hcalls : forall e, calls (doubaoBehaviour modelConfig) e
                                 (mkServiceRequest prompt (Some modelId) count)
                               = [EvAdapter "doubao" prompt (Some modelId)]).
    { intros e. unfold doubaoBehaviour. rewrite Hkey, Hsecret. reflexivity. }
    assert (Hsettles : forall e, settles (doubaoBehaviour modelConfig) e
                                   (mkServiceRequest prompt (Some modelId) count)
                                 = adapterResult e).
    { intros e. unfold doubaoBehaviour. rewrite Hkey, Hsecret. reflexivity. }
    split.
    + apply adapter_calls_of_a_batch; [exact Hcalls | reflexivity | exact Hauth].
    + unfold countItems. f_equal.
      apply (uploads_of_a_batch _ _ _ _ Hcalls eq_refl Hsettles Hauth).
Qed.

Lemma each_item_calls_its_adapter_once_witness :
  exists fuel0, forall fuel, (fuel0 <= fuel)%nat ->
    exists response w' evs,
      generateImage fuel Example.allGood "high_aes_general_v21_L" "a cat" (Some 2)
        Example.keys (initialWorld Example.pageLoad) = Some (Returned response, w')
      /\ trace w' = trace (initialWorld Example.pageLoad) ++ evs
      /\ List.filter isAdapterCall evs
         = repeat (EvAdapter "doubao" "a cat" (Some "high_aes_general_v21_L")) 2.
Proof.
  destruct (each_item_calls_its_adapter_once Example.allGood "high_aes_general_v21_L" "a cat"
              (Some 2) Example.keys
              (Registry.mkImageModel "high_aes_general_v21_L" "豆包通用2.1" "豆包" "doubao")
              (initialWorld Example.pageLoad))
    as [_ Hdoubao].
  - reflexivity.
  - intros i. reflexivity.
  - destruct Hdoubao as [fuel0 H].
    + reflexivity.
    + reflexivity.
    + reflexivity.
    + vm_compute. reflexivity.
    + exists fuel0. intros fuel Hfuel.
      destruct (H fuel Hfuel) as (response & w' & evs & Hrun & Htrace & Hcalls & _).
      exists response, w', evs. auto.
Defined.

(** ** The catalog *)

Lemma find_first_of_distinct {A : Type} (key : A -> string) (l : list A) (m : A) :
  NoDup (List.map key l) -> In m l ->
  List.find (fun x => String.eqb (key x) (key m)) l = Some m.
Proof.
  induction l as [|x l IH]; intros Hnd Hin; [destruct Hin|].
  cbn [List.map] in Hnd. apply NoDup_cons in Hnd as [Hx Hnd]. cbn [List.find].
  destruct Hin as [-> | Hin]; [rewrite String.eqb_refl; reflexivity|].
  destruct (String.eqb_spec (key x) (key m)) as [Heq|_]; [|exact (IH Hnd Hin)].
  exfalso. apply Hx. rewrite Heq. apply list_elem_of_In, List.in_map. exact Hin.
Qed.

Lemma models_ids_distinct : NoDup (List.map Registry.id Registry.models).
Proof. apply (bool_decide_unpack _). vm_compute. reflexivity. Qed.

(** Every model of the catalog belongs to a group with a configuration. *)
Lemma models_groups_configured (m : Registry.ImageModel) :
  In m Registry.models ->
  Registry.getModelConfigByGroup (Registry.group m)
  = Returned (Registry.JGroupConfig (Registry.mkGroupConfig 2 1000)).
Proof.
  intros Hin. unfold Registry.models in Hin. cbn [In] in Hin.
  repeat (destruct Hin as [<- | Hin]; [reflexivity|]). destruct Hin.
Qed.

(** X15. A model of the catalog is found under its id, and it is the only
    one: the lookup by the id of a model returns that model, and whatever a
    lookup returns is a model of the catalog with the id asked for. *)
Theorem getModelById_finds_each_model_under_its_id (m : Registry.ImageModel) :
  In m Registry.models ->
  Registry.getModelById (Registry.id m) = Some m
  /\ forall modelId m', Registry.getModelById modelId = Some m' ->
       In m' Registry.models
       /\ Registry.id m' = modelId
       /\ (modelId = Registry.id m -> m' = m).
Proof.
  intros Hin.
  assert (Hfound : Registry.getModelById (Registry.id m) = Some m).
  { apply (find_first_of_distinct Registry.id _ _ models_ids_distinct Hin). }
  split; [exact Hfound|].
  intros modelId m' Hfind. pose proof Hfind as Hfind'.
  unfold Registry.getModelById in Hfind'.
  apply List.find_some in Hfind' as [Hin' Heq]. apply String.eqb_eq in Heq.
  split; [exact Hin'|]. split; [exact Heq|].
  intros ->. congruence.
Qed.

Lemma getModelById_finds_each_model_under_its_id_witness :
  Registry.getModelById "gpt_4o"
  = Some (Registry.mkImageModel "gpt_4o" "GPT-4o-Image" "OpenAI" "openai").
Proof.
  apply (getModelById_finds_each_model_under_its_id
           (Registry.mkImageModel "gpt_4o" "GPT-4o-Image" "OpenAI" "openai")).
  unfold Registry.models. cbn [In]. do 6 right. left. reflexivity.
Defined.

(** X16. The two availability checks agree, and with this catalog a model
    is unavailable only when its id is unknown: getModelStatus never
    raises; it is available exactly for the ids of the catalog, and then
    it carries the model, the configuration of its group (with room for at
    least one request) and no error, and isModelAvailable and
    isGroupAvailable say yes; otherwise it carries the message naming the
    id, and isModelAvailable says no. *)
Theorem model_status_agrees_with_isModelAvailable (modelId : string) :
  exists st,
    Registry.getModelStatus modelId = Returned st
    /\ Registry.isModelAvailable modelId = Returned (Registry.available st)
    /\ (Registry.available st = true <->
        exists m, In m Registry.models /\ Registry.id m = modelId)
    /\ (Registry.available st = true ->
        exists m c,
          Registry.model st = Some m
          /\ Registry.id m = modelId
          /\ Registry.groupConfig st = Some (Registry.JGroupConfig c)
          /\ Registry.getModelConfig m = Returned (Registry.JGroupConfig c)
          /\ 1 <= Registry.maxConcurrent c
          /\ 0 <= Registry.cooldownMs c
          /\ Registry.error st = None
          /\ Registry.isGroupAvailable (Registry.group m) = Returned true)
    /\ (Registry.available st = false ->
        Registry.model st = None
        /\ Registry.groupConfig st = None
        /\ Registry.error st = Some ("模型不存在: " +:+ modelId)).
Proof.
  unfold Registry.getModelStatus, Registry.isModelAvailable, Registry.isGroupAvailable,
    Registry.getModelConfig.
  destruct (Registry.getModelById modelId) as [m|] eqn:Hfind.
  - pose proof Hfind as Hfind'. unfold Registry.getModelById in Hfind'.
    apply List.find_some in Hfind' as [Hin Heq]. apply String.eqb_eq in Heq.
    pose proof (models_groups_configured m Hin) as Hcfg. rewrite Hcfg.
    cbn [Registry.falsyConfig negb]. eexists. split; [reflexivity|].
    cbn [Registry.available Registry.model Registry.groupConfig Registry.error].
    split; [reflexivity|]. split; [split; [intros _; exists m; auto | reflexivity]|].
    split; [|discriminate].
    intros _. exists m, (Registry.mkGroupConfig 2 1000).
    split; [reflexivity|]. split; [exact Heq|]. split; [reflexivity|].
    split; [exact Hcfg|]. cbn [Registry.maxConcurrent Registry.cooldownMs].
    split; [lia|]. split; [lia|]. split; [reflexivity|]. rewrite Hcfg. reflexivity.
  - eexists. split; [reflexivity|].
    cbn [Registry.available Registry.model Registry.groupConfig Registry.error].
    split; [reflexivity|]. split.
    + split; [discriminate|]. intros (m & Hin & Heq). exfalso.
      unfold Registry.getModelById in Hfind.
      pose proof (List.find_none _ _ Hfind m Hin) as Hno. cbn in Hno.
      rewrite Heq, String.eqb_refl in Hno. discriminate Hno.
    + split; [discriminate|]. intros _. repeat split.
Qed.

(** *** Categories *)

Lemma setAdd_fold_In (xs s : list string) (x : string) :
  In x (fold_left Registry.setAdd xs s) <-> In x s \/ In x xs.
Proof.
  revert s. induction xs as [|y xs IH]; intros s; cbn [fold_left].
  - cbn. tauto.
  - rewrite IH. unfold Registry.setAdd.
    destruct (existsb (String.eqb y) s) eqn:Hex.
    + apply existsb_exists in Hex as (z & Hz & Heq). apply String.eqb_eq in Heq. subst z.
      cbn. split; [tauto|]. intros [H | [<- | H]]; auto.
    + rewrite List.in_app_iff. cbn. tauto.
Qed.

Lemma setAdd_fold_NoDup (xs s : list string) :
  NoDup s -> NoDup (fold_left Registry.setAdd xs s).
Proof.
  revert s. induction xs as [|y xs IH]; intros s Hnd; cbn [fold_left]; [exact Hnd|].
  apply IH. unfold Registry.setAdd.
  destruct (existsb (String.eqb y) s) eqn:Hex; [exact Hnd|].
  apply NoDup_app. split; [exact Hnd|]. split; [|apply NoDup_singleton].
  intros z Hz Hz'. apply list_elem_of_singleton in Hz'. subst z.
  apply list_elem_of_In in Hz.
  assert (Hyes : existsb (String.eqb y) s = true).
  { apply existsb_exists. exists y. split; [exact Hz | apply String.eqb_refl]. }
  congruence.
Qed.

Lemma list_sum_cons (a : nat) (l : list nat) : list_sum (a :: l) = (a + list_sum l)%nat.
Proof. reflexivity. Qed.

Lemma one_among_distinct (cs : list string) (x : string) :
  NoDup cs -> In x cs ->
  list_sum (List.map (fun c => if String.eqb x c then 1%nat else 0%nat) cs) = 1%nat.
Proof.
  induction cs as [|c cs IH]; intros Hnd Hin; [destruct Hin|].
  apply NoDup_cons in Hnd as [Hc Hnd]. cbn [List.map]. rewrite list_sum_cons.
  destruct (String.eqb_spec x c) as [Heq|Hne].
  - subst c.
    assert (Hzero : list_sum (List.map (fun c' => if String.eqb x c' then 1%nat else 0%nat) cs)
                    = 0%nat).
    { clear IH Hin Hnd. induction cs as [|c' cs IH]; [reflexivity|].
      cbn [List.map]. rewrite list_sum_cons.
      destruct (String.eqb_spec x c') as [Heq|_].
      - exfalso. apply Hc. subst c'. left.
      - rewrite IH; [reflexivity|]. intros H. apply Hc. right. exact H. }
    rewrite Hzero. reflexivity.
  - destruct Hin as [Heq | Hin]; [congruence|]. rewrite (IH Hnd Hin). reflexivity.
Qed.

Lemma classes_cover {A : Type} (key : A -> string) (l : list A) (cs : list string) :
  NoDup cs ->
  (forall m, In m l -> In (key m) cs) ->
  list_sum (List.map (fun c => length (List.filter (fun m => String.eqb (key m) c) l)) cs)
  = length l.
Proof.
  intros Hnd. induction l as [|m l IH]; intros Hall.
  - cbn [List.filter length]. clear Hnd Hall.
    induction cs as [|c cs IHcs]; [reflexivity|].
    cbn [List.map]. rewrite list_sum_cons, IHcs. reflexivity.
  - assert (Hsplit : forall cs',
      list_sum (List.map (fun c => length (List.filter (fun m' => String.eqb (key m') c) (m :: l)))
                  cs')
      = (list_sum (List.map (fun c => if String.eqb (key m) c then 1%nat else 0%nat) cs')
         + list_sum (List.map (fun c => length (List.filter (fun m' => String.eqb (key m') c) l))
                       cs'))%nat).
    { intros cs'. induction cs' as [|c cs' IHcs]; [reflexivity|].
      cbn [List.map]. rewrite !list_sum_cons, IHcs. cbn [List.filter].
      destruct (String.eqb (key m) c); cbn [length]; lia. }
    rewrite Hsplit, IH, (one_among_distinct cs (key m) Hnd).
    + reflexivity.
    + apply Hall. left. reflexivity.
    + intros m' Hm'. apply Hall. right. exact Hm'.
Qed.

Lemma filter_sublist {A : Type} (f : A -> bool) (l : list A) : sublist (List.filter f l) l.
Proof.
  induction l as [|x l IH]; [constructor|].
  cbn [List.filter]. destruct (f x); constructor; exact IH.
Qed.

(** X17. The categories partition the catalog: getAllCategories lists each
    category once; a name is listed exactly when some model has it, which
    is when getModelsByCategory returns something for it;
    getModelsByCategory returns the models of the catalog that carry the
    category, in the order of the catalog; and over all categories these
    lists hold each model once. *)
Theorem categories_partition_the_catalog :
  NoDup Registry.getAllCategories
  /\ (forall c, In c Registry.getAllCategories <-> Registry.getModelsByCategory c <> [])
  /\ (forall c m, In m (Registry.getModelsByCategory c)
                  <-> In m Registry.getAllModels /\ Registry.category m = c)
  /\ (forall c, sublist (Registry.getModelsByCategory c) Registry.getAllModels)
  /\ list_sum (List.map (fun c => length (Registry.getModelsByCategory c))
                 Registry.getAllCategories)
     = length Registry.getAllModels.
Proof.
  assert (Hmem : forall c m, In m (Registry.getModelsByCategory c)
                             <-> In m Registry.models /\ Registry.category m = c).
  { intros c m. unfold Registry.getModelsByCategory. rewrite List.filter_In.
    rewrite String.eqb_eq. reflexivity. }
  assert (Hlisted : forall c, In c Registry.getAllCategories
                              <-> exists m, In m Registry.models /\ Registry.category m = c).
  { intros c. unfold Registry.getAllCategories, Registry.newSet.
    rewrite setAdd_fold_In, List.in_map_iff. cbn [In]. split.
    - intros [[] | (m & Heq & Hin)]. exists m. auto.
    - intros (m & Hin & Heq). right. exists m. auto. }
  split; [apply setAdd_fold_NoDup, NoDup_nil_2|].
  split.
  { intros c. rewrite Hlisted. split.
    - intros (m & Hin & Heq) Hempty.
      assert (Hm : In m (Registry.getModelsByCategory c)) by (apply Hmem; auto).
      rewrite Hempty in Hm. destruct Hm.
    - intros Hne. destruct (Registry.getModelsByCategory c) as [|m ms] eqn:Hms;
        [contradiction|].
      exists m. apply Hmem. rewrite Hms. left. reflexivity. }
  split; [exact Hmem|].
  split; [intros c; apply filter_sublist|].
  apply classes_cover; [apply setAdd_fold_NoDup, NoDup_nil_2|].
  intros m Hin. apply Hlisted. exists m. auto.
Qed.

(** ** What the entry points reject *)

Lemma generateMultipleImages_returns (fuel : nat) (env : nat -> ItemEnv) (group : string)
    (req : ServiceRequest) (generateFn : ItemEnv -> ServiceRequest -> M StandardResponse)
    (w w' : World) (x : thrown) :
  generateMultipleImages fuel env group req generateFn w <> Some (Thrown x, w').
Proof.
  unfold generateMultipleImages, bind.
  destruct (forLoop _ _ _ _ w) as [[[acc|y] w1]|] eqn:Hloop; [discriminate | | discriminate].
  exfalso.
  exact (forLoop_returns _ _ _ _ _ _ _
           (fun j a w1 w2 y => aggregateItem_returns fuel env group req generateFn j a w1 w2 y)
           Hloop).
Qed.

Lemma generateMultipleImagesStream_returns (fuel : nat) (env : nat -> ItemEnv) (group : string)
    (req : ServiceRequest) (generateFn : ItemEnv -> ServiceRequest -> M StandardResponse)
    (sr : StreamGenerationRequest) (w w' : World) (x : thrown) :
  generateMultipleImagesStream fuel env group req generateFn sr w <> Some (Thrown x, w').
Proof.
  unfold generateMultipleImagesStream, tryCatch.
  match goal with |- context [match ?m w with _ => _ end] =>
    destruct (m w) as [[[u|y] w1]|] end; [discriminate | | discriminate].
  unfold callOnError, emit, ret. destruct (onError sr); discriminate.
Qed.

Lemma models_groups (m : Registry.ImageModel) :
  In m Registry.models ->
  Registry.group m = "openai" \/ Registry.group m = "doubao" \/ Registry.group m = "cogview"
  \/ Registry.group m = "tongyi" \/ Registry.group m = "jimeng".
Proof.
  intros Hin. unfold Registry.models in Hin. cbn [In] in Hin.
  repeat (destruct Hin as [<- | Hin]; [cbn; tauto|]). destruct Hin.
Qed.

(** X18. The entry points reject only before dispatch.  When the aggregate
    entry point rejects, the world is the one it started from and the
    error is one of two: the id names no model of the catalog, or the
    group of the model is one of cogview, tongyi and jimeng; the error for
    a group without any branch is never raised with this catalog, and
    nothing that happens to an item makes the call reject.  The streaming
    entry point, given callbacks that return normally, does not reject at
    all: here onProgress, onComplete and onError are calls that return
    (see [callOnError]); in the source an onError that throws (lines 260,
    349, 381-395) would make the promise reject with what it threw, and
    that case is outside this statement. *)
Theorem entry_points_reject_only_before_dispatch
    (fuel : nat) (env : nat -> ItemEnv) (modelId prompt : string) (count : option Z)
    (modelConfig : option ModelConfig) (sr : StreamGenerationRequest) (w : World) :
  (forall x w',
      generateImage fuel env modelId prompt count modelConfig w = Some (Thrown x, w') ->
      w' = w
      /\ (((forall m, In m Registry.models -> Registry.id m <> modelId)
           /\ x = ErrorObj ("模型不存在: " +:+ modelId))
          \/ (exists m,
                Registry.getModelById modelId = Some m
                /\ (Registry.group m = "cogview" \/ Registry.group m = "tongyi"
                    \/ Registry.group m = "jimeng")
                /\ x = ErrorObj (unsupportedCategory (Registry.category m)))))
  /\ (forall x w',
        generateImageStream fuel env modelId prompt count sr modelConfig w
        <> Some (Thrown x, w')).
Proof.
  unfold generateImage, generateImageStream, bind, liftOutcome, Registry.getModelStatus.
  destruct (Registry.getModelById modelId) as [m|] eqn:Hfind.
  - pose proof Hfind as Hfind'. unfold Registry.getModelById in Hfind'.
    apply List.find_some in Hfind' as [Hin _].
    rewrite (models_groups_configured m Hin).
    cbn [Registry.falsyConfig Registry.available Registry.model negb].
    unfold generateImageWithGPT4o, generateImageWithDoubao, generateImageWithGPT4oStream,
      generateImageWithDoubaoStream.
    destruct (models_groups m Hin) as [Hg | [Hg | [Hg | [Hg | Hg]]]]; rewrite Hg;
      cbn [String.eqb Ascii.eqb Bool.eqb].
    + split; intros x w' Hrun; exfalso.
      * exact (generateMultipleImages_returns _ _ _ _ _ _ _ _ Hrun).
      * exact (generateMultipleImagesStream_returns _ _ _ _ _ _ _ _ _ Hrun).
    + split; intros x w' Hrun; exfalso.
      * exact (generateMultipleImages_returns _ _ _ _ _ _ _ _ Hrun).
      * exact (generateMultipleImagesStream_returns _ _ _ _ _ _ _ _ _ Hrun).
    + split.
      * intros x w' [= <- <-]. split; [reflexivity|]. right. exists m. auto.
      * intros x w'. unfold callOnError, emit, ret. destruct (onError sr); discriminate.
    + split.
      * intros x w' [= <- <-]. split; [reflexivity|]. right. exists m. auto.
      * intros x w'. unfold callOnError, emit, ret. destruct (onError sr); discriminate.
    + split.
      * intros x w' [= <- <-]. split; [reflexivity|]. right. exists m. auto.
      * intros x w'. unfold callOnError, emit, ret. destruct (onError sr); discriminate.
  - cbn. split.
    + intros x w' [= <- <-]. split; [reflexivity|]. left. split; [|reflexivity].
      intros m Hin Heq. unfold Registry.getModelById in Hfind.
      pose proof (List.find_none _ _ Hfind m Hin) as Hno. cbn in Hno.
      rewrite Heq, String.eqb_refl in Hno. discriminate Hno.
    + intros x w'. unfold callOnError, emit, ret. destruct (onError sr); discriminate.
Qed.

(** ** The storage service *)

Lemma uploadImage_described (o : Storage.Outside) (config : Storage.StorageConfig)
    (file : Storage.Blob) (fileName : option string) (made : list Storage.call) :
  exists r calls,
    Storage.uploadImage o config file fileName made = (Returned r, made ++ calls)
    /\ (Storage.success r = true ->
        Storage.supabase o = true
        /\ Storage.validateFileType config (Storage.type file) = true
        /\ Storage.size file <= Storage.maxFileSize config
        /\ exists name,
             name = (if truthy fileName then orEmpty fileName
                     else Storage.generateFileName o "image" (Storage.type file))
             /\ calls = [Storage.CallUpload (Storage.bucketName config) name file;
                         Storage.CallPublicUrl (Storage.bucketName config) name]
             /\ Storage.upload o name file = Returned None
             /\ Storage.url r = Some (Storage.publicUrl o name)
             /\ Storage.error r = None)
    /\ (Storage.success r = false ->
        Storage.url r = None /\ exists message, Storage.error r = Some message)
    /\ (Storage.supabase o = false
        \/ Storage.validateFileType config (Storage.type file) = false
        \/ Storage.maxFileSize config < Storage.size file ->
        Storage.success r = false /\ calls = []).
Proof.
  unfold Storage.uploadImage.
  destruct (Storage.supabase o) eqn:Hclient; cbn [negb].
  2: { exists (Storage.failure "Supabase client is not initialized"), [].
       rewrite app_nil_r. split; [reflexivity|]. cbn.
       split; [discriminate|]. split; [intros _; split; [reflexivity | eauto]|].
       intros _. split; reflexivity. }
  unfold Storage.tryCatch.
  destruct (Storage.validateFileType config (Storage.type file)) eqn:Htype; cbn [negb].
  2: { eexists _, []. rewrite app_nil_r. split; [reflexivity|]. cbn.
       split; [discriminate|]. split; [intros _; split; [reflexivity | eauto]|].
       intros _. split; reflexivity. }
  unfold Storage.validateFileSize.
  destruct (Z.leb_spec (Storage.size file) (Storage.maxFileSize config)) as [Hsize|Hsize];
    cbn [negb].
  2: { eexists _, []. rewrite app_nil_r. split; [reflexivity|]. cbn.
       split; [discriminate|]. split; [intros _; split; [reflexivity | eauto]|].
       intros _. split; reflexivity. }
  set (name := if truthy fileName then orEmpty fileName
               else Storage.generateFileName o "image" (Storage.type file)).
  unfold Storage.bind at 1, Storage.perform at 1.
  destruct (Storage.upload o name file) as [[e|]|x] eqn:Hupload.
  - eexists _, [_]. split; [reflexivity|]. cbn.
    split; [discriminate|]. split; [intros _; split; [reflexivity | eauto]|].
    intros [H | [H | H]]; [discriminate H | discriminate H | lia].
  - unfold Storage.bind, Storage.getPublicUrl, Storage.perform, Storage.ret.
    rewrite Hclient. cbn [negb].
    eexists _, [_; _]. split; [rewrite <- app_assoc; reflexivity|]. cbn.
    split.
    + intros _. repeat (split; [assumption || reflexivity|]).
      exists name. repeat split; assumption || reflexivity.
    + split; [discriminate|].
      intros [H | [H | H]]; [discriminate H | discriminate H | lia].
  - eexists _, [_]. split; [reflexivity|]. cbn.
    split; [discriminate|]. split; [intros _; split; [reflexivity | eauto]|].
    intros [H | [H | H]]; [discriminate H | discriminate H | lia].
Qed.

(** X19. uploadImage never raises and checks before it uploads: without a
    client, with a type that is not allowed, or with a size over the limit
    it answers with a failure and nothing leaves the service; a success
    means that the checks passed, that the file was uploaded under the
    given name (or a generated one) and that the address returned is the
    public address of that same name; a failure always carries a message
    and no address. *)
Theorem uploadImage_checks_before_it_uploads (o : Storage.Outside)
    (config : Storage.StorageConfig) (file : Storage.Blob) (fileName : option string)
    (made : list Storage.call) :
  exists r calls,
    Storage.uploadImage o config file fileName made = (Returned r, made ++ calls)
    /\ (Storage.success r = true ->
        Storage.supabase o = true
        /\ Storage.validateFileType config (Storage.type file) = true
        /\ Storage.size file <= Storage.maxFileSize config
        /\ exists name,
             name = (if truthy fileName then orEmpty fileName
                     else Storage.generateFileName o "image" (Storage.type file))
             /\ calls = [Storage.CallUpload (Storage.bucketName config) name file;
                         Storage.CallPublicUrl (Storage.bucketName config) name]
             /\ Storage.upload o name file = Returned None
             /\ Storage.url r = Some (Storage.publicUrl o name)
             /\ Storage.error r = None)
    /\ (Storage.success r = false ->
        Storage.url r = None /\ exists message, Storage.error r = Some message)
    /\ (Storage.supabase o = false
        \/ Storage.validateFileType config (Storage.type file) = false
        \/ Storage.maxFileSize config < Storage.size file ->
        Storage.success r = false /\ calls = []).
Proof. apply uploadImage_described. Qed.

(** The file built from a downloaded blob: a blob without a type is taken
    to be a JPEG. *)
Lemma uploadImageFromUrl_described (o : Storage.Outside) (config : Storage.StorageConfig)
    (imageUrl : string) (fileName : option string) (made : list Storage.call) :
  exists r calls,
    Storage.uploadImageFromUrl o config imageUrl fileName made
    = (Returned r, made ++ Storage.CallFetch imageUrl :: calls)
    /\ (Storage.success r = false ->
        Storage.url r = None /\ exists message, Storage.error r = Some message)
    /\ (Storage.success r = true ->
        exists result b name,
          Storage.fetchImageAsBlob o imageUrl = Returned result
          /\ Storage.fetched result = true
          /\ Storage.blob result = Some b
          /\ Storage.size b <= Storage.maxFileSize config
          /\ Storage.validateFileType config
               (if String.eqb (Storage.type b) "" then "image/jpeg" else Storage.type b)
             = true
          /\ calls = [Storage.CallUpload (Storage.bucketName config) name
                        (Storage.mkBlob
                           (if String.eqb (Storage.type b) "" then "image/jpeg"
                            else Storage.type b)
                           (Storage.size b));
                      Storage.CallPublicUrl (Storage.bucketName config) name]
          /\ Storage.url r = Some (Storage.publicUrl o name))
    /\ (forall result,
          Storage.fetchImageAsBlob o imageUrl = Returned result ->
          Storage.fetched result = false \/ Storage.blob result = None ->
          calls = []
          /\ r = Storage.failure (if truthy (Storage.fetchError result)
                                   then orEmpty (Storage.fetchError result)
                                   else "无法获取图片内容"))
    /\ (forall x,
          Storage.fetchImageAsBlob o imageUrl = Thrown x ->
          calls = [] /\ r = Storage.failure (Storage.messageOr x "从 URL 上传失败")).
Proof.
  unfold Storage.uploadImageFromUrl, Storage.tryCatch.
  unfold Storage.bind at 1, Storage.perform at 1.
  destruct (Storage.fetchImageAsBlob o imageUrl) as [result|x] eqn:Hfetch.
  - destruct (Storage.fetched result) eqn:Hok, (Storage.blob result) as [b|] eqn:Hblob.
    + set (file := Storage.mkBlob _ _).
      destruct (uploadImage_described o config file fileName
                  (made ++ [Storage.CallFetch imageUrl]))
        as (r & calls & Hrun & Hsuccess & Hfailure & _).
      rewrite Hrun. exists r, calls. rewrite <- app_assoc. split; [reflexivity|].
      split; [exact Hfailure|]. split.
      * intros Hr. destruct (Hsuccess Hr) as (_ & Htype & Hsize & name & _ & Hcalls & _ & Hurl & _).
        exists result, b, name. subst file. cbn in Htype, Hsize. auto 10.
      * split; [|intros x Hx; discriminate Hx].
        intros result' [= <-] [H | H]; congruence.
    + eexists _, []. split; [reflexivity|]. cbn.
      split; [intros _; split; [reflexivity | eauto]|]. split; [discriminate|].
      split; [|intros x Hx; discriminate Hx].
      intros result' [= <-] _. split; reflexivity.
    + eexists _, []. split; [reflexivity|]. cbn.
      split; [intros _; split; [reflexivity | eauto]|]. split; [discriminate|].
      split; [|intros x Hx; discriminate Hx].
      intros result' [= <-] _. split; reflexivity.
    + eexists _, []. split; [reflexivity|]. cbn.
      split; [intros _; split; [reflexivity | eauto]|]. split; [discriminate|].
      split; [|intros x Hx; discriminate Hx].
      intros result' [= <-] _. split; reflexivity.
  - eexists _, []. split; [reflexivity|]. cbn.
    split; [intros _; split; [reflexivity | eauto]|]. split; [discriminate|].
    split; [intros result Hr; discriminate Hr|].
    intros x' [= <-]. split; reflexivity.
Qed.

(** X20. uploadImageFromUrl never raises, whatever the proxy and Supabase
    do: it always answers, after asking the proxy for the image.  When the
    proxy throws, reports failure or returns no blob, nothing is uploaded
    and the answer is a failure with a message; a success means that the
    downloaded blob, taken to be a JPEG when it has no type, passed the
    checks of uploadImage and was uploaded, and the answer carries its
    public address. *)
Theorem uploadImageFromUrl_never_raises (o : Storage.Outside)
    (config : Storage.StorageConfig) (imageUrl : string) (fileName : option string)
    (made : list Storage.call) :
  exists r calls,
    Storage.uploadImageFromUrl o config imageUrl fileName made
    = (Returned r, made ++ Storage.CallFetch imageUrl :: calls)
    /\ (Storage.success r = false ->
        Storage.url r = None /\ exists message, Storage.error r = Some message)
    /\ (Storage.success r = true ->
        exists result b name,
          Storage.fetchImageAsBlob o imageUrl = Returned result
          /\ Storage.fetched result = true
          /\ Storage.blob result = Some b
          /\ Storage.size b <= Storage.maxFileSize config
          /\ Storage.validateFileType config
               (if String.eqb (Storage.type b) "" then "image/jpeg" else Storage.type b)
             = true
          /\ calls = [Storage.CallUpload (Storage.bucketName config) name
                        (Storage.mkBlob
                           (if String.eqb (Storage.type b) "" then "image/jpeg"
                            else Storage.type b)
                           (Storage.size b));
                      Storage.CallPublicUrl (Storage.bucketName config) name]
          /\ Storage.url r = Some (Storage.publicUrl o name))
    /\ (forall result,
          Storage.fetchImageAsBlob o imageUrl = Returned result ->
          Storage.fetched result = false \/ Storage.blob result = None ->
          calls = []
          /\ r = Storage.failure (if truthy (Storage.fetchError result)
                                   then orEmpty (Storage.fetchError result)
                                   else "无法获取图片内容"))
    /\ (forall x,
          Storage.fetchImageAsBlob o imageUrl = Thrown x ->
          calls = [] /\ r = Storage.failure (Storage.messageOr x "从 URL 上传失败")).
Proof. apply uploadImageFromUrl_described. Qed.

(** X21. With this storage service behind it, re-hosting never ends in its
    exception branch: an item whose storage answer is what
    uploadImageFromUrl returns gets the note of a saved image together
    with the public address, or the note of a failed upload together with
    the address the adapter returned; the note of an upload that threw is
    never written. *)
Theorem rehosting_through_the_storage_service_never_throws
    (o : Storage.Outside) (config : Storage.StorageConfig) (made : list Storage.call)
    (e : ItemEnv) (r : StandardResponse) (X : string) (w : World) :
  success r = true ->
  imageUrl r = Some X ->
  X <> "" ->
  uploadResult e = (Storage.uploadImageFromUrl o config X None made).1 ->
  exists final w',
    uploadToStorageIfNeeded e r w = Some (Returned final, w')
    /\ message final <> Some (orEmpty (message r) +:+ uploadThrewNote)
    /\ ((exists name,
           imageUrl final = Some (Storage.publicUrl o name)
           /\ Storage.publicUrl o name <> ""
           /\ message final = Some (orEmpty (message r) +:+ savedNote))
        \/ (imageUrl final = Some X
            /\ message final = Some (orEmpty (message r) +:+ uploadFailedNote))).
Proof.
  intros Hsuccess Hurl HX Hstorage.
  destruct (uploadImageFromUrl_described o config X None made)
    as (u & calls & Hrun & Hfailure & Hsaved & _).
  rewrite Hrun in Hstorage. cbn [fst] in Hstorage.
  rewrite uploadToStorageIfNeeded_run. eexists _, _. split; [reflexivity|].
  unfold rehosted, needsUpload. rewrite Hsuccess, Hurl, (truthy_Some X HX), Hstorage.
  cbn [andb].
  assert (Hnotes : forall m : string,
             m +:+ savedNote <> m +:+ uploadThrewNote
             /\ m +:+ uploadFailedNote <> m +:+ uploadThrewNote).
  { intros m. induction m as [|ch m IH]; [split; discriminate|].
    destruct IH as [IH1 IH2]. split; intros [= H]; auto. }
  destruct (Storage.success u) eqn:Hu; cbn [andb].
  - destruct (Hsaved eq_refl) as (result & b & name & _ & _ & _ & _ & _ & _ & Hpublic).
    rewrite Hpublic.
    destruct (truthy (Some (Storage.publicUrl o name))) eqn:Htruthy.
    + cbn. split; [intros [= H]; exact (proj1 (Hnotes _) H)|].
      left. exists name. split; [reflexivity|]. split; [|reflexivity].
      intros Hempty. rewrite Hempty in Htruthy. discriminate Htruthy.
    + cbn. split; [intros [= H]; exact (proj2 (Hnotes _) H)|].
      right. rewrite Hurl. split; reflexivity.
  - cbn. split; [intros [= H]; exact (proj2 (Hnotes _) H)|].
    right. rewrite Hurl. split; reflexivity.
Qed.

Lemma rehosting_through_the_storage_service_never_throws_witness :
  exists final w',
    uploadToStorageIfNeeded
      (Example.answering true (Returned Example.provided)
         (Storage.uploadImageFromUrl
            Example.unreachable
            Storage.DEFAULT_CONFIG "https://provider.example/1.png" None []).1)
      Example.provided (initialWorld 0) = Some (Returned final, w')
    /\ message final <> Some (orEmpty (message Example.provided) +:+ uploadThrewNote).
Proof.
  destruct (rehosting_through_the_storage_service_never_throws
              Example.unreachable
              Storage.DEFAULT_CONFIG []
              (Example.answering true (Returned Example.provided)
                 (Storage.uploadImageFromUrl
                    Example.unreachable
                    Storage.DEFAULT_CONFIG "https://provider.example/1.png" None []).1)
              Example.provided "https://provider.example/1.png" (initialWorld 0))
    as (final & w' & Hrun & Hnote & _).
  - reflexivity.
  - reflexivity.
  - discriminate.
  - reflexivity.
  - exists final, w'. split; [exact Hrun | exact Hnote].
Defined.

(** ** The chat input behind the streaming entry point *)

Lemma replay_app (name : string) (count : Z) (evs1 evs2 : list event) (h : ChatInput.Shared) :
  ChatInput.replay name count (evs1 ++ evs2) h =
  match ChatInput.replay name count evs1 h with
  | Returned h' => ChatInput.replay name count evs2 h'
  | Thrown e => Thrown e
  end.
Proof.
  revert h. induction evs1 as [|ev evs1 IH]; intros h; [reflexivity|].
  cbn [app ChatInput.replay]. destruct (ChatInput.deliver name count ev h); [apply IH | reflexivity].
Qed.

Lemma successes_snoc (rs : list StandardResponse) (r : StandardResponse) :
  successes (rs ++ [r]) = successes rs + (if success r then 1 else 0).
Proof.
  unfold successes. rewrite List.filter_app, length_app. cbn [List.filter].
  destruct (success r); cbn [length]; lia.
Qed.

(** onProgress called for the results [rs], with the indices 0, 1, ...:
    entry after entry the placeholders are settled. *)
Lemma replay_progress (name : string) (count n : Z) (rs : list StandardResponse)
    (ph : list ChatInput.ImageResult) (st : ChatInput.Status)
    (imgs : gmap string (list ChatInput.ImageResult)) :
  (length rs <= length ph)%nat ->
  exists h,
    ChatInput.replay name count (imap (fun k r => EvProgress r (Z.of_nat k) n) rs)
      (ChatInput.mkShared ph st imgs) = Returned h
    /\ ChatInput.results h
       = zip_with ChatInput.settle (take (length rs) ph) rs ++ drop (length rs) ph
    /\ ChatInput.status h
       = ChatInput.mkStatus (ChatInput.success st + successes rs)
           (ChatInput.failed st + (Z.of_nat (length rs) - successes rs))
           (ChatInput.total st)
           (ChatInput.generating st - Z.of_nat (length rs))
    /\ (rs = [] -> ChatInput.images h = imgs)
    /\ (rs <> [] -> ChatInput.images h = <[name := ChatInput.results h]> imgs).
Proof.
  induction rs as [|r rs IH] using rev_ind; intros Hlen.
  - eexists. split; [reflexivity|]. cbn. rewrite drop_0.
    split; [reflexivity|]. split; [|split; [reflexivity | congruence]].
    unfold successes. cbn. destruct st; cbn. f_equal; lia.
  - rewrite length_app in Hlen. cbn [length] in Hlen.
    destruct IH as (h & Hrun & Hres & Hst & Himg0 & Himg1); [lia|].
    rewrite imap_app, replay_app, Hrun. cbn [imap ChatInput.replay ChatInput.deliver].
    rewrite Nat.add_0_r.
    set (k := length rs) in *.
    destruct (lookup_lt_is_Some_2 ph k) as [p Hp]; [lia|].
    assert (Hk : length (zip_with ChatInput.settle (take k ph) rs) = k).
    { rewrite length_zip_with, length_take. subst k. lia. }
    assert (Hat : ChatInput.at_ (ChatInput.results h) (Z.of_nat k) = Some p).
    { unfold ChatInput.at_. destruct (Z.ltb_spec (Z.of_nat k) 0) as [Hneg|_]; [lia|].
      rewrite Nat2Z.id, Hres, lookup_app_r by lia.
      rewrite Hk, Nat.sub_diag, lookup_drop, Nat.add_0_r. exact Hp. }
    unfold ChatInput.onProgress. rewrite Hat, Nat2Z.id.
    assert (Hnew : <[k := ChatInput.settle p r]> (ChatInput.results h)
                   = zip_with ChatInput.settle (take (length (rs ++ [r])) ph) (rs ++ [r])
                     ++ drop (length (rs ++ [r])) ph).
    { rewrite Hres, length_app. cbn [length]. fold k.
      replace (k + 1)%nat with (S k) by lia.
      rewrite (take_S_r ph k p Hp).
      rewrite zip_with_app by (rewrite length_take; subst k; lia).
      cbn [zip_with]. rewrite <- app_assoc. cbn [app].
      rewrite insert_app_r_alt by lia.
      rewrite Hk, Nat.sub_diag. rewrite (drop_S ph p k Hp). reflexivity. }
    eexists. split; [reflexivity|].
    cbn [ChatInput.results ChatInput.status ChatInput.images].
    split; [exact Hnew|]. split.
    + rewrite Hst, successes_snoc, length_app. cbn [length]. fold k.
      destruct (success r); cbn; f_equal; lia.
    + split; [intros Hnil; destruct rs; discriminate Hnil|].
      intros _. destruct rs as [|r0 rs'].
      * rewrite (Himg0 eq_refl). reflexivity.
      * rewrite Himg1 by discriminate. rewrite insert_insert_eq. reflexivity.
Qed.

Lemma progress_of_slots (b : Behaviour) (env : nat -> ItemEnv) (req : ServiceRequest) (n : Z)
    (ts : list Z) :
  imap (fun k t => EvProgress (itemResult b (env (0 + k)%nat) req t) (Z.of_nat (0 + k)) n) ts
  = imap (fun k r => EvProgress r (Z.of_nat k) n) (slots b env req 0 ts).
Proof.
  apply list_eq. intros i. unfold slots. rewrite !list_lookup_imap.
  destruct (ts !! i); reflexivity.
Qed.

Lemma settled_entries (ph : list ChatInput.ImageResult) (rs : list StandardResponse) :
  length rs = length ph ->
  Forall (fun r => ChatInput.isGenerating r = false) (zip_with ChatInput.settle ph rs)
  /\ List.map ChatInput.id (zip_with ChatInput.settle ph rs) = List.map ChatInput.id ph.
Proof.
  revert rs. induction ph as [|p ph IH]; intros [|r rs] Hlen; try discriminate Hlen.
  - split; [constructor | reflexivity].
  - destruct (IH rs) as [Hgen Hid]; [cbn in Hlen; lia|].
    cbn [zip_with List.map]. split; [constructor; [reflexivity | exact Hgen]|].
    rewrite Hid. reflexivity.
Qed.

Lemma placeholders_length (newId : nat -> string) (count : Z)
    (ph : list ChatInput.ImageResult) :
  ChatInput.placeholders newId count = Returned ph ->
  length ph = Z.to_nat count
  /\ Forall (fun r => ChatInput.isGenerating r = true) ph.
Proof.
  unfold ChatInput.placeholders. destruct (count <? 0); [discriminate|].
  intros [= <-]. rewrite length_map, length_seq. split; [reflexivity|].
  apply Forall_forall. intros r Hr. apply list_elem_of_In, List.in_map_iff in Hr as (i & <- & _).
  reflexivity.
Qed.

(** X22. The chat input behind a streamed batch.  For a model with count
    N >= 1 the hook lays out N placeholders and hands the dispatcher its
    callbacks; run in the order the dispatcher makes them, no callback
    throws, and when onComplete has been called every placeholder is
    settled with the result of its own index, under the id it had, none is
    left generating, the list is the one shown for the model, and the
    counters of the message have moved by N: success by the number of
    successful results, failed by all the others. *)
Theorem streamed_batch_settles_every_placeholder
    (group : string) (c : Registry.GroupConfig)
    (generateFn : ItemEnv -> ServiceRequest -> M StandardResponse) (b : Behaviour)
    (env : nat -> ItemEnv) (prompt : string) (model : option string) (N : Z)
    (name : string) (newId : nat -> string) (ph : list ChatInput.ImageResult)
    (st : ChatInput.Status) (imgs : gmap string (list ChatInput.ImageResult)) (w : World) :
  Registry.getModelConfigByGroup group = Returned (Registry.JGroupConfig c) ->
  behaves generateFn b ->
  1 <= N ->
  ChatInput.placeholders newId N = Returned ph ->
  getActiveRequests w group < Registry.maxConcurrent c ->
  exists fuel0, forall fuel, (fuel0 <= fuel)%nat ->
    exists w' evs response md h,
      generateMultipleImagesStream fuel env group (mkServiceRequest prompt model (Some N))
        generateFn (ChatInput.streamRequest N) w = Some (Returned tt, w')
      /\ trace w' = trace w ++ evs
      /\ last (callbacks evs) = Some (EvComplete response)
      /\ metadata response = Some md
      /\ ChatInput.replay name N (callbacks evs) (ChatInput.mkShared ph st imgs) = Returned h
      /\ ChatInput.results h = zip_with ChatInput.settle ph (results response)
      /\ length (ChatInput.results h) = Z.to_nat N
      /\ Forall (fun r => ChatInput.isGenerating r = false) (ChatInput.results h)
      /\ List.map ChatInput.id (ChatInput.results h) = List.map ChatInput.id ph
      /\ ChatInput.images h = <[name := ChatInput.results h]> imgs
      /\ ChatInput.status h
         = ChatInput.mkStatus (ChatInput.success st + successful md)
             (ChatInput.failed st + (N - successful md))
             (ChatInput.total st)
             (ChatInput.generating st - N).
Proof.
  intros Hcfg Hb HN Hph Hfree.
  apply placeholders_length in Hph as [Hphlen _].
  set (req := mkServiceRequest prompt model (Some N)).
  set (bound := Z.max (Registry.cooldownMs c)
                  (getLastRequestTime w group + Registry.cooldownMs c - now w)).
  exists (S (Z.to_nat bound)). intros fuel Hfuel.
  assert (Hbound : Registry.cooldownMs c <= bound) by (subst bound; lia).
  assert (Hfuel' : (Z.to_nat bound < fuel)%nat) by lia.
  pose proof (admissible_start group c w Hfree) as Hadm. fold bound in Hadm.
  destruct (generateMultipleImagesStream_run group c Hcfg generateFn b Hb bound fuel Hbound
              Hfuel' env req (ChatInput.streamRequest N) w Hadm)
    as (ts & w' & Hlen & (_ & _ & Htrace & _) & Hrun).
  assert (Hn : orNumber (streamCount (ChatInput.streamRequest N))
                 (orNumber (count req) DEFAULT_COUNT) = N).
  { cbn. apply (orNumber_Some_pos N _ HN). }
  rewrite Hn in Hlen, Htrace.
  cbn [ChatInput.streamRequest onComplete] in Htrace.
  set (rs := slots b env req 0 ts) in *.
  assert (Hrs : length rs = length ph) by (subst rs; rewrite slots_length; lia).
  destruct (replay_progress name N N rs ph st imgs) as (h & Hreplay & Hres & Hst & _ & Himg);
    [lia|].
  assert (Hcallbacks :
    callbacks (streamCalls b (ChatInput.streamRequest N) N env req 0 ts
               ++ [EvComplete (summary N (collected b env req 0 (Z.to_nat N)) rs)])
    = imap (fun k r => EvProgress r (Z.of_nat k) N) rs
      ++ [EvComplete (summary N (collected b env req 0 (Z.to_nat N)) rs)]).
  { rewrite callbacks_app, callbacks_streamCalls by apply Hb.
    cbn [ChatInput.streamRequest onProgress]. rewrite progress_of_slots. reflexivity. }
  rewrite Hrs, firstn_all, drop_all, app_nil_r in Hres.
  destruct (settled_entries ph rs Hrs) as [Hgen Hid].
  eexists w', _, _, _, h.
  split; [exact Hrun|]. split; [exact Htrace|].
  rewrite Hcallbacks.
  split; [apply last_snoc|]. split; [reflexivity|].
  split; [rewrite replay_app, Hreplay; reflexivity|].
  cbn [results summary successful].
  split; [exact Hres|].
  split; [rewrite Hres, length_zip_with; lia|].
  split; [rewrite Hres; exact Hgen|].
  split; [rewrite Hres; exact Hid|].
  split.
  - apply Himg. intros Hnil. rewrite Hnil in Hrs. cbn in Hrs. lia.
  - rewrite Hst. unfold successes. f_equal; lia.
Qed.

Lemma streamed_batch_settles_every_placeholder_witness :
  exists fuel0, forall fuel, (fuel0 <= fuel)%nat ->
    exists w' evs h,
      generateMultipleImagesStream fuel Example.alternating "openai"
        (mkServiceRequest "a cat" None (Some 3)) (gpt4oRequestFn Example.keys)
        (ChatInput.streamRequest 3) (initialWorld Example.pageLoad) = Some (Returned tt, w')
      /\ trace w' = trace (initialWorld Example.pageLoad) ++ evs
      /\ ChatInput.replay "GPT-4o-Image" 3 (callbacks evs)
           (ChatInput.mkShared
              Example.threePlaceholders
              (ChatInput.mkStatus 0 0 3 3) ∅) = Returned h
      /\ ChatInput.generating (ChatInput.status h) = 0
      /\ ChatInput.success (ChatInput.status h) + ChatInput.failed (ChatInput.status h) = 3.
Proof.
  destruct (streamed_batch_settles_every_placeholder "openai" Example.twoAtATime
              (gpt4oRequestFn Example.keys) (gpt4oBehaviour Example.keys) Example.alternating
              "a cat" None 3 "GPT-4o-Image" Example.newId
              Example.threePlaceholders
              (ChatInput.mkStatus 0 0 3 3) ∅ (initialWorld Example.pageLoad))
    as [fuel0 H].
  - reflexivity.
  - apply gpt4oRequestFn_behaves.
  - lia.
  - reflexivity.
  - vm_compute. reflexivity.
  - exists fuel0. intros fuel Hfuel.
    destruct (H fuel Hfuel) as (w' & evs & response & md & h & Hrun & Htrace & _ & _ & Hreplay
                                & _ & _ & _ & _ & _ & Hst).
    exists w', evs, h. split; [exact Hrun|]. split; [exact Htrace|]. split; [exact Hreplay|].
    rewrite Hst. cbn. split; lia.
Defined.

(** X23. A model the dispatcher refuses before dispatch (its group is one
    of cogview, tongyi, jimeng) comes back through onError, once, and the
    hook then shows every placeholder of the model as failed, with the
    message of the dispatcher, and moves the whole count of the model from
    generating to failed; the admission ledger is untouched. *)
Theorem refused_model_fails_every_placeholder
    (fuel : nat) (env : nat -> ItemEnv) (modelId prompt : string) (m : Registry.ImageModel)
    (count : Z) (modelConfig : option ModelConfig) (name : string)
    (ph : list ChatInput.ImageResult) (st : ChatInput.Status)
    (imgs : gmap string (list ChatInput.ImageResult)) (w : World) :
  Registry.getModelById modelId = Some m ->
  Registry.group m = "cogview" \/ Registry.group m = "tongyi" \/ Registry.group m = "jimeng" ->
  exists w' evs h,
    generateImageStream fuel env modelId prompt (Some count) (ChatInput.streamRequest count)
      modelConfig w = Some (Returned tt, w')
    /\ trace w' = trace w ++ evs
    /\ activeRequests w' = activeRequests w
    /\ lastRequestTime w' = lastRequestTime w
    /\ ChatInput.replay name count (callbacks evs) (ChatInput.mkShared ph st imgs) = Returned h
    /\ ChatInput.status h
       = ChatInput.mkStatus (ChatInput.success st) (ChatInput.failed st + count)
           (ChatInput.total st) (ChatInput.generating st - count)
    /\ ChatInput.images h
       = <[name := List.map
                     (fun p => ChatInput.mkImageResult (ChatInput.id p) None None
                                 (Some "生成失败")
                                 (Some (unsupportedCategory (Registry.category m)))
                                 false (ChatInput.createdAt p))
                     ph]> imgs.
Proof.
  intros Hm Hgroup.
  assert (Hrun : generateImageStream fuel env modelId prompt (Some count)
                   (ChatInput.streamRequest count) modelConfig w
                 = Some (Returned tt,
                         mkWorld (activeRequests w) (lastRequestTime w) (now w)
                           (trace w ++ [EvError (ErrorObj (unsupportedCategory
                                                             (Registry.category m)))]))).
  { unfold generateImageStream, bind, liftOutcome, Registry.getModelStatus.
    rewrite Hm. unfold callOnError, emit.
    destruct Hgroup as [Hg | [Hg | Hg]]; rewrite Hg; cbn; rewrite ?Hg; reflexivity. }
  eexists _, _, _. split; [exact Hrun|]. cbn [trace activeRequests lastRequestTime].
  split; [reflexivity|]. split; [reflexivity|]. split; [reflexivity|].
  split; [reflexivity|]. split; reflexivity.
Qed.

Lemma refused_model_fails_every_placeholder_witness :
  ChatInput.placeholders Example.newId 2 = Returned Example.twoPlaceholders
  /\ exists w' evs h,
       generateImageStream 0 Example.allGood "cogView-4-250304" "a cat" (Some 2)
         (ChatInput.streamRequest 2) Example.keys (initialWorld 0) = Some (Returned tt, w')
       /\ trace w' = trace (initialWorld 0) ++ evs
       /\ activeRequests w' = activeRequests (initialWorld 0)
       /\ lastRequestTime w' = lastRequestTime (initialWorld 0)
       /\ ChatInput.replay "CogView-4" 2 (callbacks evs)
            (ChatInput.mkShared Example.twoPlaceholders (ChatInput.mkStatus 0 0 2 2) ∅)
          = Returned h
       /\ ChatInput.status h = ChatInput.mkStatus 0 2 2 0
       /\ ChatInput.images h
          = <["CogView-4" :=
                [ ChatInput.mkImageResult "img_0" None None (Some "生成失败")
                    (Some "暂不支持 智谱 模型组") false None;
                  ChatInput.mkImageResult "img_1" None None (Some "生成失败")
                    (Some "暂不支持 智谱 模型组") false None ]]> ∅.
Proof.
  split; [reflexivity|].
  apply (refused_model_fails_every_placeholder 0 Example.allGood "cogView-4-250304" "a cat"
           (Registry.mkImageModel "cogView-4-250304" "CogView-4" "智谱" "cogview")
           2 Example.keys "CogView-4" Example.twoPlaceholders (ChatInput.mkStatus 0 0 2 2) ∅
           (initialWorld 0)).
  - reflexivity.
  - left. reflexivity.
Defined.

Lemma deliver_conserves (name : string) (count : Z) (ev : event) (h h' : ChatInput.Shared) :
  ChatInput.deliver name count ev h = Returned h' ->
  ChatInput.success (ChatInput.status h') + ChatInput.failed (ChatInput.status h')
    + ChatInput.generating (ChatInput.status h')
  = ChatInput.success (ChatInput.status h) + ChatInput.failed (ChatInput.status h)
    + ChatInput.generating (ChatInput.status h)
  /\ ChatInput.total (ChatInput.status h') = ChatInput.total (ChatInput.status h)
  /\ ChatInput.success (ChatInput.status h) <= ChatInput.success (ChatInput.status h')
  /\ List.map ChatInput.id (ChatInput.results h') = List.map ChatInput.id (ChatInput.results h).
Proof.
  destruct ev as [g p mo|u|result index tot|response|e]; cbn [ChatInput.deliver];
    try (intros [= <-]; repeat split; lia).
  - unfold ChatInput.onProgress, ChatInput.at_.
    destruct (index <? 0); [discriminate|].
    destruct (ChatInput.results h !! Z.to_nat index) as [old|] eqn:Hold; [|discriminate].
    intros [= <-]. cbn [ChatInput.status ChatInput.results].
    destruct (success result); cbn; (split; [lia|]); (split; [reflexivity|]); (split; [lia|]).
    all: rewrite list_fmap_insert; cbn [ChatInput.settle ChatInput.id];
      apply list_insert_id; rewrite list_lookup_fmap, Hold; reflexivity.
  - intros [= <-]. cbn. repeat split; lia.
Qed.

Lemma replay_conserves (name : string) (count : Z) (evs : list event)
    (h h' : ChatInput.Shared) :
  ChatInput.replay name count evs h = Returned h' ->
  ChatInput.success (ChatInput.status h') + ChatInput.failed (ChatInput.status h')
    + ChatInput.generating (ChatInput.status h')
  = ChatInput.success (ChatInput.status h) + ChatInput.failed (ChatInput.status h)
    + ChatInput.generating (ChatInput.status h)
  /\ ChatInput.total (ChatInput.status h') = ChatInput.total (ChatInput.status h)
  /\ ChatInput.success (ChatInput.status h) <= ChatInput.success (ChatInput.status h')
  /\ List.map ChatInput.id (ChatInput.results h') = List.map ChatInput.id (ChatInput.results h).
Proof.
  revert h. induction evs as [|ev evs IH]; intros h; cbn [ChatInput.replay].
  - intros [= <-]. repeat split; lia.
  - destruct (ChatInput.deliver name count ev h) as [h1|x] eqn:Hev; [|discriminate].
    intros Hrest. apply deliver_conserves in Hev as (H1 & H2 & H3 & H4).
    apply IH in Hrest as (K1 & K2 & K3 & K4).
    split; [lia|]. split; [congruence|]. split; [lia | congruence].
Qed.

Lemma totalCount_from (currentModels : list ChatInput.SelectedModel) (sum : Z) :
  Forall (fun model => 0 <= ChatInput.count model) currentModels ->
  fold_left (fun sum model => sum + ChatInput.count model) currentModels sum
  = sum + Z.of_nat (list_sum (List.map (fun model => Z.to_nat (ChatInput.count model))
                                currentModels)).
Proof.
  intros Hall. revert sum. induction Hall as [|model rest Hcount _ IH]; intros sum.
  - cbn. lia.
  - cbn [fold_left List.map]. rewrite IH.
    change (list_sum (?a :: ?l)) with (a + list_sum l)%nat. lia.
Qed.

Lemma deliver_failed (name : string) (count : Z) (ev : event) (h h' : ChatInput.Shared) :
  0 <= count ->
  ChatInput.deliver name count ev h = Returned h' ->
  ChatInput.failed (ChatInput.status h) <= ChatInput.failed (ChatInput.status h').
Proof.
  intros Hcount.
  destruct ev as [g p mo|u|result index tot|response|e]; cbn [ChatInput.deliver];
    try (intros [= <-]; lia).
  - unfold ChatInput.onProgress.
    destruct (ChatInput.at_ (ChatInput.results h) index) as [old|]; [|discriminate].
    intros [= <-]. cbn [ChatInput.status]. destruct (success result); cbn; lia.
  - intros [= <-]. cbn. lia.
Qed.

Lemma closure_ids_kept (cl : list (option (list ChatInput.ImageResult))) (k : nat)
    (closure closure' : list ChatInput.ImageResult) :
  cl !! k = Some (Some closure) ->
  List.map ChatInput.id closure' = List.map ChatInput.id closure ->
  List.map (option_map (List.map ChatInput.id)) (<[k := Some closure']> cl)
  = List.map (option_map (List.map ChatInput.id)) cl.
Proof.
  intros Hk Hid.
  change (List.map (option_map (List.map ChatInput.id)))
    with (fmap (M := list) (option_map (List.map ChatInput.id))).
  rewrite list_fmap_insert. apply list_insert_id.
  rewrite list_lookup_fmap, Hk. cbn. rewrite Hid. reflexivity.
Qed.

Lemma giveUp_conserves (name : string) (count : Z) (errorMessage : string)
    (errorId : nat -> string) (m : ChatInput.Message) :
  ChatInput.resultsStatus (ChatInput.giveUp name count errorMessage errorId m)
  = ChatInput.mkStatus (ChatInput.success (ChatInput.resultsStatus m))
      (ChatInput.failed (ChatInput.resultsStatus m) + count)
      (ChatInput.total (ChatInput.resultsStatus m))
      (ChatInput.generating (ChatInput.resultsStatus m) - count)
  /\ ChatInput.closures (ChatInput.giveUp name count errorMessage errorId m)
     = ChatInput.closures m.
Proof. unfold ChatInput.giveUp. destruct (count <? 0); split; reflexivity. Qed.

Lemma happen_conserves (currentModels : list ChatInput.SelectedModel)
    (hp : ChatInput.happening) (m : ChatInput.Message) :
  Forall (fun model => 0 <= ChatInput.count model) currentModels ->
  let m' := ChatInput.happen currentModels hp m in
  ChatInput.success (ChatInput.resultsStatus m') + ChatInput.failed (ChatInput.resultsStatus m')
    + ChatInput.generating (ChatInput.resultsStatus m')
  = ChatInput.success (ChatInput.resultsStatus m) + ChatInput.failed (ChatInput.resultsStatus m)
    + ChatInput.generating (ChatInput.resultsStatus m)
  /\ ChatInput.total (ChatInput.resultsStatus m') = ChatInput.total (ChatInput.resultsStatus m)
  /\ ChatInput.success (ChatInput.resultsStatus m)
     <= ChatInput.success (ChatInput.resultsStatus m')
  /\ ChatInput.failed (ChatInput.resultsStatus m) <= ChatInput.failed (ChatInput.resultsStatus m')
  /\ List.map (option_map (List.map ChatInput.id)) (ChatInput.closures m')
     = List.map (option_map (List.map ChatInput.id)) (ChatInput.closures m).
Proof.
  intros Hcounts m'. subst m'.
  assert (Hsame : forall k model,
            currentModels !! k = Some model -> 0 <= ChatInput.count model).
  { intros k model Hk. rewrite Forall_lookup in Hcounts. exact (Hcounts k model Hk). }
  destruct hp as [k ev | k errorId | k e errorId]; cbn [ChatInput.happen].
  - destruct (currentModels !! k) as [model|] eqn:Hmodel; [|repeat split; lia].
    destruct (ChatInput.closures m !! k) as [[closure|]|] eqn:Hclosure;
      [|repeat split; lia | repeat split; lia].
    destruct (ChatInput.deliver _ _ ev _) as [h|x] eqn:Hev; [|repeat split; lia].
    pose proof (deliver_failed _ _ _ _ _ (Hsame k model Hmodel) Hev) as Hfailed.
    apply deliver_conserves in Hev as (H1 & H2 & H3 & H4).
    cbn [ChatInput.status ChatInput.results ChatInput.resultsStatus ChatInput.closures] in *.
    split; [exact H1|]. split; [exact H2|]. split; [exact H3|]. split; [exact Hfailed|].
    apply (closure_ids_kept _ k closure); assumption.
  - destruct (currentModels !! k) as [model|] eqn:Hmodel; [|repeat split; lia].
    pose proof (Hsame k model Hmodel) as Hcount.
    destruct (giveUp_conserves (ChatInput.name model) (ChatInput.count model)
                ("模型未找到: " +:+ ChatInput.name model) errorId m) as [-> ->].
    cbn. repeat split; lia.
  - destruct (currentModels !! k) as [model|] eqn:Hmodel; [|repeat split; lia].
    pose proof (Hsame k model Hmodel) as Hcount.
    destruct (giveUp_conserves (ChatInput.name model) (ChatInput.count model)
                (ChatInput.caughtMessage e) errorId m) as [-> ->].
    cbn. repeat split; lia.
Qed.

(** X24. Whatever happens to a message that has been sent, and in whatever
    order, its counters keep adding up.  The status is the one laid out by
    handleSendMessage for the selected models, shared by all of them; the
    happenings are the callbacks the dispatcher makes for any of the
    models (an onProgress that throws included), a model that is not in
    the catalog, and the catch around the call of the dispatcher.  With
    counts that are not negative, after any sequence of them
    success + failed + generating is still total, total is the number of
    placeholders laid out for the selected models, neither success nor
    failed is below zero, and the arrays of the closures keep their ids. *)
Theorem status_counters_keep_adding_up
    (currentModels : list ChatInput.SelectedModel) (hs : list ChatInput.happening)
    (imgs : gmap string (list ChatInput.ImageResult))
    (cl : list (option (list ChatInput.ImageResult))) :
  Forall (fun model => 0 <= ChatInput.count model) currentModels ->
  let m := ChatInput.happenAll currentModels hs
             (ChatInput.mkMessage (ChatInput.initialStatus currentModels) imgs cl) in
  ChatInput.success (ChatInput.resultsStatus m) + ChatInput.failed (ChatInput.resultsStatus m)
    + ChatInput.generating (ChatInput.resultsStatus m)
  = ChatInput.total (ChatInput.resultsStatus m)
  /\ ChatInput.total (ChatInput.resultsStatus m)
     = Z.of_nat (list_sum (List.map (fun model => Z.to_nat (ChatInput.count model))
                             currentModels))
  /\ 0 <= ChatInput.success (ChatInput.resultsStatus m)
  /\ 0 <= ChatInput.failed (ChatInput.resultsStatus m)
  /\ List.map (option_map (List.map ChatInput.id)) (ChatInput.closures m)
     = List.map (option_map (List.map ChatInput.id)) cl.
Proof.
  intros Hcounts.
  assert (Hinv : forall hs m0,
            let m := ChatInput.happenAll currentModels hs m0 in
            ChatInput.success (ChatInput.resultsStatus m)
              + ChatInput.failed (ChatInput.resultsStatus m)
              + ChatInput.generating (ChatInput.resultsStatus m)
            = ChatInput.success (ChatInput.resultsStatus m0)
              + ChatInput.failed (ChatInput.resultsStatus m0)
              + ChatInput.generating (ChatInput.resultsStatus m0)
            /\ ChatInput.total (ChatInput.resultsStatus m)
               = ChatInput.total (ChatInput.resultsStatus m0)
            /\ ChatInput.success (ChatInput.resultsStatus m0)
               <= ChatInput.success (ChatInput.resultsStatus m)
            /\ ChatInput.failed (ChatInput.resultsStatus m0)
               <= ChatInput.failed (ChatInput.resultsStatus m)
            /\ List.map (option_map (List.map ChatInput.id)) (ChatInput.closures m)
               = List.map (option_map (List.map ChatInput.id)) (ChatInput.closures m0)).
  { clear hs. induction hs as [|hp hs IH]; intros m0; cbn zeta.
    - cbn. repeat split; lia.
    - unfold ChatInput.happenAll. cbn [fold_left].
      destruct (happen_conserves currentModels hp m0 Hcounts) as (H1 & H2 & H3 & H4 & H5).
      destruct (IH (ChatInput.happen currentModels hp m0)) as (K1 & K2 & K3 & K4 & K5).
      unfold ChatInput.happenAll in K1, K2, K3, K4, K5.
      split; [lia|]. split; [congruence|]. split; [lia|]. split; [lia | congruence]. }
  intros m. subst m.
  destruct (Hinv hs (ChatInput.mkMessage (ChatInput.initialStatus currentModels) imgs cl))
    as (H1 & H2 & H3 & H4 & H5).
  cbn [ChatInput.resultsStatus ChatInput.closures ChatInput.initialStatus ChatInput.success
         ChatInput.failed ChatInput.generating ChatInput.total] in *.
  unfold ChatInput.totalCount in *.
  rewrite (totalCount_from currentModels 0 Hcounts) in *.
  repeat split; try lia. exact H5.
Qed.

Lemma status_counters_keep_adding_up_witness :
  let m := ChatInput.happenAll Example.threeSelected Example.eventful Example.justSent in
  ChatInput.resultsStatus m = ChatInput.mkStatus 1 3 4 0
  /\ ChatInput.resultsImages m
     = <["GPT-4o-Image" :=
           [ ChatInput.mkImageResult "img_0" (Some "https://provider.example/1.png") None None
               None false (Some 7);
             ChatInput.mkImageResult "img_1" None None (Some "provider rejected the prompt")
               (Some "provider rejected the prompt") false (Some 9) ]]>
       (<["CogView-4" :=
            [ ChatInput.mkImageResult "img_0" None None (Some "生成失败")
                (Some "暂不支持 智谱 模型组") false None ]]>
          (<["DALL-E 3" :=
               [ ChatInput.mkImageResult "img_error_img_0" None None (Some "生成失败")
                   (Some "模型未找到: DALL-E 3") false None ]]> ∅))
  /\ ChatInput.success (ChatInput.resultsStatus m) + ChatInput.failed (ChatInput.resultsStatus m)
       + ChatInput.generating (ChatInput.resultsStatus m)
     = ChatInput.total (ChatInput.resultsStatus m)
  /\ ChatInput.total (ChatInput.resultsStatus m) = 4
  /\ 0 <= ChatInput.success (ChatInput.resultsStatus m)
  /\ 0 <= ChatInput.failed (ChatInput.resultsStatus m)
  /\ List.map (option_map (List.map ChatInput.id)) (ChatInput.closures m)
     = [Some ["img_0"; "img_1"]; Some ["img_0"]; None].
Proof.
  split; [vm_compute; reflexivity|].
  split; [vm_compute; reflexivity|].
  apply (status_counters_keep_adding_up Example.threeSelected Example.eventful ∅
           [ Some Example.twoPlaceholders;
             Some [ChatInput.mkImageResult "img_0" None None None None true None];
             None ]).
  repeat constructor; cbn; lia.
Defined.

(** ** The model store *)

Lemma find_absent {A : Type} (p : A -> bool) (l : list A) :
  (forall x, In x l -> p x = false) -> List.find p l = None.
Proof.
  intros Hall. destruct (List.find p l) as [x|] eqn:Hfind; [|reflexivity].
  apply List.find_some in Hfind as [Hin Hp]. rewrite (Hall x Hin) in Hp. discriminate Hp.
Qed.


Lemma imap_unchanged {A : Type} (f : nat -> A -> A) (l : list A) :
  (forall j x, f j x = x) -> imap f l = l.
Proof.
  revert f. induction l as [|x l IH]; intros f Hf; [reflexivity|].
  rewrite imap_cons, Hf. f_equal. apply IH. intros j y. apply Hf.
Qed.

Section Store.

Variable TestStatus : Type.
Variable NOT_TESTED : TestStatus.




(** The first configuration that satisfies [p] is the one replaced. *)
Lemma replace_at_findIndex (p : ModelStore.ModelConfig TestStatus -> bool)
    (config : ModelStore.ModelConfig TestStatus)
    (configs : list (ModelStore.ModelConfig TestStatus)) (i : nat) :
  ModelStore.findIndex TestStatus p configs = Some i ->
  exists before old after,
    configs = before ++ old :: after
    /\ length before = i
    /\ p old = true
    /\ (forall c, In c before -> p c = false)
    /\ imap (fun index existing => if Nat.eqb index i then config else existing) configs
       = before ++ config :: after.
Proof.
  revert i. induction configs as [|c rest IH]; intros i Hfind; [discriminate Hfind|].
  cbn [ModelStore.findIndex] in Hfind. destruct (p c) eqn:Hp.
  - injection Hfind as <-. exists [], c, rest.
    split; [reflexivity|]. split; [reflexivity|]. split; [exact Hp|].
    split; [intros c' []|].
    rewrite imap_cons. cbn [Nat.eqb app]. f_equal.
    apply imap_unchanged. intros j x. reflexivity.
  - destruct (ModelStore.findIndex TestStatus p rest) as [i'|] eqn:Hrest; [|discriminate Hfind].
    injection Hfind as <-.
    destruct (IH i' eq_refl) as (before & old & after & -> & Hlen & Hold & Hbefore & Himap).
    exists (c :: before), old, after.
    split; [reflexivity|]. split; [cbn; lia|]. split; [exact Hold|].
    split; [intros c' [<- | Hc']; [exact Hp | exact (Hbefore c' Hc')]|].
    rewrite imap_cons. cbn [Nat.eqb app]. f_equal.
    rewrite <- Himap. apply imap_ext. intros j x _. reflexivity.
Qed.

Lemma findIndex_None (p : ModelStore.ModelConfig TestStatus -> bool)
    (configs : list (ModelStore.ModelConfig TestStatus)) :
  ModelStore.findIndex TestStatus p configs = None ->
  forall c, In c configs -> p c = false.
Proof.
  induction configs as [|c rest IH]; intros Hfind c' Hin; [destruct Hin|].
  cbn [ModelStore.findIndex] in Hfind. destruct (p c) eqn:Hp; [discriminate Hfind|].
  destruct (ModelStore.findIndex TestStatus p rest); [discriminate Hfind|].
  destruct Hin as [<- | Hin]; [exact Hp | exact (IH eq_refl c' Hin)].
Qed.

Lemma find_app_absent {A : Type} (p : A -> bool) (l1 l2 : list A) :
  (forall x, In x l1 -> p x = false) -> List.find p (l1 ++ l2) = List.find p l2.
Proof.
  induction l1 as [|x l1 IH]; intros Hall; [reflexivity|].
  cbn [app List.find]. rewrite (Hall x) by (left; reflexivity).
  apply IH. intros y Hy. apply Hall. right. exact Hy.
Qed.

Lemma find_app_same {A : Type} (p : A -> bool) (l1 l2 l2' : list A) :
  List.find p l2 = List.find p l2' -> List.find p (l1 ++ l2) = List.find p (l1 ++ l2').
Proof.
  intros Hsame. induction l1 as [|x l1 IH]; [exact Hsame|].
  cbn [app List.find]. destruct (p x); [reflexivity | exact IH].
Qed.

(** X26. addOrUpdateModelConfig files a configuration under its model_id:
    afterwards the lookup of that model_id returns the configuration handed
    in, the lookup of every other model_id returns what it returned before,
    and the list has grown by one exactly when the model_id was new (the
    new configuration then comes first); a configuration that was there is
    replaced where it stood. *)
Theorem addOrUpdateModelConfig_files_under_model_id
    (config : ModelStore.ModelConfig TestStatus) (s : ModelStore.State TestStatus) :
  let lookup (key : string) (configs : list (ModelStore.ModelConfig TestStatus)) :=
    List.find (fun c => String.eqb (ModelStore.model_id c) key) configs in
  let s' := ModelStore.addOrUpdateModelConfig TestStatus NOT_TESTED config s in
  lookup (ModelStore.model_id config) (ModelStore.modelConfigs s') = Some config
  /\ (forall key, key <> ModelStore.model_id config ->
        lookup key (ModelStore.modelConfigs s') = lookup key (ModelStore.modelConfigs s))
  /\ (lookup (ModelStore.model_id config) (ModelStore.modelConfigs s) = None ->
      ModelStore.modelConfigs s' = config :: ModelStore.modelConfigs s)
  /\ (forall old,
        lookup (ModelStore.model_id config) (ModelStore.modelConfigs s) = Some old ->
        length (ModelStore.modelConfigs s') = length (ModelStore.modelConfigs s)
        /\ exists before after,
             ModelStore.modelConfigs s = before ++ old :: after
             /\ ModelStore.modelConfigs s' = before ++ config :: after).
Proof.
  intros lookup s'. subst lookup s'. unfold ModelStore.addOrUpdateModelConfig.
  cbn [ModelStore.modelConfigs].
  set (p := fun existing : ModelStore.ModelConfig TestStatus =>
              String.eqb (ModelStore.model_id existing) (ModelStore.model_id config)).
  destruct (ModelStore.findIndex TestStatus p (ModelStore.modelConfigs s)) as [i|] eqn:Hfind.
  - destruct (replace_at_findIndex p config _ i Hfind)
      as (before & old & after & Hsplit & Hlen & Hold & Hbefore & Himap).
    rewrite Himap, Hsplit.
    split.
    { rewrite (find_app_absent p) by exact Hbefore. cbn [List.find]. subst p. cbn.
      rewrite String.eqb_refl. reflexivity. }
    split.
    { intros key Hkey. apply find_app_same. cbn [List.find].
      assert (Hnew : String.eqb (ModelStore.model_id config) key = false).
      { apply String.eqb_neq. congruence. }
      assert (Hwas : String.eqb (ModelStore.model_id old) key = false).
      { apply String.eqb_neq. subst p. cbn in Hold. apply String.eqb_eq in Hold. congruence. }
      rewrite Hnew, Hwas. reflexivity. }
    split.
    { rewrite (find_app_absent p) by exact Hbefore. cbn [List.find]. rewrite Hold.
      discriminate. }
    intros old' Hold'. rewrite (find_app_absent p) in Hold' by exact Hbefore.
    cbn [List.find] in Hold'. rewrite Hold in Hold'. injection Hold' as <-.
    split; [rewrite !length_app; reflexivity|].
    exists before, after. split; reflexivity.
  - pose proof (findIndex_None p _ Hfind) as Hnone.
    split.
    { cbn [List.find]. unfold p. rewrite String.eqb_refl. reflexivity. }
    split.
    { intros key Hkey.
      assert (Hnew : String.eqb (ModelStore.model_id config) key = false).
      { apply String.eqb_neq. congruence. }
      cbn [List.find]. rewrite Hnew. reflexivity. }
    split; [reflexivity|].
    intros old Hold. rewrite (find_absent p _ Hnone) in Hold. discriminate Hold.
Qed.

End Store.

